(** * GAIA cost accounting: [fix_cost.py], [analyze_cost.py], [get_score.py]

    A shallow embedding of the three scripts under [evaluation/gaia/] and the
    properties of their record handling, retry detection, cost reconciliation
    and aggregation.

    Conventions of the embedding.
    - A Python object obtained from [json.loads] is a [pyval]; a [dict] is an
      association list in insertion order, read by first match.
    - A Python [int] is a [Z]; a Python [float] is an IEEE binary64 value, a
      [spec_float] computed with precision 53 and maximal exponent 1024.
    - A Python [str] is a [string] whose characters are the code points 0 to
      255 (ASCII and Latin-1); [str.lower], [str.strip], [str.isspace] and
      [int(str)] are modelled on all 256 of them. Text with a code point above
      255 is not in the model.
    - A raised exception is the [Raise] case of [result]; the statements of a
      function body are sequenced with the bind of that monad, in the order
      in which Python evaluates them.
    - A text file is the list of the lines its iterator yields. Opening a
      file for writing and writing to it can fail: a [Disk] tells how each
      write ends. *)

From Stdlib Require Import ZArith List String Ascii Bool Lia.
From Stdlib Require Import Sorting.Permutation.
From Stdlib Require Import Floats.SpecFloat.
From Stdlib Require Import Numbers.DecimalString.
Import ListNotations.

Set Warnings "-register-all".

Local Open Scope string_scope.
Local Open Scope Z_scope.

(* ================================================================== *)
(** * Python values and the built-in operations the scripts use        *)
(* ================================================================== *)

Module Py.

(** The exceptions the modelled statements can raise. [JSONDecodeError]
    carries the document that failed to parse: Python computes the position,
    line and column it reports from that string alone. *)
Inductive exn : Type :=
| AttributeError
| TypeError
| ValueError
| OverflowError
| ZeroDivisionError
| IndexError
| KeyError (key : string)
| JSONDecodeError (doc : string)
| FileNotFoundError (path : string)
| OSError
| UnicodeEncodeError
| SystemExit (code : Z).

Inductive result (A : Type) : Type :=
| Ok (a : A)
| Raise (e : exn).

Arguments Ok {A} a.
Arguments Raise {A} e.

Definition bind {A B : Type} (m : result A) (k : A -> result B) : result B :=
  match m with
  | Ok a => k a
  | Raise e => Raise e
  end.

Notation "x <- m ;; k" := (bind m (fun x => k))
  (at level 61, m at next level, right associativity).
Notation "' pat <- m ;; k" := (bind m (fun x => match x with pat => k end))
  (at level 61, pat pattern, m at next level, right associativity).

Inductive pyval : Type :=
| PNone
| PBool (b : bool)
| PInt (n : Z)
| PFloat (x : spec_float)
| PStr (s : string)
| PList (l : list pyval)
| PDict (d : list (string * pyval)).

Definition dict : Type := list (string * pyval).

(** ** Dictionaries *)

Fixpoint dict_lookup (k : string) (d : dict) : option pyval :=
  match d with
  | [] => None
  | (k', v) :: d' => if String.eqb k k' then Some v else dict_lookup k d'
  end.

(** [d[k] = v]: an existing key keeps its place, a new key goes last. *)
Fixpoint dict_set (k : string) (v : pyval) (d : dict) : dict :=
  match d with
  | [] => [(k, v)]
  | (k', v') :: d' =>
      if String.eqb k k' then (k, v) :: d' else (k', v') :: dict_set k v d'
  end.

(** [o.get(k, default)]: only a dict has the method. *)
Definition py_get (o : pyval) (k : string) (default : pyval) : result pyval :=
  match o with
  | PDict d =>
      Ok (match dict_lookup k d with Some v => v | None => default end)
  | _ => Raise AttributeError
  end.

(** [o[k]] for a string key [k]. *)
Definition py_getitem (o : pyval) (k : string) : result pyval :=
  match o with
  | PDict d =>
      match dict_lookup k d with
      | Some v => Ok v
      | None => Raise (KeyError k)
      end
  | _ => Raise TypeError
  end.

(** ** Truth value, as [if o:] and [not o] test it *)

Definition truthy (o : pyval) : bool :=
  match o with
  | PNone => false
  | PBool b => b
  | PInt n => negb (n =? 0)
  | PFloat (S754_zero _) => false
  | PFloat _ => true
  | PStr s => negb (String.eqb s "")
  | PList l => match l with [] => false | _ => true end
  | PDict d => match d with [] => false | _ => true end
  end.

(** [o == s] for a string literal [s]. *)
Definition py_eq_str (o : pyval) (s : string) : bool :=
  match o with
  | PStr t => String.eqb t s
  | _ => false
  end.

(** ** Strings *)

Definition nl : string := String (ascii_of_nat 10) EmptyString.

(** [c.isspace()], the characters [str.strip] removes: tab to carriage
    return, the four separators U+001C to U+001F, the space, the next-line
    control U+0085 and the no-break space U+00A0. *)
Definition is_space (c : ascii) : bool :=
  let n := nat_of_ascii c in
  ((9 <=? n)%nat && (n <=? 13)%nat) || ((28 <=? n)%nat && (n <=? 32)%nat)
  || (n =? 133)%nat || (n =? 160)%nat.

(** [not line.strip()]: stripping leaves nothing iff every character is
    white space. *)
Fixpoint is_blank (s : string) : bool :=
  match s with
  | EmptyString => true
  | String c r => is_space c && is_blank r
  end.

(** [c.lower()]: the capitals A to Z, and the Latin-1 capitals U+00C0 to
    U+00DE without the multiplication sign U+00D7, move 32 places up. *)
Definition lower_ascii (c : ascii) : ascii :=
  let n := nat_of_ascii c in
  if (((65 <=? n)%nat && (n <=? 90)%nat)
      || ((192 <=? n)%nat && (n <=? 222)%nat && negb (n =? 215)%nat))%bool
  then ascii_of_nat (n + 32) else c.

Fixpoint lower (s : string) : string :=
  match s with
  | EmptyString => EmptyString
  | String c r => String (lower_ascii c) (lower r)
  end.

Fixpoint starts_with (p s : string) : bool :=
  match p, s with
  | EmptyString, _ => true
  | String _ _, EmptyString => false
  | String a p', String b s' => Ascii.eqb a b && starts_with p' s'
  end.

(** [needle in hay] *)
Fixpoint contains (needle hay : string) : bool :=
  starts_with needle hay
  || match hay with
     | EmptyString => false
     | String _ r => contains needle r
     end.

(** [s.replace(old, new)] for a non-empty [old]: every occurrence, scanning
    from the left, occurrences not overlapping. [skip] counts the characters
    of a matched occurrence still to be dropped. *)
Fixpoint replace_from (old new : string) (skip : nat) (s : string) : string :=
  match s with
  | EmptyString => EmptyString
  | String c r =>
      match skip with
      | S n => replace_from old new n r
      | O =>
          if starts_with old s
          then new ++ replace_from old new (String.length old - 1) r
          else String c (replace_from old new O r)
      end
  end.

Fixpoint interleave (new s : string) : string :=
  match s with
  | EmptyString => new
  | String c r => new ++ String c (interleave new r)
  end.

Definition str_replace (s old new : string) : string :=
  match old with
  | EmptyString => interleave new s
  | String _ _ => replace_from old new O s
  end.

Fixpoint str_repeat (s : string) (n : nat) : string :=
  match n with
  | O => EmptyString
  | S n' => s ++ str_repeat s n'
  end.

Fixpoint list_repeat {A : Type} (l : list A) (n : nat) : list A :=
  match n with
  | O => []
  | S n' => l ++ list_repeat l n'
  end.

(** ** Floats *)

Definition prec : Z := 53.
Definition emax : Z := 1024.

Definition fmul : spec_float -> spec_float -> spec_float := SFmul prec emax.
Definition fadd : spec_float -> spec_float -> spec_float := SFadd prec emax.
Definition fdiv : spec_float -> spec_float -> spec_float := SFdiv prec emax.

(** The literal [0.0]. *)
Definition fzero : spec_float := S754_zero false.

Definition finite_or_overflow (x : spec_float) : result spec_float :=
  match x with
  | S754_infinity _ => Raise OverflowError
  | _ => Ok x
  end.

(** The conversion of an [int] operand to [float]: correctly rounded, and an
    [OverflowError] beyond the largest finite float. *)
Definition float_of_int (n : Z) : result spec_float :=
  finite_or_overflow (binary_normalize prec emax n 0 false).

(** [int(x)] for a float: truncation toward zero. *)
Definition float_trunc (x : spec_float) : result Z :=
  match x with
  | S754_zero _ => Ok 0
  | S754_infinity _ => Raise OverflowError
  | S754_nan => Raise ValueError
  | S754_finite s m e =>
      let a := Z.shiftl (Zpos m) e in
      Ok (if s then - a else a)
  end.

(** An integer as an unrounded quotient operand. *)
Definition exact_float (n : Z) : spec_float :=
  match n with
  | Z0 => S754_zero false
  | Zpos p => S754_finite false p 0
  | Zneg p => S754_finite true p 0
  end.

(** [a / b] for two ints: the correctly rounded quotient. *)
Definition int_truediv (a b : Z) : result spec_float :=
  if b =? 0 then Raise ZeroDivisionError
  else if a =? 0 then Ok (S754_zero (b <? 0))
  else finite_or_overflow (fdiv (exact_float a) (exact_float b)).

(** [x / b] for a float and an int. *)
Definition float_truediv_int (x : spec_float) (b : Z) : result spec_float :=
  if b =? 0 then Raise ZeroDivisionError
  else fb <- float_of_int b ;; Ok (fdiv x fb).

(** ** Decimal text *)

(** [str(n)] for an int. *)
Definition str_of_int (n : Z) : string := NilZero.string_of_int (Z.to_int n).

Definition digit_char (d : Z) : ascii := ascii_of_nat (48 + Z.to_nat d).

Definition digit_of (c : ascii) : option Z :=
  let n := nat_of_ascii c in
  if ((48 <=? n)%nat && (n <=? 57)%nat)%bool
  then Some (Z.of_nat (n - 48)) else None.

(** The white space [int] accepts around a literal: tab to carriage return,
    the space, U+0085 and U+00A0, and not the separators U+001C to U+001F. *)
Definition is_int_space (c : ascii) : bool :=
  let n := nat_of_ascii c in
  ((9 <=? n)%nat && (n <=? 13)%nat) || (n =? 32)%nat
  || (n =? 133)%nat || (n =? 160)%nat.

Fixpoint lstrip (l : list ascii) : list ascii :=
  match l with
  | c :: r => if is_int_space c then lstrip r else l
  | [] => []
  end.

Definition strip (l : list ascii) : list ascii := rev (lstrip (rev (lstrip l))).

(** The digits of an integer literal: at least one, and an underscore only
    between two digits. *)
Fixpoint parse_digits (acc : Z) (after_digit : bool) (l : list ascii)
  : option Z :=
  match l with
  | [] => if after_digit then Some acc else None
  | c :: r =>
      match digit_of c with
      | Some d => parse_digits (10 * acc + d) true r
      | None =>
          if (Ascii.eqb c "_"%char && after_digit)%bool
          then parse_digits acc false r
          else None
      end
  end.

(** [int(s)] for a string, base ten (the interpreter's optional limit on the
    number of digits is not modelled). *)
Definition int_of_str (s : string) : result Z :=
  let parsed :=
    match strip (list_ascii_of_string s) with
    | c :: r =>
        if Ascii.eqb c "-"%char then option_map Z.opp (parse_digits 0 false r)
        else if Ascii.eqb c "+"%char then parse_digits 0 false r
        else parse_digits 0 false (c :: r)
    | [] => None
    end in
  match parsed with
  | Some n => Ok n
  | None => Raise ValueError
  end.

(** [n / d] rounded to the nearest integer, ties to even ([0 <= n], [0 < d]). *)
Definition div_half_even (n d : Z) : Z :=
  let q := n / d in
  match (2 * (n mod d) ?= d) with
  | Lt => q
  | Gt => q + 1
  | Eq => if Z.even q then q else q + 1
  end.

(** The magnitude [m * 2^e] in ten-thousandths, correctly rounded. *)
Definition ten_thousandths (m : positive) (e : Z) : Z :=
  if 0 <=? e then Zpos m * 2 ^ e * 10000
  else div_half_even (Zpos m * 10000) (2 ^ (- e)).

Definition four_digits (n : Z) : string :=
  String (digit_char (n / 1000 mod 10))
    (String (digit_char (n / 100 mod 10))
       (String (digit_char (n / 10 mod 10))
          (String (digit_char (n mod 10)) EmptyString))).

(** [f"{x:.4f}"] for a float. *)
Definition format_4f (x : spec_float) : string :=
  match x with
  | S754_nan => "nan"
  | S754_infinity s => if s then "-inf" else "inf"
  | S754_zero s => (if s then "-" else "") ++ "0.0000"
  | S754_finite s m e =>
      let n := ten_thousandths m e in
      (if s then "-" else "") ++ str_of_int (n / 10000) ++ "."
        ++ four_digits (n mod 10000)
  end.

(** ** Arithmetic on objects *)

Definition int_of_bool (b : bool) : Z := if b then 1 else 0.

(** [o * m] for an int [m]. A sequence is repeated, a number multiplied. *)
Definition py_mul_int (o : pyval) (m : Z) : result pyval :=
  match o with
  | PInt n => Ok (PInt (n * m))
  | PBool b => Ok (PInt (int_of_bool b * m))
  | PFloat x => fm <- float_of_int m ;; Ok (PFloat (fmul x fm))
  | PStr s => Ok (PStr (str_repeat s (Z.to_nat m)))
  | PList l => Ok (PList (list_repeat l (Z.to_nat m)))
  | PNone | PDict _ => Raise TypeError
  end.

(** [int(o)] *)
Definition py_int (o : pyval) : result Z :=
  match o with
  | PInt n => Ok n
  | PBool b => Ok (int_of_bool b)
  | PFloat x => float_trunc x
  | PStr s => int_of_str s
  | PNone | PList _ | PDict _ => Raise TypeError
  end.

(** [acc + o] for a float accumulator. *)
Definition float_add (acc : spec_float) (o : pyval) : result spec_float :=
  match o with
  | PFloat x => Ok (fadd acc x)
  | PInt n => x <- float_of_int n ;; Ok (fadd acc x)
  | PBool b => x <- float_of_int (int_of_bool b) ;; Ok (fadd acc x)
  | _ => Raise TypeError
  end.

(** A numeric accumulator that starts as the int [0]: it stays an int while
    ints are added and becomes a float with the first float. *)
Inductive num : Type :=
| NInt (n : Z)
| NFloat (x : spec_float).

Definition num_add (acc : num) (o : pyval) : result num :=
  match acc with
  | NFloat a => x <- float_add a o ;; Ok (NFloat x)
  | NInt a =>
      match o with
      | PInt n => Ok (NInt (a + n))
      | PBool b => Ok (NInt (a + int_of_bool b))
      | PFloat x => fa <- float_of_int a ;; Ok (NFloat (fadd fa x))
      | _ => Raise TypeError
      end
  end.

(** [acc / n] for a count [n]. *)
Definition num_truediv (acc : num) (n : Z) : result spec_float :=
  match acc with
  | NInt a => int_truediv a n
  | NFloat x => float_truediv_int x n
  end.

(** [f"{o:.4f}"]: a number is formatted, a string has no such format code,
    other objects accept no format specification. *)
Definition py_format_4f (o : pyval) : result string :=
  match o with
  | PFloat x => Ok (format_4f x)
  | PInt n => x <- float_of_int n ;; Ok (format_4f x)
  | PBool b => x <- float_of_int (int_of_bool b) ;; Ok (format_4f x)
  | PStr _ => Raise ValueError
  | PNone | PList _ | PDict _ => Raise TypeError
  end.

(** [for x in o]: the items a loop over [o] visits. *)
Definition py_iter (o : pyval) : result (list pyval) :=
  match o with
  | PList l => Ok l
  | PDict d => Ok (map (fun kv => PStr (fst kv)) d)
  | PStr s =>
      Ok (map (fun c => PStr (String c EmptyString)) (list_ascii_of_string s))
  | PNone | PBool _ | PInt _ | PFloat _ => Raise TypeError
  end.

End Py.

Import Py.

(** The loop [for x in items: st = step(st, x)], left at the first
    exception. *)
Fixpoint for_each {S X : Type} (step : S -> X -> result S) (items : list X)
    (st : S) : result S :=
  match items with
  | [] => Ok st
  | x :: rest => st' <- step st x ;; for_each step rest st'
  end.

(** The [json] module: [loads] fails with a [JSONDecodeError] on a document
    that is not valid JSON ([None] here), [dumps] renders an object. *)
Class Json : Type := {
  json_loads : string -> option pyval;
  json_dumps : pyval -> string
}.

Definition loads `{Json} (doc : string) : result pyval :=
  match json_loads doc with
  | Some o => Ok o
  | None => Raise (JSONDecodeError doc)
  end.

(** Files by path, each the list of its lines. Paths are plain names; the
    null device discards what is written to it. *)
Definition fs : Type := string -> option (list string).

Definition dev_null : string := "/dev/null".

(** How [with open(path, 'w') as f: for line in lines: f.write(line)] ends:
    every line is written; or [open] raises (a path that cannot be created, a
    directory, a missing permission) and no file changes; or a [write] or the
    closing flush raises (a full disk, a character the encoding of the file
    does not have) after [open] has emptied the file, which then holds what
    had reached it. *)
Inductive write_outcome : Type :=
| Written
| OpenFailed (e : exn)
| WriteFailed (e : exn) (reached : list string).

(** The outcome depends on the machine the script runs on: a [Disk] gives it
    for every path and every text to be written. *)
Class Disk : Type := {
  write_outcome_of : string -> list string -> write_outcome
}.

Definition fs_set (files : fs) (path : string) (lines : list string) : fs :=
  if String.eqb path dev_null then files
  else fun p => if String.eqb p path then Some lines else files p.

Definition fs_write `{Disk} (files : fs) (path : string) (lines : list string)
  : result unit * fs :=
  match write_outcome_of path lines with
  | Written => (Ok tt, fs_set files path lines)
  | OpenFailed e => (Raise e, files)
  | WriteFailed e reached => (Raise e, fs_set files path reached)
  end.

(* ================================================================== *)
(** * [fix_cost.py]                                                    *)
(* ================================================================== *)

Module FixCost.

Definition retry_phrase : string := "try to resolve the case again".
Definition unresolved_phrase : string := "Case not resolved".
Definition meta_phrase : string := "existing agent system".
Definition meta_marker : string := "MetaChain".

(** The three counters of [detect_retry_pattern]. *)
Record signals : Type := {
  retry_count : Z;
  case_not_resolved_count : Z;
  has_meta_agent : bool
}.

Definition no_signals : signals :=
  {| retry_count := 0; case_not_resolved_count := 0; has_meta_agent := false |}.

(** One turn of the loop of [detect_retry_pattern]. *)
Definition detect_step (st : signals) (msg : pyval) : result signals :=
  content <- py_get msg "content" (PStr "") ;;
  match content with
  | PStr text =>
      let unresolved :=
        if contains unresolved_phrase text
        then case_not_resolved_count st + 1 else case_not_resolved_count st in
      let retries :=
        if contains retry_phrase (lower text)
        then retry_count st + 1 else retry_count st in
      let meta :=
        if (contains meta_phrase (lower text) && contains meta_marker text)%bool
        then true else has_meta_agent st in
      Ok {| retry_count := retries;
            case_not_resolved_count := unresolved;
            has_meta_agent := meta |}
  | _ => Ok st
  end.

Definition detect_retry_pattern (messages : pyval) : result signals :=
  items <- py_iter messages ;;
  for_each detect_step items no_signals.

(** The prefixes [count_assistant_messages] looks for in the content of a
    tool message. *)
Definition tool_prefixes : list string :=
  ["Open the"; "Re-open"; "Attempt to"; "Check"; "Search"].

(** One turn of the loop of [count_assistant_messages]: the branch for a
    tool message reads the content and tests its prefix, and then only
    passes. *)
Definition count_step (count : Z) (msg : pyval) : result Z :=
  role <- py_get msg "role" (PStr "") ;;
  if py_eq_str role "assistant" then Ok (count + 1)
  else if py_eq_str role "tool" then
    content <- py_get msg "content" (PStr "") ;;
    match content with
    | PStr text =>
        if existsb (fun prefix => starts_with prefix text) tool_prefixes
        then Ok count
        else Ok count
    | _ => Ok count
    end
  else Ok count.

Definition count_assistant_messages (messages : pyval) : result Z :=
  items <- py_iter messages ;;
  for_each count_step items 0.

(** One item of [sum(1 for msg in messages if msg.get('role') == 'assistant')]. *)
Definition estimate_step (total : Z) (msg : pyval) : result Z :=
  role <- py_get msg "role" PNone ;;
  if py_eq_str role "assistant" then Ok (total + 1) else Ok total.

Definition estimate_actual_api_calls (messages : pyval) : result Z :=
  items <- py_iter messages ;;
  for_each estimate_step items 0.

(** [int(usage_stats.get(key, 0) * multiplier)] *)
Definition scaled_tokens (usage_stats : pyval) (key : string) (multiplier : Z)
  : result pyval :=
  v <- py_get usage_stats key (PInt 0) ;;
  p <- py_mul_int v multiplier ;;
  n <- py_int p ;;
  Ok (PInt n).

(** [o.copy()] where [o] is known to have the [get] method. *)
Definition copy_dict (o : pyval) : result dict :=
  match o with
  | PDict d => Ok d
  | _ => Raise AttributeError
  end.

Definition no_usage_stats_reason : string := "No usage_stats found".
Definition no_retries_reason : string := "No retries detected".

Definition fix_instance_cost (instance : pyval)
  : result (pyval * bool * string) :=
  messages <- py_get instance "messages" (PList []) ;;
  test_result <- py_get instance "test_result" (PDict []) ;;
  usage_stats <- py_get test_result "usage_stats" (PDict []) ;;
  if negb (truthy usage_stats) then Ok (instance, false, no_usage_stats_reason)
  else
    sig <- detect_retry_pattern messages ;;
    let retry_count := retry_count sig in
    if retry_count =? 0 then Ok (instance, false, no_retries_reason)
    else
      let multiplier := retry_count + 1 in
      original_cost <- py_get usage_stats "total_cost" (PInt 0) ;;
      prompt_tokens <- scaled_tokens usage_stats "total_prompt_tokens" multiplier ;;
      completion_tokens <-
        scaled_tokens usage_stats "total_completion_tokens" multiplier ;;
      tokens <- scaled_tokens usage_stats "total_tokens" multiplier ;;
      cost <- py_mul_int original_cost multiplier ;;
      calls <- py_get usage_stats "api_calls" (PInt 0) ;;
      scaled_calls <- py_mul_int calls multiplier ;;
      original_calls <- py_get usage_stats "api_calls" (PInt 0) ;;
      let fixed_usage_stats :=
        PDict [ ("total_prompt_tokens", prompt_tokens);
                ("total_completion_tokens", completion_tokens);
                ("total_tokens", tokens);
                ("total_cost", cost);
                ("api_calls", scaled_calls);
                ("_original_cost", original_cost);
                ("_original_api_calls", original_calls);
                ("_retry_count", PInt retry_count);
                ("_multiplier", PInt multiplier) ] in
      instance_copy <- copy_dict instance ;;
      test_result_copy <- copy_dict test_result ;;
      let fixed_instance :=
        PDict (dict_set "test_result"
                 (PDict (dict_set "usage_stats" fixed_usage_stats
                           test_result_copy))
                 instance_copy) in
      before <- py_format_4f original_cost ;;
      product <- py_mul_int original_cost multiplier ;;
      after <- py_format_4f product ;;
      let reason :=
        "Multiplied by " ++ str_of_int multiplier
          ++ " (retry_count=" ++ str_of_int retry_count ++ "), cost: $"
          ++ before ++ " -> $" ++ after in
      Ok (fixed_instance, true, reason).

(** An entry of [summary["modifications"]]. *)
Record modification : Type := {
  mod_instance_id : pyval;
  mod_reason : string;
  mod_original_cost : pyval;
  mod_fixed_cost : pyval
}.

Record summary : Type := {
  total_instances : Z;
  modified_instances : Z;
  original_total_cost : spec_float;
  fixed_total_cost : spec_float;
  modifications : list modification
}.

Definition empty_summary : summary :=
  {| total_instances := 0;
     modified_instances := 0;
     original_total_cost := fzero;
     fixed_total_cost := fzero;
     modifications := [] |}.

(** [o.get('test_result', {}).get('usage_stats', {}).get('total_cost', 0)] *)
Definition recorded_cost (o : pyval) : result pyval :=
  test_result <- py_get o "test_result" (PDict []) ;;
  usage_stats <- py_get test_result "usage_stats" (PDict []) ;;
  py_get usage_stats "total_cost" (PInt 0).

Section WithJson.
Context `{Json} {disk : Disk}.

(** The body of the loop over the input lines in [fix_output_file]: the
    state is the summary and [fixed_lines]. *)
Definition fix_line (st : summary * list string) (line : string)
  : result (summary * list string) :=
  let '(sm, fixed_lines) := st in
  if is_blank line then Ok st
  else
    instance <- loads line ;;
    let count := total_instances sm + 1 in
    original_cost <- recorded_cost instance ;;
    original_total <- float_add (original_total_cost sm) original_cost ;;
    '(fixed_instance, was_modified, reason) <- fix_instance_cost instance ;;
    fixed_cost <- recorded_cost fixed_instance ;;
    fixed_total <- float_add (fixed_total_cost sm) fixed_cost ;;
    instance_id <- py_get instance "instance_id" PNone ;;
    let sm' :=
      {| total_instances := count;
         modified_instances :=
           if was_modified then modified_instances sm + 1
           else modified_instances sm;
         original_total_cost := original_total;
         fixed_total_cost := fixed_total;
         modifications :=
           if was_modified
           then (modifications sm
                   ++ [ {| mod_instance_id := instance_id;
                           mod_reason := reason;
                           mod_original_cost := original_cost;
                           mod_fixed_cost := fixed_cost |} ])%list
           else modifications sm |} in
    Ok (sm', (fixed_lines ++ [json_dumps fixed_instance])%list).

Definition default_output_path (input_path : string) : string :=
  str_replace input_path ".jsonl" "_fixed.jsonl".

(** [fix_output_file]: the result and the files it leaves. The output is
    opened only after every line has been processed, and the summary is
    returned only when the output has been written. *)
Definition fix_output_file (files : fs) (input_path : string)
    (output_path : option string) : result summary * fs :=
  let output_path :=
    match output_path with
    | None => default_output_path input_path
    | Some p => p
    end in
  match files input_path with
  | None => (Raise (FileNotFoundError input_path), files)
  | Some lines =>
      match for_each fix_line lines (empty_summary, []) with
      | Raise e => (Raise e, files)
      | Ok (sm, fixed_lines) =>
          let '(written, files') :=
            fs_write files output_path (map (fun l => l ++ nl) fixed_lines) in
          (_ <- written ;; Ok sm, files')
      end
  end.

(** The parsed command line. *)
Record args : Type := {
  input_file : string;
  output : option string;
  dry_run : bool
}.

(** [main], without the text it prints. *)
Definition main (files : fs) (a : args) : result summary * fs :=
  match files (input_file a) with
  | None => (Raise (SystemExit 1), files)
  | Some _ =>
      let output_path := if dry_run a then Some dev_null else output a in
      fix_output_file files (input_file a) output_path
  end.

End WithJson.

End FixCost.

(* ================================================================== *)
(** * [analyze_cost.py]                                                *)
(* ================================================================== *)

Module AnalyzeCost.

Record total_stats : Type := {
  total_prompt_tokens : num;
  total_completion_tokens : num;
  total_tokens : num;
  total_cost : spec_float;
  total_api_calls : num;
  num_instances : Z
}.

Definition empty_stats : total_stats :=
  {| total_prompt_tokens := NInt 0;
     total_completion_tokens := NInt 0;
     total_tokens := NInt 0;
     total_cost := fzero;
     total_api_calls := NInt 0;
     num_instances := 0 |}.

(** An entry of [instance_costs]. *)
Record instance_cost : Type := {
  ic_instance_id : pyval;
  ic_cost : pyval;
  ic_tokens : pyval;
  ic_api_calls : pyval;
  ic_score : pyval
}.

(** The block printed under "Average per instance:". *)
Record averages : Type := {
  avg_cost : spec_float;
  avg_tokens : spec_float;
  avg_calls : spec_float
}.

(** What [analyze_cost] prints, as values: the totals, the averages when
    they are printed, and the per-instance costs in the order of the file
    (the listing of the five largest is not modelled). *)
Record cost_report : Type := {
  stats : total_stats;
  per_instance : option averages;
  instance_costs : list instance_cost
}.

Section WithJson.
Context `{Json}.

Definition analyze_line (st : total_stats * list instance_cost)
    (line : string) : result (total_stats * list instance_cost) :=
  let '(ts, costs) := st in
  if is_blank line then Ok st
  else
    data <- loads line ;;
    let count := num_instances ts + 1 in
    test_result <- py_get data "test_result" (PDict []) ;;
    usage_stats <- py_get test_result "usage_stats" (PDict []) ;;
    if truthy usage_stats then
      v1 <- py_get usage_stats "total_prompt_tokens" (PInt 0) ;;
      prompt <- num_add (total_prompt_tokens ts) v1 ;;
      v2 <- py_get usage_stats "total_completion_tokens" (PInt 0) ;;
      completion <- num_add (total_completion_tokens ts) v2 ;;
      v3 <- py_get usage_stats "total_tokens" (PInt 0) ;;
      tokens <- num_add (total_tokens ts) v3 ;;
      v4 <- py_get usage_stats "total_cost" (PFloat fzero) ;;
      cost <- float_add (total_cost ts) v4 ;;
      v5 <- py_get usage_stats "api_calls" (PInt 0) ;;
      calls <- num_add (total_api_calls ts) v5 ;;
      instance_id <- py_get data "instance_id" PNone ;;
      score <- py_get test_result "score" (PStr "N/A") ;;
      Ok ({| total_prompt_tokens := prompt;
             total_completion_tokens := completion;
             total_tokens := tokens;
             total_cost := cost;
             total_api_calls := calls;
             num_instances := count |},
          (costs ++ [ {| ic_instance_id := instance_id;
                         ic_cost := v4;
                         ic_tokens := v3;
                         ic_api_calls := v5;
                         ic_score := score |} ])%list)
    else
      Ok ({| total_prompt_tokens := total_prompt_tokens ts;
             total_completion_tokens := total_completion_tokens ts;
             total_tokens := total_tokens ts;
             total_cost := total_cost ts;
             total_api_calls := total_api_calls ts;
             num_instances := count |},
          costs).

(** The averages, computed only under [if total_stats["num_instances"] > 0]. *)
Definition average_block (ts : total_stats) : result (option averages) :=
  if 0 <? num_instances ts then
    c <- float_truediv_int (total_cost ts) (num_instances ts) ;;
    t <- num_truediv (total_tokens ts) (num_instances ts) ;;
    a <- num_truediv (total_api_calls ts) (num_instances ts) ;;
    Ok (Some {| avg_cost := c; avg_tokens := t; avg_calls := a |})
  else Ok None.

Definition analyze_cost (files : fs) (output_file : string)
  : result cost_report :=
  match files output_file with
  | None => Raise (SystemExit 1)
  | Some lines =>
      '(ts, costs) <- for_each analyze_line lines (empty_stats, []) ;;
      avg <- average_block ts ;;
      Ok {| stats := ts; per_instance := avg; instance_costs := costs |}
  end.

End WithJson.

End AnalyzeCost.

(* ================================================================== *)
(** * [get_score.py]                                                   *)
(* ================================================================== *)

Module GetScore.

(** The counters of [main]. *)
Record tally : Type := {
  total : Z;
  success : Z;
  l1_total : Z;
  l1_success : Z;
  l1_cost : spec_float;
  l2_total : Z;
  l2_success : Z;
  l2_cost : spec_float;
  l3_total : Z;
  l3_success : Z;
  l3_cost : spec_float
}.

Definition empty_tally : tally :=
  {| total := 0; success := 0;
     l1_total := 0; l1_success := 0; l1_cost := fzero;
     l2_total := 0; l2_success := 0; l2_cost := fzero;
     l3_total := 0; l3_success := 0; l3_cost := fzero |}.

(** [out['test_result']['score']] *)
Definition score_of (out : pyval) : result pyval :=
  test_result <- py_getitem out "test_result" ;;
  py_getitem test_result "score".

(** [out['instance']['Level']] *)
Definition level_of (out : pyval) : result pyval :=
  instance <- py_getitem out "instance" ;;
  py_getitem instance "Level".

(** [out['test_result']['usage_stats']['total_cost']] *)
Definition cost_of (out : pyval) : result pyval :=
  test_result <- py_getitem out "test_result" ;;
  usage_stats <- py_getitem test_result "usage_stats" ;;
  py_getitem usage_stats "total_cost".

(** The body of [for out in outs]. *)
Definition tally_step (t : tally) (out : pyval) : result tally :=
  let total' := total t + 1 in
  score <- score_of out ;;
  let success' := if truthy score then success t + 1 else success t in
  level <- level_of out ;;
  if py_eq_str level "1" then
    score1 <- score_of out ;;
    cost <- cost_of out ;;
    c <- float_add (l1_cost t) cost ;;
    Ok {| total := total'; success := success';
          l1_total := l1_total t + 1;
          l1_success := if truthy score1 then l1_success t + 1 else l1_success t;
          l1_cost := c;
          l2_total := l2_total t; l2_success := l2_success t;
          l2_cost := l2_cost t;
          l3_total := l3_total t; l3_success := l3_success t;
          l3_cost := l3_cost t |}
  else if py_eq_str level "2" then
    score2 <- score_of out ;;
    cost <- cost_of out ;;
    c <- float_add (l2_cost t) cost ;;
    Ok {| total := total'; success := success';
          l1_total := l1_total t; l1_success := l1_success t;
          l1_cost := l1_cost t;
          l2_total := l2_total t + 1;
          l2_success := if truthy score2 then l2_success t + 1 else l2_success t;
          l2_cost := c;
          l3_total := l3_total t; l3_success := l3_success t;
          l3_cost := l3_cost t |}
  else if py_eq_str level "3" then
    score3 <- score_of out ;;
    cost <- cost_of out ;;
    c <- float_add (l3_cost t) cost ;;
    Ok {| total := total'; success := success';
          l1_total := l1_total t; l1_success := l1_success t;
          l1_cost := l1_cost t;
          l2_total := l2_total t; l2_success := l2_success t;
          l2_cost := l2_cost t;
          l3_total := l3_total t + 1;
          l3_success := if truthy score3 then l3_success t + 1 else l3_success t;
          l3_cost := c |}
  else
    Ok {| total := total'; success := success';
          l1_total := l1_total t; l1_success := l1_success t;
          l1_cost := l1_cost t;
          l2_total := l2_total t; l2_success := l2_success t;
          l2_cost := l2_cost t;
          l3_total := l3_total t; l3_success := l3_success t;
          l3_cost := l3_cost t |}.

(** [s/t * 100] *)
Definition percentage (s t : Z) : result spec_float :=
  q <- int_truediv s t ;;
  hundred <- float_of_int 100 ;;
  Ok (fmul q hundred).

(** [l1_cost + l2_cost + l3_cost], the "Total cost" line. *)
Definition reported_total_cost (t : tally) : spec_float :=
  fadd (fadd (l1_cost t) (l2_cost t)) (l3_cost t).

(** What [main] prints after the loop, as values. *)
Record score_report : Type := {
  counts : tally;
  success_rate : spec_float;
  l1_success_rate : spec_float;
  l2_success_rate : spec_float;
  l3_success_rate : spec_float;
  total_cost : spec_float
}.

Definition report (t : tally) : result score_report :=
  r <- percentage (success t) (total t) ;;
  r1 <- percentage (l1_success t) (l1_total t) ;;
  r2 <- percentage (l2_success t) (l2_total t) ;;
  r3 <- percentage (l3_success t) (l3_total t) ;;
  Ok {| counts := t;
        success_rate := r;
        l1_success_rate := r1;
        l2_success_rate := r2;
        l3_success_rate := r3;
        total_cost := reported_total_cost t |}.

Section WithJson.
Context `{Json}.

(** [outs.append(json.loads(line))] for every line of [f.readlines()]. *)
Definition read_line (outs : list pyval) (line : string)
  : result (list pyval) :=
  o <- loads line ;;
  Ok (outs ++ [o])%list.

Definition main (files : fs) (this_log : string) : result score_report :=
  match files this_log with
  | None => Raise (FileNotFoundError this_log)
  | Some lines =>
      outs <- for_each read_line lines [] ;;
      first <- match outs with
               | [] => Raise IndexError
               | o :: _ => Ok o
               end ;;
      _ <- py_getitem first "metadata" ;;
      t <- for_each tally_step outs empty_tally ;;
      report t
  end.

End WithJson.

End GetScore.

(* ================================================================== *)
(** * Sample records and files                                         *)
(* ================================================================== *)

Module Samples.

Definition quote : string := String (ascii_of_nat 34) EmptyString.

(** A rendering of an object as one line of text, used to write the sample
    files below (floats are shown with four decimals). *)
Fixpoint render (o : pyval) : string :=
  match o with
  | PNone => "null"
  | PBool b => if b then "true" else "false"
  | PInt n => str_of_int n
  | PFloat x => format_4f x
  | PStr s => quote ++ s ++ quote
  | PList l =>
      "[" ++ (fix items (l : list pyval) : string :=
                match l with
                | [] => ""
                | x :: [] => render x
                | x :: r => render x ++ ", " ++ items r
                end) l ++ "]"
  | PDict d =>
      "{" ++ (fix entries (d : list (string * pyval)) : string :=
                match d with
                | [] => ""
                | (k, v) :: [] => quote ++ k ++ quote ++ ": " ++ render v
                | (k, v) :: r =>
                    quote ++ k ++ quote ++ ": " ++ render v ++ ", " ++ entries r
                end) d ++ "}"
  end.

(** The floats 0.02, 0.05, 0.125 and 1.0. *)
Definition f_0_02 : spec_float := S754_finite false 5764607523034235 (-58).
Definition f_0_05 : spec_float := S754_finite false 7205759403792794 (-57).
Definition f_0_125 : spec_float := S754_finite false 4503599627370496 (-55).
Definition f_1_0 : spec_float := S754_finite false 4503599627370496 (-52).

(** The float 3.0, the multiplier of a record retried twice. *)
Definition f_3_0 : spec_float := S754_finite false 6755399441055744 (-51).

Definition message (role content : string) : pyval :=
  PDict [("role", PStr role); ("content", PStr content)].

Definition usage (prompt completion tokens : Z) (cost : spec_float)
    (calls : Z) : dict :=
  [ ("total_prompt_tokens", PInt prompt);
    ("total_completion_tokens", PInt completion);
    ("total_tokens", PInt tokens);
    ("total_cost", PFloat cost);
    ("api_calls", PInt calls) ].

Definition test_result (score : bool) (usage_stats : dict) : dict :=
  [("score", PBool score); ("usage_stats", PDict usage_stats)].

Definition record_fields (id level : string) (messages : list pyval)
    (score : bool) (usage_stats : dict) : dict :=
  [ ("instance_id", PStr id);
    ("instance", PDict [("Level", PStr level)]);
    ("messages", PList messages);
    ("test_result", PDict (test_result score usage_stats));
    ("metadata", PDict [("agent", PStr "triage")]) ].

Definition retry_request : pyval :=
  message "user" "Case not resolved. Please try to resolve the case again.".

Definition messages_a : list pyval :=
  [message "user" "What is the capital of France?";
   message "assistant" "Paris"].

Definition messages_b : list pyval :=
  [message "user" "Find the paper.";
   message "assistant" "I could not find it.";
   retry_request;
   message "assistant" "Still nothing.";
   retry_request;
   message "assistant" "Found it."].

Definition usage_a : dict := usage 800 200 1000 f_0_02 3.
Definition usage_b : dict := usage 700 300 1000 f_0_05 3.

(** A level-1 record with no retry and a cost of 0.02. *)
Definition fields_a : dict := record_fields "task-a" "1" messages_a true usage_a.
Definition record_a : pyval := PDict fields_a.

(** A level-2 record with two retry requests, [total_cost = 0.05],
    [api_calls = 3] and [total_tokens = 1000]. *)
Definition fields_b : dict := record_fields "task-b" "2" messages_b false usage_b.
Definition record_b : pyval := PDict fields_b.

(** The floats 0.15000000000000002 and 0.45000000000000007: 0.05 multiplied
    by 3.0 once and twice. *)
Definition f_0_15 : spec_float := S754_finite false 5404319552844596 (-55).
Definition f_0_45 : spec_float := S754_finite false 8106479329266894 (-54).

(** [record_b] reconciled once, and that result reconciled again. *)
Definition usage_b_once : dict :=
  (usage 2100 900 3000 f_0_15 9
     ++ [ ("_original_cost", PFloat f_0_05); ("_original_api_calls", PInt 3);
          ("_retry_count", PInt 2); ("_multiplier", PInt 3) ])%list.

Definition usage_b_twice : dict :=
  (usage 6300 2700 9000 f_0_45 27
     ++ [ ("_original_cost", PFloat f_0_15); ("_original_api_calls", PInt 9);
          ("_retry_count", PInt 2); ("_multiplier", PInt 3) ])%list.

Definition record_b_once : pyval :=
  PDict (record_fields "task-b" "2" messages_b false usage_b_once).

Definition record_b_twice : pyval :=
  PDict (record_fields "task-b" "2" messages_b false usage_b_twice).

Definition record_c : pyval :=
  PDict (record_fields "task-c" "3" [message "assistant" "42"] true
           (usage 10 5 15 f_0_125 1)).

(** A record whose Level is none of the three tiers. *)
Definition record_d : pyval :=
  PDict (record_fields "task-d" "4" [message "assistant" "none"] true
           (usage 10 5 15 f_1_0 1)).

Definition doc (o : pyval) : string := render o ++ nl.

Definition documents : list pyval := [record_a; record_b; record_c; record_d].

Fixpoint find_document (text : string) (known : list pyval) : option pyval :=
  match known with
  | [] => None
  | o :: rest => if String.eqb text (doc o) then Some o else find_document text rest
  end.

(** A [json] that reads the sample documents and nothing else. *)
#[export] Instance sample_json : Json := {
  json_loads := fun text => find_document text documents;
  json_dumps := render
}.

(** A disk on which every write succeeds. *)
Definition reliable_disk : Disk := {|
  write_outcome_of := fun _ _ => Written
|}.

(** A disk on which the directory "locked" cannot be written to, and which is
    full once one line has been written to a file under "small". *)
Definition worn_disk : Disk := {|
  write_outcome_of := fun path lines =>
    if starts_with "locked/" path then OpenFailed OSError
    else if starts_with "small/" path then
      match lines with
      | first :: _ :: _ => WriteFailed OSError [first]
      | _ => Written
      end
    else Written
|}.

Definition blank_line : string := nl.
Definition bad_line : string := "{not json" ++ nl.

Definition sample_files : fs := fun path =>
  if String.eqb path "scenario_a.jsonl" then Some [doc record_a]
  else if String.eqb path "scenario_b.jsonl" then Some [doc record_b]
  else if String.eqb path "blank_tail.jsonl" then
    Some [doc record_a; doc record_b; doc record_c; blank_line]
  else if String.eqb path "levels.jsonl" then
    Some [doc record_a; doc record_b; doc record_c; doc record_d]
  else if String.eqb path "bad_first.jsonl" then Some [bad_line; doc record_a]
  else if String.eqb path "bad_second.jsonl" then Some [doc record_a; bad_line]
  else None.

(** A record with retry requests in a malformed transcript (its second
    message is a number) and no usage_stats. *)
Definition fields_no_usage : dict :=
  [ ("instance_id", PStr "task-e");
    ("messages", PList [retry_request; PInt 7]);
    ("test_result", PDict [("score", PBool false)]) ].

(** The summary of a run of the fix on the sample files, and the files it
    leaves. *)
Definition fix_summary (path : string) (out : option string)
  : FixCost.summary :=
  match fst (FixCost.fix_output_file (disk := reliable_disk)
               sample_files path out) with
  | Ok sm => sm
  | Raise _ => FixCost.empty_summary
  end.

Definition fix_files (path : string) (out : option string) : fs :=
  snd (FixCost.fix_output_file (disk := reliable_disk) sample_files path out).

(** The sample files with one more, whose name holds no ".jsonl". *)
Definition plain_files : fs := fun path =>
  if String.eqb path "results.txt" then Some [doc record_b]
  else sample_files path.

(** The report of the analysis of a sample file. *)
Definition analysis (path : string) : AnalyzeCost.cost_report :=
  match AnalyzeCost.analyze_cost sample_files path with
  | Ok r => r
  | Raise _ =>
      {| AnalyzeCost.stats := AnalyzeCost.empty_stats;
         AnalyzeCost.per_instance := None;
         AnalyzeCost.instance_costs := [] |}
  end.

(** The sample records after reconciliation. *)
Definition documents_fixed : list pyval :=
  [record_a; record_b_once; record_c; record_d].

(** The floats 300.5, 1000.5 and -0.5. *)
Definition f_300_5 : spec_float := S754_finite false 5286451906347008 (-44).
Definition f_1000_5 : spec_float := S754_finite false 8800491068719104 (-43).
Definition f_minus_0_5 : spec_float := S754_finite true 4503599627370496 (-53).

(** A record with two retry requests whose usage_stats hold float token
    counts: [total_completion_tokens = 300.5], [total_tokens = 1000.5]. *)
Definition usage_f : dict :=
  [ ("total_prompt_tokens", PInt 700);
    ("total_completion_tokens", PFloat f_300_5);
    ("total_tokens", PFloat f_1000_5);
    ("total_cost", PFloat f_0_05);
    ("api_calls", PInt 3) ].

Definition fields_f : dict := record_fields "task-f" "2" messages_b false usage_f.
Definition record_f : pyval := PDict fields_f.

(** A record with two retry requests whose usage_stats hold an int cost, a
    negative float count and neither [total_tokens] nor [api_calls]. *)
Definition usage_g : dict :=
  [ ("total_prompt_tokens", PFloat f_minus_0_5);
    ("total_completion_tokens", PInt 300);
    ("total_cost", PInt 2) ].

Definition fields_g : dict := record_fields "task-g" "2" messages_b false usage_g.
Definition record_g : pyval := PDict fields_g.

(** A transcript that writes the phrases in other cases: the second and the
    third message ask for a retry, only the second holds "Case not resolved"
    as written, and only the fifth holds the meta-agent phrase with the
    marker "MetaChain" as written. The fourth has no string content. *)
Definition messages_mixed : list pyval :=
  [ message "user" "Find the paper.";
    message "user" "Case not resolved. Please TRY to Resolve the Case AGAIN.";
    message "user" "case not resolved: try to resolve the case again";
    PDict [("role", PStr "tool"); ("content", PInt 3)];
    message "assistant" "The Existing Agent System is MetaChain.";
    message "assistant" "the existing agent system is metachain.";
    message "assistant" "Try to resolve the cause again." ].

(** A line that holds a no-break space, a next-line control and a tab, and
    then a newline. *)
Definition no_break_line : string :=
  String (ascii_of_nat 160)
    (String (ascii_of_nat 133) (String (ascii_of_nat 9) nl)).

End Samples.

(* ================================================================== *)
(** * The vocabulary of the specification                              *)
(* ================================================================== *)

Module Spec.

(** A Message is an object with named fields. *)
Definition is_message (msg : pyval) : Prop := exists d, msg = PDict d.

(** [needle] occurs somewhere in [hay]. *)
Definition occurs_in (needle hay : string) : Prop :=
  exists before after, hay = before ++ needle ++ after.

(** The content of a message when it is a string. *)
Definition text_of (msg : pyval) : option string :=
  match msg with
  | PDict d =>
      match dict_lookup "content" d with
      | Some (PStr text) => Some text
      | _ => None
      end
  | _ => None
  end.

(** The messages whose string content satisfies [p]; a message whose content
    is not a string satisfies nothing. *)
Definition says (p : string -> bool) (msg : pyval) : bool :=
  match text_of msg with
  | Some text => p text
  | None => false
  end.

Definition is_retry_request : pyval -> bool :=
  says (fun text => contains FixCost.retry_phrase (lower text)).

Definition is_unresolved_notice : pyval -> bool :=
  says (fun text => contains FixCost.unresolved_phrase text).

Definition is_meta_mention : pyval -> bool :=
  says (fun text =>
          contains FixCost.meta_phrase (lower text)
          && contains FixCost.meta_marker text).

Definition count_where {A : Type} (p : A -> bool) (l : list A) : Z :=
  Z.of_nat (List.length (filter p l)).

(** A field of an object, when it is there. *)
Definition field (o : pyval) (key : string) : option pyval :=
  match o with
  | PDict d => dict_lookup key d
  | _ => None
  end.

(** A field of a dict, or a default value. *)
Definition field_or (d : dict) (key : string) (default : pyval) : pyval :=
  match dict_lookup key d with
  | Some v => v
  | None => default
  end.

(** A field of [test_result], when it is there. *)
Definition test_result_field (instance : pyval) (key : string)
  : option pyval :=
  match field instance "test_result" with
  | Some test_result => field test_result key
  | None => None
  end.

(** [test_result.usage_stats] of an Instance Record. *)
Definition usage_stats_of (instance : pyval) : option pyval :=
  test_result_field instance "usage_stats".

(** An Instance Record: an object whose [test_result] is an object [tr] and
    whose [messages] are the Messages [msgs] (either may be missing, and is
    then empty). *)
Definition instance_record (d tr : dict) (msgs : list pyval) : Prop :=
  field_or d "test_result" (PDict []) = PDict tr
  /\ field_or d "messages" (PList []) = PList msgs
  /\ Forall is_message msgs.

(** A non-empty UsageStats with integer token and call counts and a float
    cost (a missing count is 0). *)
Definition usage_stats_record (us : dict) (prompt completion tokens : Z)
    (cost : spec_float) (calls : Z) : Prop :=
  us <> []
  /\ field_or us "total_prompt_tokens" (PInt 0) = PInt prompt
  /\ field_or us "total_completion_tokens" (PInt 0) = PInt completion
  /\ field_or us "total_tokens" (PInt 0) = PInt tokens
  /\ field_or us "total_cost" (PInt 0) = PFloat cost
  /\ field_or us "api_calls" (PInt 0) = PInt calls.

(** The Reconciled UsageStats: the counts and the cost scaled by the
    multiplier [retries + 1] ([factor] is that multiplier as a float), with
    the audit fields. *)
Definition reconciled (retries prompt completion tokens : Z)
    (cost factor : spec_float) (calls : Z) : dict :=
  [ ("total_prompt_tokens", PInt (prompt * (retries + 1)));
    ("total_completion_tokens", PInt (completion * (retries + 1)));
    ("total_tokens", PInt (tokens * (retries + 1)));
    ("total_cost", PFloat (fmul cost factor));
    ("api_calls", PInt (calls * (retries + 1)));
    ("_original_cost", PFloat cost);
    ("_original_api_calls", PInt calls);
    ("_retry_count", PInt retries);
    ("_multiplier", PInt (retries + 1)) ].

(** The record that reconciliation returns. *)
Definition reconciled_record (instance : pyval) : result pyval :=
  '(fixed, _, _) <- FixCost.fix_instance_cost instance ;; Ok fixed.

(** ** Scored records, as the score reporter reads them *)

(** [o.k1.k2], when both fields are there. *)
Definition path2 (o : pyval) (k1 k2 : string) : option pyval :=
  match field o k1 with
  | Some v => field v k2
  | None => None
  end.

(** The record's [instance.Level] is the string [level]. *)
Definition level_is (level : string) (out : pyval) : bool :=
  match path2 out "instance" "Level" with
  | Some l => py_eq_str l level
  | None => false
  end.

(** The record's Level is one of the three tiers. *)
Definition in_a_tier (out : pyval) : bool :=
  level_is "1" out || level_is "2" out || level_is "3" out.

(** The record's [test_result.score] is truthy. *)
Definition succeeded (out : pyval) : bool :=
  match path2 out "test_result" "score" with
  | Some score => truthy score
  | None => false
  end.

(** [test_result.usage_stats.total_cost] *)
Definition recorded_cost_of (out : pyval) : option pyval :=
  match path2 out "test_result" "usage_stats" with
  | Some usage_stats => field usage_stats "total_cost"
  | None => None
  end.

Definition cost_value (out : pyval) : spec_float :=
  match recorded_cost_of out with
  | Some (PFloat c) => c
  | _ => fzero
  end.

(** A record the score reporter can tally: it has a score and a Level, and a
    float cost when its Level is one of the three tiers. *)
Definition scored_record (out : pyval) : Prop :=
  (exists score, path2 out "test_result" "score" = Some score)
  /\ (exists level, path2 out "instance" "Level" = Some level)
  /\ (in_a_tier out = true ->
      exists c, recorded_cost_of out = Some (PFloat c)).

(** The costs of the records of one tier, added in the order of the file to
    a starting amount. *)
Definition tier_cost_from (start : spec_float) (level : string)
    (outs : list pyval) : spec_float :=
  fold_left fadd (map cost_value (filter (level_is level) outs)) start.

Definition tier_cost : string -> list pyval -> spec_float :=
  tier_cost_from fzero.

(** The counters after a run of records, as counts and sums over the run. *)
Definition tally_after (t : GetScore.tally) (outs : list pyval)
  : GetScore.tally :=
  {| GetScore.total := GetScore.total t + Z.of_nat (List.length outs);
     GetScore.success := GetScore.success t + count_where succeeded outs;
     GetScore.l1_total :=
       GetScore.l1_total t + count_where (level_is "1") outs;
     GetScore.l1_success :=
       GetScore.l1_success t
       + count_where (fun o => level_is "1" o && succeeded o) outs;
     GetScore.l1_cost := tier_cost_from (GetScore.l1_cost t) "1" outs;
     GetScore.l2_total :=
       GetScore.l2_total t + count_where (level_is "2") outs;
     GetScore.l2_success :=
       GetScore.l2_success t
       + count_where (fun o => level_is "2" o && succeeded o) outs;
     GetScore.l2_cost := tier_cost_from (GetScore.l2_cost t) "2" outs;
     GetScore.l3_total :=
       GetScore.l3_total t + count_where (level_is "3") outs;
     GetScore.l3_success :=
       GetScore.l3_success t
       + count_where (fun o => level_is "3" o && succeeded o) outs;
     GetScore.l3_cost := tier_cost_from (GetScore.l3_cost t) "3" outs |}.

(** ** Record files *)

Section Lines.
Context `{Json}.

(** A non-blank line that is not valid JSON. *)
Definition malformed (line : string) : bool :=
  negb (is_blank line)
  && match json_loads line with Some _ => false | None => true end.

(** The 1-based number of the first malformed line of a file. *)
Fixpoint first_malformed_from (n : nat) (lines : list string) : option nat :=
  match lines with
  | [] => None
  | line :: rest =>
      if malformed line then Some n else first_malformed_from (S n) rest
  end.

Definition first_malformed : list string -> option nat :=
  first_malformed_from 1.

End Lines.

(** The character [a] does not occur in [p]. *)
Fixpoint absent (a : ascii) (p : string) : bool :=
  match p with
  | EmptyString => true
  | String b p' => negb (Ascii.eqb b a) && absent a p'
  end.

(** ** Further vocabulary *)

(** The message's [role] is the string [role]. *)
Definition has_role (role : string) (msg : pyval) : bool :=
  match field msg "role" with
  | Some r => py_eq_str r role
  | None => false
  end.

(** The signals of two stretches of a transcript, put together. *)
Definition add_signals (s1 s2 : FixCost.signals) : FixCost.signals :=
  {| FixCost.retry_count := FixCost.retry_count s1 + FixCost.retry_count s2;
     FixCost.case_not_resolved_count :=
       FixCost.case_not_resolved_count s1 + FixCost.case_not_resolved_count s2;
     FixCost.has_meta_agent :=
       FixCost.has_meta_agent s1 || FixCost.has_meta_agent s2 |}.

(** The keys of an object, in their order. *)
Definition keys (o : pyval) : option (list string) :=
  match o with
  | PDict d => Some (map fst d)
  | _ => None
  end.

(** The lines of a file that are not blank. *)
Definition nonblank (lines : list string) : list string :=
  filter (fun line => negb (is_blank line)) lines.

(** The files with the content of one path replaced. *)
Definition with_file (files : fs) (path : string) (lines : list string) : fs :=
  fun p => if String.eqb p path then Some lines else files p.

(** The value is an object (a dict). *)
Definition is_object (o : pyval) : bool :=
  match o with
  | PDict _ => true
  | _ => false
  end.

Section Output.
Context `{Json}.

(** [out] is the text of the reconciled record of the input line [line]. *)
Definition fixed_line (line out : string) : Prop :=
  exists instance fixed,
    loads line = Ok instance
    /\ reconciled_record instance = Ok fixed
    /\ out = json_dumps fixed.

End Output.

(** The counters of the score reporter are consistent: successes within
    totals, tier counts within the global ones. *)
Definition tally_consistent (t : GetScore.tally) : Prop :=
  0 <= GetScore.success t <= GetScore.total t
  /\ 0 <= GetScore.l1_success t <= GetScore.l1_total t
  /\ 0 <= GetScore.l2_success t <= GetScore.l2_total t
  /\ 0 <= GetScore.l3_success t <= GetScore.l3_total t
  /\ GetScore.l1_total t + GetScore.l2_total t + GetScore.l3_total t
     <= GetScore.total t
  /\ GetScore.l1_success t + GetScore.l2_success t + GetScore.l3_success t
     <= GetScore.success t.

(** Two tallies with the same counts (their costs may differ). *)
Definition same_counts (t u : GetScore.tally) : Prop :=
  GetScore.total t = GetScore.total u
  /\ GetScore.success t = GetScore.success u
  /\ GetScore.l1_total t = GetScore.l1_total u
  /\ GetScore.l1_success t = GetScore.l1_success u
  /\ GetScore.l2_total t = GetScore.l2_total u
  /\ GetScore.l2_success t = GetScore.l2_success u
  /\ GetScore.l3_total t = GetScore.l3_total u
  /\ GetScore.l3_success t = GetScore.l3_success u.

Section Usage.
Context `{Json}.

(** The line parses to a record whose [usage_stats] are there and not
    empty. *)
Definition has_usage_stats (line : string) : bool :=
  match loads line with
  | Ok data =>
      match (test_result <- py_get data "test_result" (PDict []) ;;
             py_get test_result "usage_stats" (PDict [])) with
      | Ok usage_stats => truthy usage_stats
      | Raise _ => false
      end
  | Raise _ => false
  end.

End Usage.

(** ** Letter case *)

(** [c] is the capital of the small letter [p], one of a to z. *)
Definition capital_of (c p : ascii) : Prop :=
  (97 <= nat_of_ascii p <= 122)%nat
  /\ (nat_of_ascii c + 32 = nat_of_ascii p)%nat.

(** [s] is [phrase] up to the case of the letters a to z. *)
Fixpoint same_ignoring_case (s phrase : string) : Prop :=
  match s, phrase with
  | EmptyString, EmptyString => True
  | String c s', String p phrase' =>
      (c = p \/ capital_of c p) /\ same_ignoring_case s' phrase'
  | _, _ => False
  end.

(** [phrase] occurs somewhere in [text], in whatever case its letters are
    written there. *)
Definition occurs_ignoring_case (phrase text : string) : Prop :=
  exists before mid after,
    text = before ++ mid ++ after /\ same_ignoring_case mid phrase.

(** An ASCII character that is no capital, and a phrase of such
    characters. *)
Definition is_plain (c : ascii) : bool :=
  let n := nat_of_ascii c in
  (n <? 128)%nat && negb ((65 <=? n)%nat && (n <=? 90)%nat).

Fixpoint plain (phrase : string) : bool :=
  match phrase with
  | EmptyString => true
  | String c r => is_plain c && plain r
  end.

(** ** Scaled numbers *)

Definition is_finite (x : spec_float) : bool :=
  match x with
  | S754_zero _ | S754_finite _ _ _ => true
  | S754_infinity _ | S754_nan => false
  end.

(** [t] is the float [x] cut to an integer toward zero: [x] is zero and [t]
    is 0, or [x] is [m * 2^e] with a sign, and [t] is, with that sign, the
    largest integer [q] with [q <= m * 2^e]. *)
Definition truncation_of (x : spec_float) (t : Z) : Prop :=
  match x with
  | S754_zero _ => t = 0
  | S754_finite s m e =>
      exists q,
        t = (if s then - q else q)
        /\ (0 <= e -> q = Zpos m * 2 ^ e)
        /\ (e < 0 -> q * 2 ^ (- e) <= Zpos m < (q + 1) * 2 ^ (- e))
  | S754_infinity _ | S754_nan => False
  end.

(** The integer [t] is the count [v], an int or a float, times the
    multiplier [m]: the product itself for an int, the product of the floats
    cut toward zero for a float ([factor] is [m] as a float). *)
Definition scaled_count (v : pyval) (m : Z) (factor : spec_float) (t : Z)
  : Prop :=
  match v with
  | PInt n => t = n * m
  | PFloat x => truncation_of (fmul x factor) t
  | _ => False
  end.

(** A count that can be scaled to an integer: an int, or a float whose
    product with the multiplier is finite. *)
Definition scalable_count (v : pyval) (factor : spec_float) : Prop :=
  match v with
  | PInt _ => True
  | PFloat x => is_finite (fmul x factor) = true
  | _ => False
  end.

(** The amount [v], an int or a float, times the multiplier [m]: an integer
    product for an int, a float product for a float. *)
Definition scaled_amount (v : pyval) (m : Z) (factor : spec_float) : pyval :=
  match v with
  | PInt n => PInt (n * m)
  | PFloat x => PFloat (fmul x factor)
  | _ => v
  end.

(** An amount that can be shown with four decimals: a float, or an int in
    the range of the floats. *)
Definition printable_amount (v : pyval) : Prop :=
  match v with
  | PFloat _ => True
  | PInt n => exists x, float_of_int n = Ok x
  | _ => False
  end.

End Spec.

(* ================================================================== *)
(** * Properties                                                       *)
(* ================================================================== *)

Import Spec.

(** ** The result monad *)

Lemma bind_Ok {A B : Type} (m : result A) (k : A -> result B) (b : B) :
  bind m k = Ok b -> exists a, m = Ok a /\ k a = Ok b.
Proof.
  destruct m as [a | e]; simpl; intros E.
  - exists a. split; [reflexivity | exact E].
  - discriminate E.
Qed.

(** Splits a hypothesis [bind m k = Ok b] into its two halves. *)
Ltac bind_inv H :=
  let a := fresh "v" in
  let E := fresh "E" in
  apply bind_Ok in H; destruct H as (a & E & H); simpl in H.

Lemma for_each_app {S X : Type} (step : S -> X -> result S)
    (l1 l2 : list X) (st : S) :
  for_each step (l1 ++ l2) st
  = (st' <- for_each step l1 st ;; for_each step l2 st').
Proof.
  revert st. induction l1 as [| x l1 IH]; intros st; simpl.
  - reflexivity.
  - destruct (step st x) as [st' | e]; simpl; [apply IH | reflexivity].
Qed.

(** A loop that meets an item on which every state fails does fail. *)
Lemma for_each_fails {S X : Type} (step : S -> X -> result S)
    (items : list X) (x : X) :
  In x items ->
  (forall st, exists e, step st x = Raise e) ->
  forall st, exists e, for_each step items st = Raise e.
Proof.
  intros Hin Hbad.
  induction items as [| y items IH]; intros st; simpl.
  - destruct Hin.
  - destruct Hin as [-> | Hin].
    + destruct (Hbad st) as [e He]. rewrite He. exists e. reflexivity.
    + destruct (step st y) as [st' | e]; simpl.
      * apply IH, Hin.
      * exists e. reflexivity.
Qed.

(** ** Strings *)

Lemma starts_with_prefix (p s : string) :
  starts_with p s = true <-> exists rest, s = p ++ rest.
Proof.
  revert s. induction p as [| a p IH]; intros s; simpl.
  - split; [intros _; exists s; reflexivity | reflexivity].
  - destruct s as [| b s].
    + split; [discriminate | intros [rest E]; discriminate E].
    + rewrite andb_true_iff, Ascii.eqb_eq, IH. split.
      * intros [-> [rest ->]]. exists rest. reflexivity.
      * intros [rest E]. injection E as -> ->. split; [reflexivity |].
        exists rest. reflexivity.
Qed.

(** The [in] test on strings finds exactly the occurrences. *)
Lemma contains_occurs (needle hay : string) :
  contains needle hay = true <-> occurs_in needle hay.
Proof.
  unfold occurs_in. induction hay as [| c hay IH].
  - simpl. rewrite orb_false_r, starts_with_prefix. split.
    + intros [rest E]. exists EmptyString, rest. exact E.
    + intros (before & after & E). destruct before as [| b before].
      * exists after. exact E.
      * discriminate E.
  - cbn [contains]. rewrite orb_true_iff, starts_with_prefix, IH. split.
    + intros [[rest E] | (before & after & E)].
      * exists EmptyString, rest. exact E.
      * exists (String c before), after. simpl. rewrite E. reflexivity.
    + intros (before & after & E). destruct before as [| b before].
      * left. exists after. exact E.
      * right. simpl in E. injection E as _ E. exists before, after. exact E.
Qed.

(** ** Retry detection *)

Lemma count_where_cons {A : Type} (p : A -> bool) (x : A) (l : list A) :
  count_where p (x :: l) = (if p x then 1 else 0) + count_where p l.
Proof.
  unfold count_where. cbn [filter].
  destruct (p x); cbn [List.length]; lia.
Qed.

Lemma count_where_nonneg {A : Type} (p : A -> bool) (l : list A) :
  0 <= count_where p l.
Proof.
  unfold count_where. lia.
Qed.

(** One turn of the detector's loop adds the message's own contribution to
    each signal. *)
Lemma detect_step_message (st : FixCost.signals) (msg : pyval) :
  is_message msg ->
  FixCost.detect_step st msg
  = Ok {| FixCost.retry_count :=
            FixCost.retry_count st + (if is_retry_request msg then 1 else 0);
          FixCost.case_not_resolved_count :=
            FixCost.case_not_resolved_count st
            + (if is_unresolved_notice msg then 1 else 0);
          FixCost.has_meta_agent :=
            FixCost.has_meta_agent st || is_meta_mention msg |}.
Proof.
  intros [d ->]. destruct st as [r c m].
  unfold FixCost.detect_step, is_retry_request, is_unresolved_notice,
    is_meta_mention, says, text_of, py_get.
  cbn [bind FixCost.retry_count FixCost.case_not_resolved_count
       FixCost.has_meta_agent].
  destruct (dict_lookup "content" d) as [[ | b | n | x | text | l | d'] |];
    try (rewrite !Z.add_0_r, orb_false_r; reflexivity).
  destruct (contains FixCost.unresolved_phrase text);
    destruct (contains FixCost.retry_phrase (lower text));
    destruct (contains FixCost.meta_phrase (lower text));
    destruct (contains FixCost.meta_marker text);
    cbn [andb]; rewrite ?Z.add_0_r, ?orb_false_r, ?orb_true_r; reflexivity.
Qed.

Lemma detect_loop (msgs : list pyval) :
  Forall is_message msgs ->
  forall st,
    for_each FixCost.detect_step msgs st
    = Ok {| FixCost.retry_count :=
              FixCost.retry_count st + count_where is_retry_request msgs;
            FixCost.case_not_resolved_count :=
              FixCost.case_not_resolved_count st
              + count_where is_unresolved_notice msgs;
            FixCost.has_meta_agent :=
              FixCost.has_meta_agent st || existsb is_meta_mention msgs |}.
Proof.
  induction 1 as [| msg msgs Hmsg _ IH]; intros st.
  - destruct st as [r c m]. cbn. rewrite !Z.add_0_r, orb_false_r. reflexivity.
  - cbn [for_each]. rewrite (detect_step_message st msg Hmsg). cbn [bind].
    rewrite IH. cbn [FixCost.retry_count FixCost.case_not_resolved_count
                     FixCost.has_meta_agent existsb].
    rewrite !count_where_cons, !Z.add_assoc, orb_assoc. reflexivity.
Qed.

Lemma detect_messages (msgs : list pyval) :
  Forall is_message msgs ->
  FixCost.detect_retry_pattern (PList msgs)
  = Ok {| FixCost.retry_count := count_where is_retry_request msgs;
          FixCost.case_not_resolved_count :=
            count_where is_unresolved_notice msgs;
          FixCost.has_meta_agent := existsb is_meta_mention msgs |}.
Proof.
  intros Hmsgs. unfold FixCost.detect_retry_pattern. cbn [py_iter bind].
  rewrite (detect_loop msgs Hmsgs). reflexivity.
Qed.

(** [str.lower] on one character: for a plain [p], the characters lowered to
    [p] are [p] itself and, when [p] is a small letter, its capital. *)
Lemma lower_ascii_plain (c p : ascii) :
  is_plain p = true ->
  lower_ascii c = p <-> c = p \/ capital_of c p.
Proof.
  unfold is_plain, lower_ascii, capital_of.
  pose proof (nat_ascii_bounded c) as Hc.
  remember (nat_of_ascii c) as n eqn:Hn.
  intros Hplain.
  apply andb_true_iff in Hplain. destruct Hplain as [Hascii Hsmall].
  apply Nat.ltb_lt in Hascii. apply negb_true_iff in Hsmall.
  destruct (((65 <=? n)%nat && (n <=? 90)%nat)
            || ((192 <=? n)%nat && (n <=? 222)%nat && negb (n =? 215)%nat))%bool
    eqn:Hcap.
  - assert (Hrange : (65 <= n <= 90 \/ 192 <= n <= 222)%nat).
    { apply orb_true_iff in Hcap. destruct Hcap as [E | E].
      - apply andb_true_iff in E. destruct E as [E1 E2].
        apply Nat.leb_le in E1, E2. lia.
      - apply andb_true_iff in E. destruct E as [E _].
        apply andb_true_iff in E. destruct E as [E1 E2].
        apply Nat.leb_le in E1, E2. lia. }
    split.
    + intros <-. right.
      rewrite nat_ascii_embedding in * by lia. lia.
    + intros [<- | [Hp He]].
      * rewrite <- Hn in *. exfalso.
        destruct Hrange as [[H1 H2] | H1]; [| lia].
        apply Nat.leb_le in H1, H2. rewrite H1, H2 in Hsmall. discriminate.
      * rewrite He. apply ascii_nat_embedding.
  - split.
    + intros ->. left. reflexivity.
    + intros [-> | [Hp He]]; [reflexivity |]. exfalso.
      assert (H1 : (65 <=? n)%nat = true) by (apply Nat.leb_le; lia).
      assert (H2 : (n <=? 90)%nat = true) by (apply Nat.leb_le; lia).
      rewrite H1, H2 in Hcap. discriminate.
Qed.

Lemma lower_app (s t : string) : lower (s ++ t) = lower s ++ lower t.
Proof.
  induction s as [| c s IH]; simpl; [reflexivity | rewrite IH; reflexivity].
Qed.

(** The lowered text splits where the text does. *)
Lemma lower_split (text u v : string) :
  lower text = u ++ v ->
  exists x y, text = x ++ y /\ lower x = u /\ lower y = v.
Proof.
  revert text. induction u as [| a u IH]; intros text E.
  - exists EmptyString, text. repeat split. exact E.
  - destruct text as [| c text]; [discriminate E |].
    simpl in E. injection E as Ha E.
    destruct (IH text E) as (x & y & -> & Hx & Hy).
    exists (String c x), y. simpl. rewrite Ha, Hx. repeat split. exact Hy.
Qed.

Lemma lower_same_ignoring_case (phrase s : string) :
  plain phrase = true ->
  lower s = phrase <-> same_ignoring_case s phrase.
Proof.
  revert s. induction phrase as [| p phrase IH]; intros s Hplain.
  - destruct s; simpl; split; try reflexivity; try discriminate; intros [].
  - cbn [plain] in Hplain. apply andb_true_iff in Hplain.
    destruct Hplain as [Hp Hrest].
    destruct s as [| c s]; simpl.
    + split; [discriminate | intros []].
    + rewrite <- (IH s Hrest), <- (lower_ascii_plain c p Hp). split.
      * intros E. injection E as -> ->. split; reflexivity.
      * intros [-> ->]. reflexivity.
Qed.

(** A plain phrase occurs in the lowered text exactly when it occurs in the
    text in some case. *)
Lemma occurs_in_lower (phrase text : string) :
  plain phrase = true ->
  occurs_in phrase (lower text) <-> occurs_ignoring_case phrase text.
Proof.
  intros Hplain. unfold occurs_in, occurs_ignoring_case. split.
  - intros (before & after & E).
    destruct (lower_split _ _ _ E) as (x & y & -> & Hx & Hy).
    destruct (lower_split _ _ _ Hy) as (mid & z & -> & Hmid & Hz).
    exists x, mid, z. split; [reflexivity |].
    apply lower_same_ignoring_case; assumption.
  - intros (before & mid & after & -> & Hsame).
    apply (lower_same_ignoring_case _ _ Hplain) in Hsame.
    exists (lower before), (lower after).
    rewrite !lower_app, Hsame. reflexivity.
Qed.

(** C7. For every sequence of messages, the detector returns the number of
    messages whose string content holds the retry phrase in whatever case
    its letters are written, the number whose string content holds "Case not
    resolved" as written, and a flag that holds iff one message holds both
    the meta-agent phrase, in whatever case, and the marker "MetaChain" as
    written; a message whose content is not a string adds nothing to any of
    the three. *)
Theorem detect_retry_pattern_counts (msgs : list pyval) :
  Forall is_message msgs ->
  FixCost.detect_retry_pattern (PList msgs)
  = Ok {| FixCost.retry_count := count_where is_retry_request msgs;
          FixCost.case_not_resolved_count :=
            count_where is_unresolved_notice msgs;
          FixCost.has_meta_agent := existsb is_meta_mention msgs |}
  /\ (forall msg, In msg msgs -> text_of msg = None ->
        is_retry_request msg = false
        /\ is_unresolved_notice msg = false
        /\ is_meta_mention msg = false)
  /\ (forall msg text, In msg msgs -> text_of msg = Some text ->
        (is_retry_request msg = true
         <-> occurs_ignoring_case FixCost.retry_phrase text)
        /\ (is_unresolved_notice msg = true
            <-> occurs_in FixCost.unresolved_phrase text)
        /\ (is_meta_mention msg = true
            <-> occurs_ignoring_case FixCost.meta_phrase text
                /\ occurs_in FixCost.meta_marker text)).
Proof.
  intros Hmsgs. split; [| split].
  - apply detect_messages, Hmsgs.
  - intros msg _ Htext.
    unfold is_retry_request, is_unresolved_notice, is_meta_mention, says.
    rewrite Htext. repeat split.
  - intros msg text _ Htext.
    unfold is_retry_request, is_unresolved_notice, is_meta_mention, says.
    rewrite Htext. split; [| split].
    + rewrite contains_occurs. apply occurs_in_lower. reflexivity.
    + apply contains_occurs.
    + rewrite andb_true_iff, !contains_occurs.
      rewrite (occurs_in_lower FixCost.meta_phrase text eq_refl). reflexivity.
Qed.

Lemma detect_retry_pattern_counts_witness :
  FixCost.detect_retry_pattern (PList Samples.messages_mixed)
  = Ok {| FixCost.retry_count :=
            count_where is_retry_request Samples.messages_mixed;
          FixCost.case_not_resolved_count :=
            count_where is_unresolved_notice Samples.messages_mixed;
          FixCost.has_meta_agent :=
            existsb is_meta_mention Samples.messages_mixed |}
  /\ (forall msg, In msg Samples.messages_mixed -> text_of msg = None ->
        is_retry_request msg = false
        /\ is_unresolved_notice msg = false
        /\ is_meta_mention msg = false)
  /\ (forall msg text,
        In msg Samples.messages_mixed -> text_of msg = Some text ->
        (is_retry_request msg = true
         <-> occurs_ignoring_case FixCost.retry_phrase text)
        /\ (is_unresolved_notice msg = true
            <-> occurs_in FixCost.unresolved_phrase text)
        /\ (is_meta_mention msg = true
            <-> occurs_ignoring_case FixCost.meta_phrase text
                /\ occurs_in FixCost.meta_marker text)).
Proof.
  apply (detect_retry_pattern_counts Samples.messages_mixed).
  repeat constructor; eexists; reflexivity.
Defined.

(** The detector on a transcript that writes the phrases in other cases: the
    retry phrase counts in capitals and in small letters, "Case not resolved"
    only as written, the meta-agent phrase in any case but its marker only
    as written; a phrase with another letter does not count. *)
Example detect_retry_pattern_on_mixed_case :
  FixCost.detect_retry_pattern (PList Samples.messages_mixed)
  = Ok {| FixCost.retry_count := 2;
          FixCost.case_not_resolved_count := 1;
          FixCost.has_meta_agent := true |}
  /\ FixCost.detect_retry_pattern
       (PList [Samples.message "assistant"
                 "the existing agent system is metachain."])
     = Ok FixCost.no_signals
  /\ FixCost.detect_retry_pattern
       (PList [Samples.message "user" "TRY TO RESOLVE THE CASE AGAIN"])
     = Ok {| FixCost.retry_count := 1;
             FixCost.case_not_resolved_count := 0;
             FixCost.has_meta_agent := false |}.
Proof.
  repeat split; vm_compute; reflexivity.
Qed.

(** [str.lower] and [str.strip] beyond ASCII: the Latin-1 capitals are
    lowered, the multiplication sign is not; a line of no-break spaces and
    control white space is blank. *)
Example latin1_lower_and_blank :
  lower (String (ascii_of_nat 201) (String (ascii_of_nat 215) "Z"))
  = String (ascii_of_nat 233) (String (ascii_of_nat 215) "z")
  /\ is_blank Samples.no_break_line = true
  /\ is_blank (String (ascii_of_nat 28) (String (ascii_of_nat 31) "")) = true
  /\ is_blank (String (ascii_of_nat 134) "") = false
  /\ int_of_str (String (ascii_of_nat 160) "12") = Ok 12
  /\ int_of_str (String (ascii_of_nat 28) "12") = Raise ValueError.
Proof.
  repeat split; vm_compute; reflexivity.
Qed.

(** ** Reconciliation of one record *)

Lemma py_get_dict (d : dict) (key : string) (default : pyval) :
  py_get (PDict d) key default = Ok (field_or d key default).
Proof. reflexivity. Qed.

Lemma dict_lookup_set_same (key : string) (v : pyval) (d : dict) :
  dict_lookup key (dict_set key v d) = Some v.
Proof.
  induction d as [| [k' v'] d IH]; simpl.
  - rewrite String.eqb_refl. reflexivity.
  - destruct (String.eqb key k') eqn:E; simpl.
    + rewrite String.eqb_refl. reflexivity.
    + rewrite E. exact IH.
Qed.

Lemma dict_lookup_set_other (key key' : string) (v : pyval) (d : dict) :
  key' <> key ->
  dict_lookup key' (dict_set key v d) = dict_lookup key' d.
Proof.
  intros Hne. apply String.eqb_neq in Hne.
  induction d as [| [k v'] d IH]; simpl.
  - rewrite Hne. reflexivity.
  - destruct (String.eqb key k) eqn:E; simpl.
    + apply String.eqb_eq in E. subst k. rewrite Hne. reflexivity.
    + destruct (String.eqb key' k); [reflexivity | exact IH].
Qed.

Lemma truthy_nonempty_dict (us : dict) : us <> [] -> truthy (PDict us) = true.
Proof.
  destruct us; [intros E; contradiction E; reflexivity | reflexivity].
Qed.

(** With at least one retry request, a typed record is rebuilt around the
    Reconciled UsageStats. *)
Lemma fix_instance_cost_scaled (d tr us : dict) (msgs : list pyval)
    (prompt completion tokens calls : Z) (cost factor : spec_float) :
  instance_record d tr msgs ->
  field_or tr "usage_stats" (PDict []) = PDict us ->
  usage_stats_record us prompt completion tokens cost calls ->
  1 <= count_where is_retry_request msgs ->
  float_of_int (count_where is_retry_request msgs + 1) = Ok factor ->
  exists reason,
    FixCost.fix_instance_cost (PDict d)
    = Ok (PDict (dict_set "test_result"
                   (PDict (dict_set "usage_stats"
                             (PDict (reconciled
                                       (count_where is_retry_request msgs)
                                       prompt completion tokens cost factor
                                       calls))
                             tr))
                   d),
          true, reason).
Proof.
  intros (Htr & Hmsgs & Hwf) Hus (Hne & Hp & Hc & Ht & Hx & Ha) Hk Hf.
  unfold FixCost.fix_instance_cost.
  rewrite !py_get_dict, Hmsgs, Htr. cbn [bind].
  rewrite py_get_dict, Hus. cbn [bind].
  rewrite (truthy_nonempty_dict us Hne). cbn [negb].
  rewrite (detect_messages msgs Hwf). cbn [bind FixCost.retry_count].
  destruct (count_where is_retry_request msgs =? 0) eqn:E;
    [apply Z.eqb_eq in E; lia |].
  unfold FixCost.scaled_tokens.
  rewrite !py_get_dict, Hp, Hc, Ht, Hx, Ha.
  cbn [bind py_mul_int py_int FixCost.copy_dict py_format_4f].
  rewrite Hf. cbn [bind py_format_4f].
  eexists. reflexivity.
Qed.

Lemma usage_stats_of_rebuilt (d tr : dict) (us : pyval) :
  usage_stats_of
    (PDict (dict_set "test_result" (PDict (dict_set "usage_stats" us tr)) d))
  = Some us.
Proof.
  unfold usage_stats_of, test_result_field, field.
  rewrite dict_lookup_set_same. apply dict_lookup_set_same.
Qed.

(** [int(x)] of a finite float is its truncation toward zero. *)
Lemma float_trunc_truncation (x : spec_float) :
  is_finite x = true ->
  exists t, float_trunc x = Ok t /\ truncation_of x t.
Proof.
  destruct x as [s | s | | s m e]; try discriminate; intros _.
  - exists 0. split; reflexivity.
  - cbn [float_trunc truncation_of]. eexists. split; [reflexivity |].
    exists (Z.shiftl (Zpos m) e). split; [reflexivity |]. split.
    + intros He. apply Z.shiftl_mul_pow2, He.
    + intros He. rewrite Z.shiftl_div_pow2 by lia.
      assert (Hd : 0 < 2 ^ (- e)) by (apply Z.pow_pos_nonneg; lia).
      pose proof (Z.mul_div_le (Zpos m) _ Hd).
      pose proof (Z.mul_succ_div_gt (Zpos m) _ Hd).
      lia.
Qed.

(** A scalable count is scaled to an integer. *)
Lemma scaled_tokens_count (us : dict) (key : string) (m : Z)
    (factor : spec_float) :
  float_of_int m = Ok factor ->
  scalable_count (field_or us key (PInt 0)) factor ->
  exists t,
    FixCost.scaled_tokens (PDict us) key m = Ok (PInt t)
    /\ scaled_count (field_or us key (PInt 0)) m factor t.
Proof.
  intros Hf Hv. unfold FixCost.scaled_tokens. rewrite py_get_dict.
  cbn [bind].
  destruct (field_or us key (PInt 0)) as [ | b | n | x | text | l | d'];
    try contradiction.
  - exists (n * m). split; reflexivity.
  - cbn [py_mul_int]. rewrite Hf. cbn [bind py_int].
    destruct (float_trunc_truncation _ Hv) as (t & Ht & Hspec).
    exists t. rewrite Ht. split; [reflexivity | exact Hspec].
Qed.

Lemma py_mul_int_amount (v : pyval) (m : Z) (factor : spec_float) :
  float_of_int m = Ok factor ->
  printable_amount v ->
  py_mul_int v m = Ok (scaled_amount v m factor).
Proof.
  intros Hf Hv. destruct v; try contradiction; cbn [py_mul_int scaled_amount].
  - reflexivity.
  - rewrite Hf. reflexivity.
Qed.

Lemma py_format_4f_printable (v : pyval) :
  printable_amount v -> exists text, py_format_4f v = Ok text.
Proof.
  destruct v; try contradiction; cbn [py_format_4f printable_amount].
  - intros [x ->]. eexists. reflexivity.
  - intros _. eexists. reflexivity.
Qed.

(** C3. For every Instance Record with a non-empty usage_stats whose
    transcript yields [k >= 1] retry requests, reconciliation returns a
    modified record whose usage_stats hold: each token count times [k + 1]
    as an integer (the product itself for an int count, the float product
    cut toward zero for a float count); the original cost times [k + 1] (an
    integer product for an int cost, a float product for a float cost); the
    original api_calls times [k + 1]; and the audit fields [_original_cost],
    [_original_api_calls], [_retry_count = k] and [_multiplier = k + 1] with
    the original values. A missing count or cost is the int 0. *)
Theorem reconciliation_scales_by_attempts (d tr us : dict)
    (msgs : list pyval) (k calls : Z) (factor : spec_float) :
  instance_record d tr msgs ->
  field_or tr "usage_stats" (PDict []) = PDict us ->
  us <> [] ->
  count_where is_retry_request msgs = k ->
  1 <= k ->
  float_of_int (k + 1) = Ok factor ->
  scalable_count (field_or us "total_prompt_tokens" (PInt 0)) factor ->
  scalable_count (field_or us "total_completion_tokens" (PInt 0)) factor ->
  scalable_count (field_or us "total_tokens" (PInt 0)) factor ->
  printable_amount (field_or us "total_cost" (PInt 0)) ->
  printable_amount
    (scaled_amount (field_or us "total_cost" (PInt 0)) (k + 1) factor) ->
  field_or us "api_calls" (PInt 0) = PInt calls ->
  exists fixed reason prompt completion tokens,
    FixCost.fix_instance_cost (PDict d) = Ok (fixed, true, reason)
    /\ scaled_count (field_or us "total_prompt_tokens" (PInt 0)) (k + 1)
         factor prompt
    /\ scaled_count (field_or us "total_completion_tokens" (PInt 0)) (k + 1)
         factor completion
    /\ scaled_count (field_or us "total_tokens" (PInt 0)) (k + 1) factor
         tokens
    /\ usage_stats_of fixed
       = Some (PDict
                 [ ("total_prompt_tokens", PInt prompt);
                   ("total_completion_tokens", PInt completion);
                   ("total_tokens", PInt tokens);
                   ("total_cost",
                    scaled_amount (field_or us "total_cost" (PInt 0)) (k + 1)
                      factor);
                   ("api_calls", PInt (calls * (k + 1)));
                   ("_original_cost", field_or us "total_cost" (PInt 0));
                   ("_original_api_calls", PInt calls);
                   ("_retry_count", PInt k);
                   ("_multiplier", PInt (k + 1)) ]).
Proof.
  intros (Htr & Hmsgs & Hwf) Hus Hne Hk Hpos Hf Hp Hc Ht Hcost Hscaled Ha.
  subst k.
  destruct (scaled_tokens_count us _ _ _ Hf Hp) as (prompt & Ep & Sp).
  destruct (scaled_tokens_count us _ _ _ Hf Hc) as (completion & Ec & Sc).
  destruct (scaled_tokens_count us _ _ _ Hf Ht) as (tokens & Et & St).
  destruct (py_format_4f_printable _ Hcost) as [before Hbefore].
  destruct (py_format_4f_printable _ Hscaled) as [after Hafter].
  pose proof (py_mul_int_amount _ _ _ Hf Hcost) as Hmul.
  unfold FixCost.fix_instance_cost.
  rewrite !py_get_dict, Hmsgs, Htr. cbn [bind].
  rewrite py_get_dict, Hus. cbn [bind].
  rewrite (truthy_nonempty_dict us Hne). cbn [negb].
  rewrite (detect_messages msgs Hwf). cbn [bind FixCost.retry_count].
  destruct (count_where is_retry_request msgs =? 0) eqn:E;
    [apply Z.eqb_eq in E; lia |].
  rewrite !py_get_dict. cbn [bind].
  rewrite Ep. cbn [bind]. rewrite Ec. cbn [bind]. rewrite Et. cbn [bind].
  rewrite Hmul. cbn [bind]. rewrite Ha. cbn [bind py_mul_int FixCost.copy_dict].
  rewrite Hbefore. cbn [bind]. rewrite Hafter. cbn [bind].
  eexists. eexists. exists prompt, completion, tokens.
  split; [reflexivity |].
  split; [exact Sp |]. split; [exact Sc |]. split; [exact St |].
  apply usage_stats_of_rebuilt.
Qed.

Lemma reconciliation_scales_by_attempts_witness :
  exists fixed reason prompt completion tokens,
    FixCost.fix_instance_cost Samples.record_f = Ok (fixed, true, reason)
    /\ scaled_count (field_or Samples.usage_f "total_prompt_tokens" (PInt 0))
         (2 + 1) Samples.f_3_0 prompt
    /\ scaled_count
         (field_or Samples.usage_f "total_completion_tokens" (PInt 0))
         (2 + 1) Samples.f_3_0 completion
    /\ scaled_count (field_or Samples.usage_f "total_tokens" (PInt 0))
         (2 + 1) Samples.f_3_0 tokens
    /\ usage_stats_of fixed
       = Some (PDict
                 [ ("total_prompt_tokens", PInt prompt);
                   ("total_completion_tokens", PInt completion);
                   ("total_tokens", PInt tokens);
                   ("total_cost",
                    scaled_amount
                      (field_or Samples.usage_f "total_cost" (PInt 0)) (2 + 1)
                      Samples.f_3_0);
                   ("api_calls", PInt (3 * (2 + 1)));
                   ("_original_cost",
                    field_or Samples.usage_f "total_cost" (PInt 0));
                   ("_original_api_calls", PInt 3);
                   ("_retry_count", PInt 2);
                   ("_multiplier", PInt (2 + 1)) ]).
Proof.
  apply (reconciliation_scales_by_attempts Samples.fields_f
           (Samples.test_result false Samples.usage_f) Samples.usage_f
           Samples.messages_b 2 3 Samples.f_3_0).
  - repeat split. repeat constructor; eexists; reflexivity.
  - reflexivity.
  - discriminate.
  - reflexivity.
  - lia.
  - reflexivity.
  - exact I.
  - vm_compute. reflexivity.
  - vm_compute. reflexivity.
  - exact I.
  - exact I.
  - reflexivity.
Defined.

(** Reconciliation of two records with two retry requests. Float counts of
    300.5 and 1000.5 become the integers 901 and 3001, the products 901.5
    and 3001.5 cut toward zero. A float count of -0.5 becomes -1; the int
    cost 2 becomes the int 6; the missing [total_tokens] and [api_calls]
    become 0; and the reason shows the int cost with four decimals. *)
Example reconciliation_of_float_counts_and_int_cost :
  (fixed <- reconciled_record Samples.record_f ;; Ok (usage_stats_of fixed))
  = Ok (Some (PDict
                [ ("total_prompt_tokens", PInt 2100);
                  ("total_completion_tokens", PInt 901);
                  ("total_tokens", PInt 3001);
                  ("total_cost", PFloat Samples.f_0_15);
                  ("api_calls", PInt 9);
                  ("_original_cost", PFloat Samples.f_0_05);
                  ("_original_api_calls", PInt 3);
                  ("_retry_count", PInt 2);
                  ("_multiplier", PInt 3) ]))
  /\ (fixed <- reconciled_record Samples.record_g ;; Ok (usage_stats_of fixed))
     = Ok (Some (PDict
                   [ ("total_prompt_tokens", PInt (-1));
                     ("total_completion_tokens", PInt 900);
                     ("total_tokens", PInt 0);
                     ("total_cost", PInt 6);
                     ("api_calls", PInt 0);
                     ("_original_cost", PInt 2);
                     ("_original_api_calls", PInt 0);
                     ("_retry_count", PInt 2);
                     ("_multiplier", PInt 3) ]))
  /\ ('(_, _, reason) <- FixCost.fix_instance_cost Samples.record_g ;;
      Ok reason)
     = Ok "Multiplied by 3 (retry_count=2), cost: $2.0000 -> $6.0000"
  /\ truncation_of (fmul Samples.f_1000_5 Samples.f_3_0) 3001
  /\ truncation_of (fmul Samples.f_minus_0_5 Samples.f_3_0) (-1).
Proof.
  split; [vm_compute; reflexivity |].
  split; [vm_compute; reflexivity |].
  split; [vm_compute; reflexivity |].
  split.
  - assert (E : fmul Samples.f_1000_5 Samples.f_3_0
                = S754_finite false 6600368301539328 (-41))
      by (vm_compute; reflexivity).
    rewrite E. exists 3001. split; [reflexivity |].
    split; [intros He; lia |]. intros _. vm_compute.
    split; [discriminate | reflexivity].
  - assert (E : fmul Samples.f_minus_0_5 Samples.f_3_0
                = S754_finite true 6755399441055744 (-52))
      by (vm_compute; reflexivity).
    rewrite E. exists 1. split; [reflexivity |].
    split; [intros He; lia |]. intros _. vm_compute.
    split; [discriminate | reflexivity].
Qed.

(** C4. For every Instance Record whose transcript holds no retry request,
    reconciliation returns the record itself (so its usage_stats are
    unchanged and carry no new audit field), reports it as not modified, and
    the reason it gives is one of the two texts of the unmodified outcome. *)
Theorem no_retry_leaves_record (d tr : dict) (msgs : list pyval) :
  instance_record d tr msgs ->
  count_where is_retry_request msgs = 0 ->
  FixCost.fix_instance_cost (PDict d)
  = Ok (PDict d, false,
        if truthy (field_or tr "usage_stats" (PDict []))
        then FixCost.no_retries_reason
        else FixCost.no_usage_stats_reason).
Proof.
  intros (Htr & Hmsgs & Hwf) Hzero.
  unfold FixCost.fix_instance_cost.
  rewrite !py_get_dict, Hmsgs, Htr. cbn [bind].
  rewrite py_get_dict. cbn [bind].
  destruct (truthy (field_or tr "usage_stats" (PDict []))); cbn [negb].
  - rewrite (detect_messages msgs Hwf). cbn [bind FixCost.retry_count].
    rewrite Hzero. reflexivity.
  - reflexivity.
Qed.

Lemma no_retry_leaves_record_witness :
  FixCost.fix_instance_cost Samples.record_a
  = Ok (Samples.record_a, false, FixCost.no_retries_reason).
Proof.
  apply (no_retry_leaves_record Samples.fields_a
           (Samples.test_result true Samples.usage_a) Samples.messages_a).
  - repeat split. repeat constructor; eexists; reflexivity.
  - reflexivity.
Defined.

(** The record reconciliation returned is again a typed record, with the
    same transcript and the scaled statistics. *)
Lemma reconciled_is_usage_stats_record
    (k prompt completion tokens calls : Z) (cost factor : spec_float) :
  usage_stats_record
    (reconciled k prompt completion tokens cost factor calls)
    (prompt * (k + 1)) (completion * (k + 1)) (tokens * (k + 1))
    (fmul cost factor) (calls * (k + 1)).
Proof.
  repeat split. discriminate.
Qed.

Lemma rebuilt_is_instance_record (d tr : dict) (msgs : list pyval)
    (us : pyval) :
  instance_record d tr msgs ->
  instance_record
    (dict_set "test_result" (PDict (dict_set "usage_stats" us tr)) d)
    (dict_set "usage_stats" us tr) msgs.
Proof.
  intros (Htr & Hmsgs & Hwf). unfold instance_record, field_or in *.
  rewrite dict_lookup_set_same.
  rewrite (dict_lookup_set_other "test_result" "messages") by discriminate.
  repeat split; assumption.
Qed.

(** C1, as the code has it. Reconciling the record that reconciliation
    produced, with the same transcript, scales the statistics once more: the
    second usage_stats hold the first ones times [k + 1], that is the
    original counts times [(k + 1) * (k + 1)], and their audit fields record
    the first result's values as the originals. *)
Theorem reconciliation_again_scales_again (d tr us : dict)
    (msgs : list pyval) (k prompt completion tokens calls : Z)
    (cost factor : spec_float) :
  instance_record d tr msgs ->
  field_or tr "usage_stats" (PDict []) = PDict us ->
  usage_stats_record us prompt completion tokens cost calls ->
  count_where is_retry_request msgs = k ->
  1 <= k ->
  float_of_int (k + 1) = Ok factor ->
  exists once reason1 twice reason2,
    FixCost.fix_instance_cost (PDict d) = Ok (once, true, reason1)
    /\ FixCost.fix_instance_cost once = Ok (twice, true, reason2)
    /\ usage_stats_of twice
       = Some (PDict
                 [ ("total_prompt_tokens", PInt (prompt * (k + 1) * (k + 1)));
                   ("total_completion_tokens",
                     PInt (completion * (k + 1) * (k + 1)));
                   ("total_tokens", PInt (tokens * (k + 1) * (k + 1)));
                   ("total_cost", PFloat (fmul (fmul cost factor) factor));
                   ("api_calls", PInt (calls * (k + 1) * (k + 1)));
                   ("_original_cost", PFloat (fmul cost factor));
                   ("_original_api_calls", PInt (calls * (k + 1)));
                   ("_retry_count", PInt k);
                   ("_multiplier", PInt (k + 1)) ]).
Proof.
  intros Hrec Hus Htyped Hk Hpos Hf. subst k.
  set (k := count_where is_retry_request msgs) in *.
  destruct (fix_instance_cost_scaled d tr us msgs prompt completion tokens
              calls cost factor Hrec Hus Htyped Hpos Hf) as [reason1 H1].
  fold k in H1.
  set (us1 := reconciled k prompt completion tokens cost factor calls) in *.
  assert (Hrec1 := rebuilt_is_instance_record d tr msgs (PDict us1) Hrec).
  assert (Hus1 : field_or (dict_set "usage_stats" (PDict us1) tr)
                   "usage_stats" (PDict []) = PDict us1).
  { unfold field_or. rewrite dict_lookup_set_same. reflexivity. }
  destruct (fix_instance_cost_scaled _ _ us1 msgs _ _ _ _ _ factor Hrec1 Hus1
              (reconciled_is_usage_stats_record k prompt completion tokens
                 calls cost factor) Hpos Hf) as [reason2 H2].
  eexists. exists reason1. eexists. exists reason2.
  split; [exact H1 |]. split; [exact H2 |].
  apply usage_stats_of_rebuilt.
Qed.

Lemma reconciliation_again_scales_again_witness :
  exists once reason1 twice reason2,
    FixCost.fix_instance_cost Samples.record_b = Ok (once, true, reason1)
    /\ FixCost.fix_instance_cost once = Ok (twice, true, reason2)
    /\ usage_stats_of twice
       = Some (PDict
                 [ ("total_prompt_tokens", PInt (700 * (2 + 1) * (2 + 1)));
                   ("total_completion_tokens", PInt (300 * (2 + 1) * (2 + 1)));
                   ("total_tokens", PInt (1000 * (2 + 1) * (2 + 1)));
                   ("total_cost",
                     PFloat (fmul (fmul Samples.f_0_05 Samples.f_3_0)
                               Samples.f_3_0));
                   ("api_calls", PInt (3 * (2 + 1) * (2 + 1)));
                   ("_original_cost",
                     PFloat (fmul Samples.f_0_05 Samples.f_3_0));
                   ("_original_api_calls", PInt (3 * (2 + 1)));
                   ("_retry_count", PInt 2);
                   ("_multiplier", PInt (2 + 1)) ]).
Proof.
  apply (reconciliation_again_scales_again Samples.fields_b
           (Samples.test_result false Samples.usage_b) Samples.usage_b
           Samples.messages_b 2 700 300 1000 3 Samples.f_0_05 Samples.f_3_0).
  - repeat split. repeat constructor; eexists; reflexivity.
  - reflexivity.
  - repeat split. discriminate.
  - reflexivity.
  - lia.
  - reflexivity.
Defined.

(** C1, as stated, fails: on the record with two retry requests,
    [api_calls = 3] and [total_tokens = 1000], reconciliation gives
    [api_calls = 9] and [total_tokens = 3000], and reconciling that result
    with the same transcript gives [api_calls = 27] and
    [total_tokens = 9000]. *)
Lemma reconciliation_not_idempotent :
  reconciled_record Samples.record_b = Ok Samples.record_b_once
  /\ reconciled_record Samples.record_b_once = Ok Samples.record_b_twice
  /\ usage_stats_of Samples.record_b_once = Some (PDict Samples.usage_b_once)
  /\ usage_stats_of Samples.record_b_twice = Some (PDict Samples.usage_b_twice)
  /\ field (PDict Samples.usage_b_once) "api_calls" = Some (PInt 9)
  /\ field (PDict Samples.usage_b_twice) "api_calls" = Some (PInt 27)
  /\ field (PDict Samples.usage_b_once) "total_tokens" = Some (PInt 3000)
  /\ field (PDict Samples.usage_b_twice) "total_tokens" = Some (PInt 9000).
Proof.
  repeat split; vm_compute; reflexivity.
Qed.

(** ** Frame of reconciliation *)

Lemma copy_dict_Ok (o : pyval) (d : dict) :
  FixCost.copy_dict o = Ok d -> o = PDict d.
Proof.
  destruct o; simpl; intros E; try discriminate E.
  injection E as ->. reflexivity.
Qed.

Lemma py_get_Ok (o : pyval) (key : string) (default v : pyval) :
  py_get o key default = Ok v ->
  exists d, o = PDict d /\ v = field_or d key default.
Proof.
  destruct o; simpl; intros E; try discriminate E.
  injection E as <-. eexists. split; reflexivity.
Qed.

(** The shape of every result of [fix_instance_cost]: the record itself, or
    the record with [usage_stats] replaced inside a replaced [test_result]. *)
Lemma fix_instance_cost_shape (instance fixed : pyval) (modified : bool)
    (reason : string) :
  FixCost.fix_instance_cost instance = Ok (fixed, modified, reason) ->
  (modified = false /\ fixed = instance)
  \/ (modified = true
      /\ exists d tr us,
           instance = PDict d
           /\ field_or d "test_result" (PDict []) = PDict tr
           /\ fixed
              = PDict (dict_set "test_result"
                         (PDict (dict_set "usage_stats" us tr)) d)).
Proof.
  unfold FixCost.fix_instance_cost. intros H.
  bind_inv H. bind_inv H. bind_inv H.
  destruct (negb (truthy v1)).
  { injection H as <- <- _. left. split; reflexivity. }
  bind_inv H.
  destruct (FixCost.retry_count v2 =? 0).
  { injection H as <- <- _. left. split; reflexivity. }
  do 8 bind_inv H.
  bind_inv H. bind_inv H. bind_inv H. bind_inv H. bind_inv H.
  injection H as <- <- _. right. split; [reflexivity |].
  apply copy_dict_Ok in E11. subst instance.
  apply copy_dict_Ok in E12. subst v0.
  rewrite py_get_dict in E0. injection E0 as E0.
  exists v11, v12. eexists. split; [reflexivity |]. split; [exact E0 |].
  reflexivity.
Qed.

(** C10. For every Instance Record, the record returned by reconciliation
    agrees with the input on every field other than [test_result], and its
    [test_result] agrees with the input's on every field other than
    [usage_stats]: [instance_id], [instance] (which holds the Level),
    [messages] and [test_result.score] are those of the input, whether the
    record was modified or not. *)
Theorem reconciliation_frame (instance fixed : pyval) (modified : bool)
    (reason : string) :
  FixCost.fix_instance_cost instance = Ok (fixed, modified, reason) ->
  (forall key, key <> "test_result" -> field fixed key = field instance key)
  /\ (forall key, key <> "usage_stats" ->
        test_result_field fixed key = test_result_field instance key)
  /\ field fixed "instance_id" = field instance "instance_id"
  /\ field fixed "instance" = field instance "instance"
  /\ field fixed "messages" = field instance "messages"
  /\ test_result_field fixed "score" = test_result_field instance "score".
Proof.
  intros H.
  assert (Hfields : forall key, key <> "test_result" ->
                      field fixed key = field instance key).
  { destruct (fix_instance_cost_shape _ _ _ _ H)
      as [[_ ->] | (_ & d & tr & us & -> & _ & ->)]; intros key Hkey.
    - reflexivity.
    - simpl. apply dict_lookup_set_other, Hkey. }
  assert (Hresult : forall key, key <> "usage_stats" ->
                      test_result_field fixed key
                      = test_result_field instance key).
  { destruct (fix_instance_cost_shape _ _ _ _ H)
      as [[_ ->] | (_ & d & tr & us & -> & Htr & ->)]; intros key Hkey.
    - reflexivity.
    - unfold test_result_field, field. rewrite dict_lookup_set_same.
      rewrite (dict_lookup_set_other "usage_stats" key) by exact Hkey.
      unfold field_or in Htr.
      destruct (dict_lookup "test_result" d) as [v |].
      + subst v. reflexivity.
      + injection Htr as <-. reflexivity. }
  split; [exact Hfields |]. split; [exact Hresult |].
  repeat split.
  - apply Hfields. discriminate.
  - apply Hfields. discriminate.
  - apply Hfields. discriminate.
  - apply Hresult. discriminate.
Qed.

Lemma reconciliation_frame_witness :
  (forall key, key <> "test_result" ->
     field Samples.record_b_once key = field Samples.record_b key)
  /\ (forall key, key <> "usage_stats" ->
        test_result_field Samples.record_b_once key
        = test_result_field Samples.record_b key)
  /\ field Samples.record_b_once "instance_id"
     = field Samples.record_b "instance_id"
  /\ field Samples.record_b_once "instance" = field Samples.record_b "instance"
  /\ field Samples.record_b_once "messages" = field Samples.record_b "messages"
  /\ test_result_field Samples.record_b_once "score"
     = test_result_field Samples.record_b "score".
Proof.
  apply (reconciliation_frame Samples.record_b Samples.record_b_once true
           "Multiplied by 3 (retry_count=2), cost: $0.0500 -> $0.1500").
  vm_compute. reflexivity.
Defined.

(** ** The score reporter's tally *)

Lemma py_getitem_field (o : pyval) (key : string) (v : pyval) :
  field o key = Some v -> py_getitem o key = Ok v.
Proof.
  destruct o; simpl; intros E; try discriminate E.
  rewrite E. reflexivity.
Qed.

Lemma py_getitem_path2 (o : pyval) (k1 k2 : string) (v : pyval) :
  path2 o k1 k2 = Some v ->
  (x <- py_getitem o k1 ;; py_getitem x k2) = Ok v.
Proof.
  unfold path2. destruct (field o k1) as [x |] eqn:E1; intros E2.
  - rewrite (py_getitem_field _ _ _ E1). cbn [bind].
    apply py_getitem_field, E2.
  - discriminate E2.
Qed.

Lemma cost_of_recorded (out : pyval) (v : pyval) :
  recorded_cost_of out = Some v -> GetScore.cost_of out = Ok v.
Proof.
  unfold recorded_cost_of, path2, GetScore.cost_of.
  destruct (field out "test_result") as [tr |] eqn:E1; [| discriminate].
  destruct (field tr "usage_stats") as [us |] eqn:E2; [| discriminate].
  intros E3.
  rewrite (py_getitem_field _ _ _ E1). cbn [bind].
  rewrite (py_getitem_field _ _ _ E2). cbn [bind].
  apply py_getitem_field, E3.
Qed.

Lemma py_eq_str_true (o : pyval) (s : string) :
  py_eq_str o s = true -> o = PStr s.
Proof.
  destruct o; simpl; intros E; try discriminate E.
  apply String.eqb_eq in E. subst. reflexivity.
Qed.

(** Closes the comparison of the two tallies once the record's tier is
    known. *)
Ltac tally_counts score :=
  destruct (truthy score); cbn [List.length];
  change (Z.of_nat 1) with 1; change (Z.of_nat 0) with 0;
  rewrite ?Z.add_0_r; reflexivity.

(** The case of [tally_step] for a record whose Level was found to be the
    tier compared in [L]. *)
Ltac tier_case out score Hcost L :=
  apply py_eq_str_true in L; subst;
  let c := fresh "c" in
  let Hc := fresh "Hc" in
  let Hv := fresh "Hv" in
  destruct (Hcost eq_refl) as [c Hc];
  assert (Hv : cost_value out = c)
    by (unfold cost_value; rewrite Hc; reflexivity);
  rewrite (cost_of_recorded _ _ Hc);
  cbn [bind float_add py_eq_str String.eqb Ascii.eqb Bool.eqb andb filter map
       fold_left List.length];
  rewrite Hv; tally_counts score.

(** One turn of the tally on a scored record. *)
Lemma tally_step_scored (t : GetScore.tally) (out : pyval) :
  scored_record out ->
  GetScore.tally_step t out = Ok (tally_after t [out]).
Proof.
  intros ([score Hscore] & [level Hlevel] & Hcost).
  unfold GetScore.tally_step, GetScore.score_of, GetScore.level_of.
  rewrite (py_getitem_path2 _ _ _ _ Hscore). cbn [bind].
  rewrite (py_getitem_path2 _ _ _ _ Hlevel). cbn [bind].
  unfold tally_after, tier_cost_from, count_where.
  cbn [filter map fold_left List.length].
  unfold in_a_tier, level_is, succeeded in *.
  rewrite Hlevel, Hscore in *.
  destruct (py_eq_str level "1") eqn:L1; [tier_case out score Hcost L1 |].
  destruct (py_eq_str level "2") eqn:L2; [tier_case out score Hcost L2 |].
  destruct (py_eq_str level "3") eqn:L3; [tier_case out score Hcost L3 |].
  cbn [andb filter map fold_left List.length]. tally_counts score.
Qed.

Lemma tier_cost_from_cons (start : spec_float) (level : string) (out : pyval)
    (outs : list pyval) :
  tier_cost_from start level (out :: outs)
  = tier_cost_from (tier_cost_from start level [out]) level outs.
Proof.
  unfold tier_cost_from. cbn [filter].
  destruct (level_is level out); reflexivity.
Qed.

Lemma tally_after_cons (t : GetScore.tally) (out : pyval)
    (outs : list pyval) :
  tally_after (tally_after t [out]) outs = tally_after t (out :: outs).
Proof.
  unfold tally_after at 1 3.
  cbn [GetScore.total GetScore.success GetScore.l1_total GetScore.l1_success
       GetScore.l1_cost GetScore.l2_total GetScore.l2_success GetScore.l2_cost
       GetScore.l3_total GetScore.l3_success GetScore.l3_cost tally_after].
  rewrite <- !tier_cost_from_cons.
  rewrite !(count_where_cons _ out outs), !(count_where_cons _ out []).
  change (count_where _ []) with 0.
  f_equal; cbn [List.length]; lia.
Qed.

Lemma tally_loop (outs : list pyval) :
  Forall scored_record outs ->
  forall t, for_each GetScore.tally_step outs t = Ok (tally_after t outs).
Proof.
  induction 1 as [| out outs Hout _ IH]; intros t.
  - destruct t. unfold tally_after, tier_cost_from, count_where. cbn.
    rewrite !Z.add_0_r. reflexivity.
  - cbn [for_each]. rewrite (tally_step_scored t out Hout). cbn [bind].
    rewrite IH. rewrite tally_after_cons. reflexivity.
Qed.

Lemma filter_level_in_a_tier (level : string) (outs : list pyval) :
  (level = "1" \/ level = "2" \/ level = "3") ->
  filter (level_is level) (filter in_a_tier outs)
  = filter (level_is level) outs.
Proof.
  intros Hlevel. induction outs as [| out outs IH]; [reflexivity |].
  cbn [filter]. destruct (in_a_tier out) eqn:T; cbn [filter].
  - rewrite IH. reflexivity.
  - rewrite IH. unfold in_a_tier in T.
    apply orb_false_elim in T. destruct T as [T T3].
    apply orb_false_elim in T. destruct T as [T1 T2].
    destruct Hlevel as [-> | [-> | ->]];
      [rewrite T1 | rewrite T2 | rewrite T3]; reflexivity.
Qed.

(** C5, as the code has it. For every file of scored records the tally
    completes, whatever the Levels: every record, of a tier or not, counts
    in the global instance total and (when its score is truthy) in the global
    success total; only the records of Level "1", "2" and "3" enter the tier
    counts, the tier success counts (a record of the tier whose score is
    truthy) and the tier costs; and the reported total cost is the sum of the three
    tier costs, the same as for the file without its records of another
    Level. *)
Theorem unknown_level_counts_in_totals_only (outs : list pyval) :
  Forall scored_record outs ->
  exists t,
    for_each GetScore.tally_step outs GetScore.empty_tally = Ok t
    /\ GetScore.total t = Z.of_nat (List.length outs)
    /\ GetScore.success t = count_where succeeded outs
    /\ GetScore.l1_total t = count_where (level_is "1") outs
    /\ GetScore.l2_total t = count_where (level_is "2") outs
    /\ GetScore.l3_total t = count_where (level_is "3") outs
    /\ GetScore.l1_success t
       = count_where (fun out => level_is "1" out && succeeded out) outs
    /\ GetScore.l2_success t
       = count_where (fun out => level_is "2" out && succeeded out) outs
    /\ GetScore.l3_success t
       = count_where (fun out => level_is "3" out && succeeded out) outs
    /\ GetScore.l1_cost t = tier_cost "1" outs
    /\ GetScore.l2_cost t = tier_cost "2" outs
    /\ GetScore.l3_cost t = tier_cost "3" outs
    /\ GetScore.reported_total_cost t
       = fadd (fadd (tier_cost "1" outs) (tier_cost "2" outs))
           (tier_cost "3" outs)
    /\ GetScore.reported_total_cost t
       = GetScore.reported_total_cost
           (tally_after GetScore.empty_tally (filter in_a_tier outs)).
Proof.
  intros Houts. exists (tally_after GetScore.empty_tally outs).
  split; [apply tally_loop, Houts |].
  repeat split.
  unfold GetScore.reported_total_cost, tally_after, tier_cost_from.
  cbn [GetScore.l1_cost GetScore.l2_cost GetScore.l3_cost].
  rewrite !filter_level_in_a_tier by auto. reflexivity.
Qed.

Lemma unknown_level_counts_in_totals_only_witness :
  exists t,
    for_each GetScore.tally_step Samples.documents GetScore.empty_tally = Ok t
    /\ GetScore.total t = Z.of_nat (List.length Samples.documents)
    /\ GetScore.success t = count_where succeeded Samples.documents
    /\ GetScore.l1_total t = count_where (level_is "1") Samples.documents
    /\ GetScore.l2_total t = count_where (level_is "2") Samples.documents
    /\ GetScore.l3_total t = count_where (level_is "3") Samples.documents
    /\ GetScore.l1_success t
       = count_where (fun out => level_is "1" out && succeeded out)
           Samples.documents
    /\ GetScore.l2_success t
       = count_where (fun out => level_is "2" out && succeeded out)
           Samples.documents
    /\ GetScore.l3_success t
       = count_where (fun out => level_is "3" out && succeeded out)
           Samples.documents
    /\ GetScore.l1_cost t = tier_cost "1" Samples.documents
    /\ GetScore.l2_cost t = tier_cost "2" Samples.documents
    /\ GetScore.l3_cost t = tier_cost "3" Samples.documents
    /\ GetScore.reported_total_cost t
       = fadd (fadd (tier_cost "1" Samples.documents)
                 (tier_cost "2" Samples.documents))
           (tier_cost "3" Samples.documents)
    /\ GetScore.reported_total_cost t
       = GetScore.reported_total_cost
           (tally_after GetScore.empty_tally
              (filter in_a_tier Samples.documents)).
Proof.
  apply (unknown_level_counts_in_totals_only Samples.documents).
  repeat constructor; try (eexists; reflexivity);
    intros _; eexists; reflexivity.
Defined.

(** C5, as stated, fails: in a file with one record of each tier (costs
    0.02, 0.05 and 0.125) and a record of Level "4" (cost 1.0), all four
    records are counted, and the reported total cost is the sum of the three
    tier costs; adding the fourth record's cost gives another amount. *)
Lemma unknown_level_cost_not_reported :
  in_a_tier Samples.record_d = false
  /\ cost_value Samples.record_d = Samples.f_1_0
  /\ (r <- GetScore.main (H := Samples.sample_json) Samples.sample_files
             "levels.jsonl" ;;
      Ok (GetScore.total (GetScore.counts r), GetScore.total_cost r))
     = Ok (4, fadd (fadd Samples.f_0_02 Samples.f_0_05) Samples.f_0_125)
  /\ SFeqb (fadd (fadd Samples.f_0_02 Samples.f_0_05) Samples.f_0_125)
       (fadd (fadd (fadd Samples.f_0_02 Samples.f_0_05) Samples.f_0_125)
          Samples.f_1_0)
     = false.
Proof.
  repeat split; vm_compute; reflexivity.
Qed.

(** ** Reading the record file *)

Section Reading.
Context `{Json} {disk : Disk}.

Lemma loads_malformed (line : string) :
  json_loads line = None -> loads line = Raise (JSONDecodeError line).
Proof.
  unfold loads. intros ->. reflexivity.
Qed.

Lemma fix_line_malformed (st : FixCost.summary * list string)
    (line : string) :
  is_blank line = false ->
  json_loads line = None ->
  FixCost.fix_line st line = Raise (JSONDecodeError line).
Proof.
  intros Hblank Hbad. destruct st as [sm fixed_lines].
  unfold FixCost.fix_line. rewrite Hblank, (loads_malformed line Hbad).
  reflexivity.
Qed.

Lemma analyze_line_malformed
    (st : AnalyzeCost.total_stats * list AnalyzeCost.instance_cost)
    (line : string) :
  is_blank line = false ->
  json_loads line = None ->
  AnalyzeCost.analyze_line st line = Raise (JSONDecodeError line).
Proof.
  intros Hblank Hbad. destruct st as [ts costs].
  unfold AnalyzeCost.analyze_line.
  rewrite Hblank, (loads_malformed line Hbad). reflexivity.
Qed.

(** A blank line leaves the state of either loop as it was. *)
Lemma fix_line_blank (st : FixCost.summary * list string) (line : string) :
  is_blank line = true -> FixCost.fix_line st line = Ok st.
Proof.
  intros Hblank. destruct st as [sm fixed_lines].
  unfold FixCost.fix_line. rewrite Hblank. reflexivity.
Qed.

Lemma analyze_line_blank
    (st : AnalyzeCost.total_stats * list AnalyzeCost.instance_cost)
    (line : string) :
  is_blank line = true -> AnalyzeCost.analyze_line st line = Ok st.
Proof.
  intros Hblank. destruct st as [ts costs].
  unfold AnalyzeCost.analyze_line. rewrite Hblank. reflexivity.
Qed.

(** C6, as the code has it. For every record file holding a non-blank line
    that is not valid JSON, the fix and the analysis both fail, and the fix
    leaves every file as it was (nothing is written). When the lines before
    the malformed one were processed, the failure is the parser's error for
    the text of that line; it carries no line number of the file. *)
Theorem malformed_line_fails_whole_file (files : fs)
    (input_path : string) (output_path : option string)
    (lines : list string) (bad : string) :
  files input_path = Some lines ->
  In bad lines ->
  is_blank bad = false ->
  json_loads bad = None ->
  (exists e,
     FixCost.fix_output_file files input_path output_path = (Raise e, files))
  /\ (exists e, AnalyzeCost.analyze_cost files input_path = Raise e)
  /\ (forall before after st,
        lines = (before ++ bad :: after)%list ->
        for_each FixCost.fix_line before (FixCost.empty_summary, []) = Ok st ->
        FixCost.fix_output_file files input_path output_path
        = (Raise (JSONDecodeError bad), files))
  /\ (forall before after st,
        lines = (before ++ bad :: after)%list ->
        for_each AnalyzeCost.analyze_line before (AnalyzeCost.empty_stats, [])
        = Ok st ->
        AnalyzeCost.analyze_cost files input_path
        = Raise (JSONDecodeError bad)).
Proof.
  intros Hfile Hin Hblank Hbad.
  unfold FixCost.fix_output_file, AnalyzeCost.analyze_cost. rewrite Hfile.
  split; [| split; [| split]].
  - destruct (for_each_fails FixCost.fix_line lines bad Hin
                (fun st => ex_intro _ _ (fix_line_malformed st bad Hblank Hbad))
                (FixCost.empty_summary, [])) as [e He].
    rewrite He. exists e. reflexivity.
  - destruct (for_each_fails AnalyzeCost.analyze_line lines bad Hin
                (fun st =>
                   ex_intro _ _ (analyze_line_malformed st bad Hblank Hbad))
                (AnalyzeCost.empty_stats, [])) as [e He].
    rewrite He. exists e. reflexivity.
  - intros before after st -> Hbefore.
    rewrite for_each_app, Hbefore. cbn [bind for_each].
    rewrite (fix_line_malformed st bad Hblank Hbad). reflexivity.
  - intros before after st -> Hbefore.
    rewrite for_each_app, Hbefore. cbn [bind for_each].
    rewrite (analyze_line_malformed st bad Hblank Hbad). reflexivity.
Qed.

End Reading.

Lemma malformed_line_fails_whole_file_witness :
  (exists e,
     FixCost.fix_output_file (H := Samples.sample_json)
         (disk := Samples.reliable_disk) Samples.sample_files
       "bad_second.jsonl" None
     = (Raise e, Samples.sample_files))
  /\ (exists e,
        AnalyzeCost.analyze_cost (H := Samples.sample_json)
          Samples.sample_files "bad_second.jsonl"
        = Raise e)
  /\ (forall before after st,
        [Samples.doc Samples.record_a; Samples.bad_line]
        = (before ++ Samples.bad_line :: after)%list ->
        for_each (FixCost.fix_line (H := Samples.sample_json)) before
          (FixCost.empty_summary, [])
        = Ok st ->
        FixCost.fix_output_file (H := Samples.sample_json)
         (disk := Samples.reliable_disk)
          Samples.sample_files "bad_second.jsonl" None
        = (Raise (JSONDecodeError Samples.bad_line), Samples.sample_files))
  /\ (forall before after st,
        [Samples.doc Samples.record_a; Samples.bad_line]
        = (before ++ Samples.bad_line :: after)%list ->
        for_each (AnalyzeCost.analyze_line (H := Samples.sample_json)) before
          (AnalyzeCost.empty_stats, [])
        = Ok st ->
        AnalyzeCost.analyze_cost (H := Samples.sample_json)
          Samples.sample_files "bad_second.jsonl"
        = Raise (JSONDecodeError Samples.bad_line)).
Proof.
  apply (malformed_line_fails_whole_file (H := Samples.sample_json)
           Samples.sample_files "bad_second.jsonl" None
           [Samples.doc Samples.record_a; Samples.bad_line] Samples.bad_line).
  - reflexivity.
  - right. left. reflexivity.
  - reflexivity.
  - vm_compute. reflexivity.
Defined.

(** C6, as stated, fails: a file whose first malformed line is line 1 and a
    file whose first malformed line is line 2 fail with one and the same
    error, in the fix and in the analysis, so the reported failure does not
    tell the line number. *)
Lemma failure_does_not_tell_line_number :
  Samples.sample_files "bad_first.jsonl"
  = Some [Samples.bad_line; Samples.doc Samples.record_a]
  /\ Samples.sample_files "bad_second.jsonl"
     = Some [Samples.doc Samples.record_a; Samples.bad_line]
  /\ first_malformed (H := Samples.sample_json)
       [Samples.bad_line; Samples.doc Samples.record_a] = Some 1%nat
  /\ first_malformed (H := Samples.sample_json)
       [Samples.doc Samples.record_a; Samples.bad_line] = Some 2%nat
  /\ fst (FixCost.fix_output_file (H := Samples.sample_json)
         (disk := Samples.reliable_disk)
            Samples.sample_files "bad_first.jsonl" None)
     = Raise (JSONDecodeError Samples.bad_line)
  /\ fst (FixCost.fix_output_file (H := Samples.sample_json)
         (disk := Samples.reliable_disk)
            Samples.sample_files "bad_second.jsonl" None)
     = Raise (JSONDecodeError Samples.bad_line)
  /\ AnalyzeCost.analyze_cost (H := Samples.sample_json) Samples.sample_files
       "bad_first.jsonl"
     = Raise (JSONDecodeError Samples.bad_line)
  /\ AnalyzeCost.analyze_cost (H := Samples.sample_json) Samples.sample_files
       "bad_second.jsonl"
     = Raise (JSONDecodeError Samples.bad_line).
Proof.
  repeat split; vm_compute; reflexivity.
Qed.

(** ** Rates and averages *)

Lemma percentage_of_nothing (s : Z) :
  GetScore.percentage s 0 = Raise ZeroDivisionError.
Proof. reflexivity. Qed.

(** X15. The cost analyzer computes its averages only for a positive
    instance count: with no instance the block is left out, and in no case
    does it divide by zero. *)
Lemma average_block_guarded (ts : AnalyzeCost.total_stats) :
  (AnalyzeCost.num_instances ts <= 0 ->
   AnalyzeCost.average_block ts = Ok None)
  /\ AnalyzeCost.average_block ts <> Raise ZeroDivisionError.
Proof.
  unfold AnalyzeCost.average_block. split.
  - intros Hn. destruct (0 <? AnalyzeCost.num_instances ts) eqn:E;
      [apply Z.ltb_lt in E; lia | reflexivity].
  - destruct (0 <? AnalyzeCost.num_instances ts) eqn:E; [| discriminate].
    apply Z.ltb_lt in E.
    assert (Hnz : (AnalyzeCost.num_instances ts =? 0) = false)
      by (apply Z.eqb_neq; lia).
    unfold float_truediv_int, num_truediv, int_truediv, float_truediv_int.
    rewrite Hnz.
    destruct (float_of_int (AnalyzeCost.num_instances ts)) as [fn | e] eqn:F.
    + cbn [bind].
      assert (Hover : forall x, finite_or_overflow x <> Raise ZeroDivisionError)
        by (intros [s | s | | s m x]; discriminate).
      destruct (AnalyzeCost.total_tokens ts) as [a | x];
        destruct (AnalyzeCost.total_api_calls ts) as [b | y];
        repeat match goal with
          | |- context [if ?c then _ else _] => destruct c
          | |- context [finite_or_overflow ?x] =>
              let R := fresh "R" in
              destruct (finite_or_overflow x) eqn:R;
              [| pose proof (Hover x) as Hx; rewrite R in Hx]
          end;
        cbn [bind]; try discriminate; try congruence.
    + cbn [bind]. unfold float_of_int in F.
      destruct (binary_normalize prec emax (AnalyzeCost.num_instances ts) 0 false);
        simpl in F; congruence.
Qed.

(** The score reporter prints its rates only when the file has a record of
    every tier: with an empty tier, or no record at all, [report] fails. *)
Lemma report_needs_every_tier (t : GetScore.tally) (r : GetScore.score_report) :
  GetScore.report t = Ok r ->
  GetScore.total t <> 0 /\ GetScore.l1_total t <> 0
  /\ GetScore.l2_total t <> 0 /\ GetScore.l3_total t <> 0.
Proof.
  assert (Hzero : forall s n v, GetScore.percentage s n = Ok v -> n <> 0).
  { intros s n v E -> . rewrite percentage_of_nothing in E. discriminate E. }
  unfold GetScore.report. intros E.
  apply bind_Ok in E. destruct E as (v & E0 & E).
  apply bind_Ok in E. destruct E as (v1 & E1 & E).
  apply bind_Ok in E. destruct E as (v2 & E2 & E).
  apply bind_Ok in E. destruct E as (v3 & E3 & _).
  repeat split; eapply Hzero; eassumption.
Qed.

(** C2 at a failing input: on a file whose only record is of Level "1", the
    tally completes with no record of Level "2", and the score reporter's
    "L2 success rate" divides by that zero count: the run ends in a
    [ZeroDivisionError] and no rate is reported. *)
Theorem score_report_divides_by_empty_tier :
  Samples.sample_files "scenario_a.jsonl" = Some [Samples.doc Samples.record_a]
  /\ for_each GetScore.tally_step [Samples.record_a] GetScore.empty_tally
     = Ok (tally_after GetScore.empty_tally [Samples.record_a])
  /\ GetScore.l2_total (tally_after GetScore.empty_tally [Samples.record_a]) = 0
  /\ GetScore.report (tally_after GetScore.empty_tally [Samples.record_a])
     = Raise ZeroDivisionError
  /\ GetScore.main (H := Samples.sample_json) Samples.sample_files
       "scenario_a.jsonl"
     = Raise ZeroDivisionError.
Proof.
  repeat split; vm_compute; reflexivity.
Qed.

(** ** Blank lines *)

(** X23. The score reporter parses every line: with a parser that rejects
    blank documents, as [json.loads] does, a file with a blank line
    anywhere fails. *)
Lemma score_reader_fails_on_blank_line `{Json} (files : fs) (path : string)
    (lines : list string) (line : string) :
  (forall doc, is_blank doc = true -> json_loads doc = None) ->
  files path = Some lines ->
  In line lines ->
  is_blank line = true ->
  exists e, GetScore.main files path = Raise e.
Proof.
  intros Hjson Hfile Hin Hblank. unfold GetScore.main. rewrite Hfile.
  assert (Hbad : forall outs, exists e, GetScore.read_line outs line = Raise e).
  { intros outs. exists (JSONDecodeError line). unfold GetScore.read_line.
    rewrite (loads_malformed line (Hjson line Hblank)). reflexivity. }
  destruct (for_each_fails GetScore.read_line lines line Hin Hbad (@nil pyval))
    as [e He].
  rewrite He. exists e. reflexivity.
Qed.

(** C8 at a failing input: on a file of three records followed by a blank
    line, the fix and the analysis count three instances, and the score
    reporter, which parses every line, fails on the blank one. *)
Theorem score_report_parses_blank_line :
  Samples.sample_files "blank_tail.jsonl"
  = Some [Samples.doc Samples.record_a; Samples.doc Samples.record_b;
          Samples.doc Samples.record_c; Samples.blank_line]
  /\ is_blank Samples.blank_line = true
  /\ (sm <- fst (FixCost.fix_output_file (H := Samples.sample_json)
         (disk := Samples.reliable_disk)
                   Samples.sample_files "blank_tail.jsonl" None) ;;
      Ok (FixCost.total_instances sm)) = Ok 3
  /\ (r <- AnalyzeCost.analyze_cost (H := Samples.sample_json)
             Samples.sample_files "blank_tail.jsonl" ;;
      Ok (AnalyzeCost.num_instances (AnalyzeCost.stats r))) = Ok 3
  /\ GetScore.main (H := Samples.sample_json) Samples.sample_files
       "blank_tail.jsonl"
     = Raise (JSONDecodeError Samples.blank_line).
Proof.
  repeat split; vm_compute; reflexivity.
Qed.

(** ** The output path *)

(** C9 at a failing input: the default output path replaces every ".jsonl"
    of the input path, not only the suffix. *)
Theorem default_output_path_replaces_every_occurrence :
  FixCost.default_output_path "runs.jsonl.d/output.jsonl"
  = "runs_fixed.jsonl.d/output_fixed.jsonl".
Proof.
  vm_compute. reflexivity.
Qed.

(** X14. With [--dry-run] every file is left as it was, whatever the input
    and the [--output] option, and however the write ends: the output goes
    to the null device. *)
Lemma dry_run_writes_nothing `{Json} {disk : Disk} (files : fs)
    (a : FixCost.args) :
  FixCost.dry_run a = true ->
  snd (FixCost.main files a) = files.
Proof.
  intros Hdry. unfold FixCost.main.
  destruct (files (FixCost.input_file a)) as [lines |] eqn:Hfile;
    [| reflexivity].
  rewrite Hdry. unfold FixCost.fix_output_file. rewrite Hfile.
  destruct (for_each FixCost.fix_line lines (FixCost.empty_summary, []))
    as [[sm fixed_lines] | e]; [| reflexivity].
  unfold fs_write.
  destruct (write_outcome_of dev_null _) as [| e | e reached]; reflexivity.
Qed.

(** *** Where the default output path is the suffix replaced *)

Lemma append_empty_r (s : string) : s ++ "" = s.
Proof.
  induction s as [| c s IH]; simpl; [reflexivity | rewrite IH; reflexivity].
Qed.

Lemma append_assoc (s1 s2 s3 : string) : (s1 ++ s2) ++ s3 = s1 ++ (s2 ++ s3).
Proof.
  induction s1 as [| c s1 IH]; simpl; [reflexivity | rewrite IH; reflexivity].
Qed.

Lemma starts_with_refl (p : string) : starts_with p p = true.
Proof.
  induction p as [| a p IH]; simpl; [reflexivity |].
  rewrite Ascii.eqb_refl. exact IH.
Qed.

Lemma replace_from_skip_all (old new r : string) :
  replace_from old new (String.length r) r = "".
Proof.
  induction r as [| c r IH]; simpl; [reflexivity | exact IH].
Qed.

(** A pattern none of whose characters is [a] that does not start [s] does
    not start [s] followed by a text beginning with [a] either. *)
Lemma starts_with_not_extended (a : ascii) (x p s : string) :
  absent a p = true ->
  starts_with p s = false ->
  starts_with p (s ++ String a x) = false.
Proof.
  revert s. induction p as [| b p IH]; intros s Habs Hs.
  - discriminate Hs.
  - cbn [absent] in Habs. apply andb_true_iff in Habs.
    destruct Habs as [Hb Habs]. destruct s as [| c s]; cbn [append starts_with].
    + apply negb_true_iff in Hb. rewrite Hb. reflexivity.
    + cbn [starts_with] in Hs. destruct (Ascii.eqb b c); cbn [andb] in *.
      * apply IH; assumption.
      * reflexivity.
Qed.

(** When the first character of [old] occurs nowhere else in it and [old]
    does not occur in [stem], replacing [old] in [stem ++ old] replaces that
    suffix alone. *)
Lemma replace_suffix_only (a : ascii) (p new stem : string) :
  absent a p = true ->
  contains (String a p) stem = false ->
  str_replace (stem ++ String a p) (String a p) new = stem ++ new.
Proof.
  intros Habs. unfold str_replace.
  induction stem as [| c stem IH]; intros Hfree.
  - cbn [append replace_from].
    rewrite (starts_with_refl (String a p)).
    cbn [String.length Nat.sub]. rewrite Nat.sub_0_r, replace_from_skip_all.
    apply append_empty_r.
  - cbn [contains] in Hfree. apply orb_false_elim in Hfree.
    destruct Hfree as [Hhere Hlater].
    cbn [append replace_from].
    assert (Hnot : starts_with (String a p) (String c (stem ++ String a p))
                   = false).
    { cbn [starts_with] in *. destruct (Ascii.eqb a c); cbn [andb] in *.
      - apply starts_with_not_extended; assumption.
      - reflexivity. }
    rewrite Hnot, (IH Hlater). reflexivity.
Qed.

(** X13. For an input path that ends in ".jsonl" and holds no other ".jsonl",
    the default output path is the path with that suffix replaced by
    "_fixed.jsonl". *)
Lemma default_output_path_of_suffix (stem : string) :
  contains ".jsonl" stem = false ->
  FixCost.default_output_path (stem ++ ".jsonl") = stem ++ "_fixed.jsonl".
Proof.
  intros Hfree. unfold FixCost.default_output_path.
  apply (replace_suffix_only "."%char "jsonl" "_fixed.jsonl" stem);
    [reflexivity | exact Hfree].
Qed.

(** *** Blank lines and the lines written *)

Lemma for_each_filter {S X : Type} (step : S -> X -> result S)
    (keep : X -> bool) :
  (forall st x, keep x = false -> step st x = Ok st) ->
  forall items st,
    for_each step items st = for_each step (filter keep items) st.
Proof.
  intros Hskip. induction items as [| x items IH]; intros st.
  - reflexivity.
  - cbn [filter for_each]. destruct (keep x) eqn:K.
    + cbn [for_each]. destruct (step st x) as [st' | e]; cbn [bind].
      * apply IH.
      * reflexivity.
    + rewrite (Hskip st x K). cbn [bind]. apply IH.
Qed.

Section Written.
Context `{Json} {disk : Disk}.

(** A fix that returns a summary has read its input, processed every line and
    written every output line. *)
Lemma fix_output_file_Ok (files files' : fs) (input_path : string)
    (output_path : option string) (sm : FixCost.summary) :
  FixCost.fix_output_file files input_path output_path = (Ok sm, files') ->
  exists lines fixed_lines,
    files input_path = Some lines
    /\ for_each FixCost.fix_line lines (FixCost.empty_summary, [])
       = Ok (sm, fixed_lines)
    /\ files'
       = fs_set files
           (match output_path with
            | None => FixCost.default_output_path input_path
            | Some p => p
            end)
           (map (fun l => l ++ nl) fixed_lines).
Proof.
  unfold FixCost.fix_output_file.
  destruct (files input_path) as [lines |]; [| discriminate].
  destruct (for_each FixCost.fix_line lines (FixCost.empty_summary, []))
    as [[sm' fixed_lines] | e] eqn:Hloop; [| discriminate].
  unfold fs_write.
  destruct (write_outcome_of _ _) as [| e | e reached];
    cbn [bind]; intros E; [| discriminate | discriminate].
  injection E as -> <-. exists lines, fixed_lines.
  split; [reflexivity | split; [exact Hloop | reflexivity]].
Qed.

(** The fix and the analysis treat a file as the file without its blank
    lines. *)
Lemma blank_lines_are_skipped (lines : list string) :
  (forall st,
     for_each FixCost.fix_line lines st
     = for_each FixCost.fix_line
         (filter (fun l => negb (is_blank l)) lines) st)
  /\ (forall st,
        for_each AnalyzeCost.analyze_line lines st
        = for_each AnalyzeCost.analyze_line
            (filter (fun l => negb (is_blank l)) lines) st).
Proof.
  split; intros st; apply for_each_filter; intros st' line Hkeep;
    apply negb_false_iff in Hkeep.
  - apply fix_line_blank, Hkeep.
  - apply analyze_line_blank, Hkeep.
Qed.

(** Each processed line adds one instance to the count and one line to
    [fixed_lines], or neither. *)
Lemma fix_line_counts (st st' : FixCost.summary * list string)
    (line : string) :
  FixCost.fix_line st line = Ok st' ->
  FixCost.total_instances (fst st') - Z.of_nat (List.length (snd st'))
  = FixCost.total_instances (fst st) - Z.of_nat (List.length (snd st)).
Proof.
  destruct st as [sm fixed_lines]. unfold FixCost.fix_line.
  destruct (is_blank line).
  - intros E. injection E as <-. reflexivity.
  - intros E. do 3 bind_inv E.
    apply bind_Ok in E.
    destruct E as ([[fixed_instance was_modified] reason] & _ & E).
    do 3 bind_inv E. injection E as <-.
    cbn [fst snd FixCost.total_instances]. rewrite length_app.
    cbn [List.length]. lia.
Qed.

Lemma fix_loop_counts (lines : list string) :
  forall st st',
    for_each FixCost.fix_line lines st = Ok st' ->
    FixCost.total_instances (fst st') - Z.of_nat (List.length (snd st'))
    = FixCost.total_instances (fst st) - Z.of_nat (List.length (snd st)).
Proof.
  induction lines as [| line lines IH]; intros st st' E.
  - injection E as <-. reflexivity.
  - cbn [for_each] in E. bind_inv E.
    rewrite (IH _ _ E). apply (fix_line_counts _ _ line). assumption.
Qed.

(** A successful fix with an explicit output path writes that file, one line
    per counted instance, and changes no other file. *)
Lemma fix_output_file_writes_one_line_per_instance (files files' : fs)
    (input_path output_path : string) (sm : FixCost.summary) :
  output_path <> dev_null ->
  FixCost.fix_output_file files input_path (Some output_path)
  = (Ok sm, files') ->
  (exists written,
     files' output_path = Some written
     /\ Z.of_nat (List.length written) = FixCost.total_instances sm)
  /\ (forall p, p <> output_path -> files' p = files p).
Proof.
  intros Hdev E.
  destruct (fix_output_file_Ok _ _ _ _ _ E)
    as (lines & fixed_lines & _ & Hloop & ->).
  unfold fs_set. apply String.eqb_neq in Hdev. rewrite Hdev. split.
  - rewrite String.eqb_refl. eexists. split; [reflexivity |].
    rewrite length_map. apply fix_loop_counts in Hloop.
    cbn [fst snd FixCost.total_instances FixCost.empty_summary List.length]
      in Hloop.
    lia.
  - intros p Hp. apply String.eqb_neq in Hp. rewrite Hp. reflexivity.
Qed.

End Written.

(* ================================================================== *)
(** * Further properties of the three scripts                          *)
(* ================================================================== *)

(** ** Counting assistant messages *)

Lemma count_step_estimate_step (n : Z) (msg : pyval) :
  FixCost.count_step n msg = FixCost.estimate_step n msg.
Proof.
  destruct msg as [ | b | z | x | s | l | d]; try reflexivity.
  unfold FixCost.count_step, FixCost.estimate_step.
  rewrite !py_get_dict. cbn [bind]. unfold field_or.
  destruct (dict_lookup "role" d) as [role |]; [| reflexivity].
  destruct (py_eq_str role "assistant"); [reflexivity |].
  destruct (py_eq_str role "tool"); [| reflexivity].
  destruct (dict_lookup "content" d) as [[ | b | z | x | text | l | d'] |];
    try reflexivity.
  destruct (existsb (fun prefix => starts_with prefix text)
              FixCost.tool_prefixes); reflexivity.
Qed.

(** X1. [count_assistant_messages] and [estimate_actual_api_calls] agree on
    every input: they return the same count, or fail with the same
    exception. A tool message is read by the first and counted by neither. *)
Theorem assistant_counters_agree (messages : pyval) :
  FixCost.count_assistant_messages messages
  = FixCost.estimate_actual_api_calls messages.
Proof.
  unfold FixCost.count_assistant_messages, FixCost.estimate_actual_api_calls.
  destruct (py_iter messages) as [items | e]; [| reflexivity]. cbn [bind].
  generalize 0. induction items as [| msg items IH]; intros n.
  - reflexivity.
  - cbn [for_each]. rewrite count_step_estimate_step.
    destruct (FixCost.estimate_step n msg) as [n' | e]; cbn [bind].
    + apply IH.
    + reflexivity.
Qed.

Lemma count_where_le_length {A : Type} (p : A -> bool) (l : list A) :
  count_where p l <= Z.of_nat (List.length l).
Proof.
  unfold count_where. apply Nat2Z.inj_le, filter_length_le.
Qed.

Lemma estimate_step_message (n : Z) (msg : pyval) :
  is_message msg ->
  FixCost.estimate_step n msg
  = Ok (n + (if has_role "assistant" msg then 1 else 0)).
Proof.
  intros [d ->]. unfold FixCost.estimate_step, has_role, field.
  rewrite py_get_dict. cbn [bind]. unfold field_or.
  destruct (dict_lookup "role" d) as [role |].
  - destruct (py_eq_str role "assistant"); [reflexivity |].
    rewrite Z.add_0_r. reflexivity.
  - cbn. rewrite Z.add_0_r. reflexivity.
Qed.

Lemma estimate_loop (msgs : list pyval) :
  Forall is_message msgs ->
  forall n,
    for_each FixCost.estimate_step msgs n
    = Ok (n + count_where (has_role "assistant") msgs).
Proof.
  induction 1 as [| msg msgs Hmsg _ IH]; intros n.
  - cbn. rewrite Z.add_0_r. reflexivity.
  - cbn [for_each]. rewrite (estimate_step_message n msg Hmsg). cbn [bind].
    rewrite IH, count_where_cons, Z.add_assoc. reflexivity.
Qed.

(** X2. On a sequence of Messages, [estimate_actual_api_calls] returns the
    number of messages whose role is the string "assistant" (a message with
    another role, or with none, adds nothing), a number between 0 and the
    length of the sequence. *)
Theorem estimate_counts_assistant_roles (msgs : list pyval) :
  Forall is_message msgs ->
  FixCost.estimate_actual_api_calls (PList msgs)
  = Ok (count_where (has_role "assistant") msgs)
  /\ 0 <= count_where (has_role "assistant") msgs
       <= Z.of_nat (List.length msgs).
Proof.
  intros Hmsgs. split.
  - unfold FixCost.estimate_actual_api_calls. cbn [py_iter bind].
    rewrite (estimate_loop msgs Hmsgs). reflexivity.
  - split; [apply count_where_nonneg | apply count_where_le_length].
Qed.

Lemma estimate_counts_assistant_roles_witness :
  FixCost.estimate_actual_api_calls (PList Samples.messages_b)
  = Ok (count_where (has_role "assistant") Samples.messages_b)
  /\ 0 <= count_where (has_role "assistant") Samples.messages_b
       <= Z.of_nat (List.length Samples.messages_b).
Proof.
  apply (estimate_counts_assistant_roles Samples.messages_b).
  repeat constructor; eexists; reflexivity.
Defined.

(** ** The detector on arbitrary lists *)

Lemma forallb_is_object (msgs : list pyval) :
  forallb is_object msgs = true <-> Forall is_message msgs.
Proof.
  rewrite forallb_forall, Forall_forall. split; intros Hall msg Hin.
  - specialize (Hall msg Hin). destruct msg; try discriminate Hall.
    eexists. reflexivity.
  - destruct (Hall msg Hin) as [d ->]. reflexivity.
Qed.

Lemma detect_step_not_object (st : FixCost.signals) (msg : pyval) :
  is_object msg = false -> FixCost.detect_step st msg = Raise AttributeError.
Proof.
  destruct msg; intros E; try discriminate E; reflexivity.
Qed.

(** The detector's loop on any list: the counts when every item is an
    object, an [AttributeError] otherwise. *)
Lemma detect_loop_total (msgs : list pyval) :
  forall st,
    for_each FixCost.detect_step msgs st
    = if forallb is_object msgs
      then Ok (add_signals st
                 {| FixCost.retry_count := count_where is_retry_request msgs;
                    FixCost.case_not_resolved_count :=
                      count_where is_unresolved_notice msgs;
                    FixCost.has_meta_agent := existsb is_meta_mention msgs |})
      else Raise AttributeError.
Proof.
  induction msgs as [| msg msgs IH]; intros st.
  - destruct st as [r c m]. unfold add_signals. cbn.
    rewrite !Z.add_0_r, orb_false_r. reflexivity.
  - cbn [for_each forallb]. destruct (is_object msg) eqn:O.
    + assert (Hmsg : is_message msg)
        by (destruct msg; try discriminate O; eexists; reflexivity).
      rewrite (detect_step_message st msg Hmsg). cbn [bind andb].
      rewrite IH. destruct (forallb is_object msgs); [| reflexivity].
      unfold add_signals.
      cbn [FixCost.retry_count FixCost.case_not_resolved_count
           FixCost.has_meta_agent existsb].
      rewrite !count_where_cons, !Z.add_assoc, orb_assoc. reflexivity.
    + rewrite (detect_step_not_object st msg O). reflexivity.
Qed.

Lemma add_signals_no_signals (s : FixCost.signals) :
  add_signals FixCost.no_signals s = s.
Proof.
  destruct s as [r c m]. reflexivity.
Qed.

Lemma detect_list (msgs : list pyval) :
  FixCost.detect_retry_pattern (PList msgs)
  = if forallb is_object msgs
    then Ok {| FixCost.retry_count := count_where is_retry_request msgs;
               FixCost.case_not_resolved_count :=
                 count_where is_unresolved_notice msgs;
               FixCost.has_meta_agent := existsb is_meta_mention msgs |}
    else Raise AttributeError.
Proof.
  unfold FixCost.detect_retry_pattern. cbn [py_iter bind].
  rewrite detect_loop_total.
  destruct (forallb is_object msgs); [| reflexivity].
  rewrite add_signals_no_signals. reflexivity.
Qed.

Lemma count_where_app {A : Type} (p : A -> bool) (l1 l2 : list A) :
  count_where p (l1 ++ l2) = count_where p l1 + count_where p l2.
Proof.
  unfold count_where. rewrite filter_app, length_app. lia.
Qed.

(** X3. The detector is compositional: the signals of a transcript cut in
    two are the signals of the two parts added (counts summed, flags
    or-ed), and it fails on the whole exactly when it fails on a part, with
    the same exception. *)
Theorem detect_retry_pattern_app (msgs1 msgs2 : list pyval) :
  FixCost.detect_retry_pattern (PList (msgs1 ++ msgs2))
  = (s1 <- FixCost.detect_retry_pattern (PList msgs1) ;;
     s2 <- FixCost.detect_retry_pattern (PList msgs2) ;;
     Ok (add_signals s1 s2)).
Proof.
  rewrite !detect_list, forallb_app.
  destruct (forallb is_object msgs1); cbn [andb bind]; [| reflexivity].
  destruct (forallb is_object msgs2); cbn [bind]; [| reflexivity].
  unfold add_signals.
  cbn [FixCost.retry_count FixCost.case_not_resolved_count
       FixCost.has_meta_agent].
  rewrite !count_where_app, existsb_app. reflexivity.
Qed.

Lemma count_where_permutation {A : Type} (p : A -> bool) (l l' : list A) :
  Permutation l l' -> count_where p l = count_where p l'.
Proof.
  induction 1 as [| x l l' _ IH | x y l | l l' l'' _ IH1 _ IH2].
  - reflexivity.
  - rewrite !count_where_cons, IH. reflexivity.
  - rewrite !count_where_cons. lia.
  - rewrite IH1. exact IH2.
Qed.

Lemma existsb_permutation {A : Type} (p : A -> bool) (l l' : list A) :
  Permutation l l' -> existsb p l = existsb p l'.
Proof.
  induction 1 as [| x l l' _ IH | x y l | l l' l'' _ IH1 _ IH2]; cbn [existsb].
  - reflexivity.
  - rewrite IH. reflexivity.
  - rewrite !orb_assoc, (orb_comm (p y) (p x)). reflexivity.
  - rewrite IH1. exact IH2.
Qed.

Lemma forallb_permutation {A : Type} (p : A -> bool) (l l' : list A) :
  Permutation l l' -> forallb p l = forallb p l'.
Proof.
  induction 1 as [| x l l' _ IH | x y l | l l' l'' _ IH1 _ IH2]; cbn [forallb].
  - reflexivity.
  - rewrite IH. reflexivity.
  - rewrite !andb_assoc, (andb_comm (p y) (p x)). reflexivity.
  - rewrite IH1. exact IH2.
Qed.

(** X4. The detector does not depend on the order of the messages: on two
    transcripts that hold the same messages in different orders it returns
    the same three signals, or fails on both. *)
Theorem detect_retry_pattern_any_order (msgs msgs' : list pyval) :
  Permutation msgs msgs' ->
  FixCost.detect_retry_pattern (PList msgs)
  = FixCost.detect_retry_pattern (PList msgs').
Proof.
  intros Hperm. rewrite !detect_list.
  rewrite (forallb_permutation is_object _ _ Hperm).
  rewrite (count_where_permutation is_retry_request _ _ Hperm).
  rewrite (count_where_permutation is_unresolved_notice _ _ Hperm).
  rewrite (existsb_permutation is_meta_mention _ _ Hperm).
  reflexivity.
Qed.

Lemma detect_retry_pattern_any_order_witness :
  FixCost.detect_retry_pattern (PList Samples.messages_b)
  = FixCost.detect_retry_pattern (PList (rev Samples.messages_b)).
Proof.
  apply (detect_retry_pattern_any_order Samples.messages_b
           (rev Samples.messages_b)).
  apply Permutation_rev.
Defined.

(** X5. What the detector can do on a list: it returns exactly when every
    item is an object, and then the two counts lie between 0 and the number
    of messages and the flag needs at least one message; otherwise it
    raises [AttributeError], and nothing else. *)
Theorem detect_retry_pattern_outcomes (msgs : list pyval) :
  (forallb is_object msgs = true ->
   exists sig,
     FixCost.detect_retry_pattern (PList msgs) = Ok sig
     /\ 0 <= FixCost.retry_count sig <= Z.of_nat (List.length msgs)
     /\ 0 <= FixCost.case_not_resolved_count sig
          <= Z.of_nat (List.length msgs)
     /\ (FixCost.has_meta_agent sig = true -> msgs <> []))
  /\ (forallb is_object msgs = false ->
      FixCost.detect_retry_pattern (PList msgs) = Raise AttributeError).
Proof.
  rewrite detect_list. split; intros ->; [| reflexivity].
  eexists. split; [reflexivity |].
  cbn [FixCost.retry_count FixCost.case_not_resolved_count
       FixCost.has_meta_agent].
  repeat split;
    try apply count_where_nonneg; try apply count_where_le_length.
  intros Hmeta ->. discriminate Hmeta.
Qed.

(** ** When a record is modified *)

(** X6. For an Instance Record on which reconciliation returns, the record
    is reported as modified exactly when its usage_stats are non-empty and
    its transcript holds at least one retry request. *)
Theorem modified_iff_usage_and_retry (d tr : dict) (msgs : list pyval)
    (fixed : pyval) (modified : bool) (reason : string) :
  instance_record d tr msgs ->
  FixCost.fix_instance_cost (PDict d) = Ok (fixed, modified, reason) ->
  (modified = true
   <-> truthy (field_or tr "usage_stats" (PDict [])) = true
       /\ 1 <= count_where is_retry_request msgs).
Proof.
  intros (Htr & Hmsgs & Hwf). unfold FixCost.fix_instance_cost.
  rewrite !py_get_dict, Hmsgs, Htr. cbn [bind].
  rewrite py_get_dict. cbn [bind].
  destruct (truthy (field_or tr "usage_stats" (PDict []))); cbn [negb].
  - rewrite (detect_messages msgs Hwf). cbn [bind FixCost.retry_count].
    pose proof (count_where_nonneg is_retry_request msgs) as Hnn.
    destruct (count_where is_retry_request msgs =? 0) eqn:E.
    + apply Z.eqb_eq in E. intros H. injection H as _ <- _.
      split; [discriminate | intros [_ Hk]; lia].
    + apply Z.eqb_neq in E. intros H.
      do 13 (apply bind_Ok in H; destruct H as (? & _ & H)).
      injection H as _ <- _. split; [intros _; split; [reflexivity | lia] |].
      reflexivity.
  - intros H. injection H as _ <- _.
    split; [discriminate | intros [Hf _]; discriminate Hf].
Qed.

Lemma modified_iff_usage_and_retry_witness :
  true = true
  <-> truthy (field_or (Samples.test_result false Samples.usage_b)
                "usage_stats" (PDict [])) = true
      /\ 1 <= count_where is_retry_request Samples.messages_b.
Proof.
  apply (modified_iff_usage_and_retry Samples.fields_b
           (Samples.test_result false Samples.usage_b) Samples.messages_b
           Samples.record_b_once true
           "Multiplied by 3 (retry_count=2), cost: $0.0500 -> $0.1500").
  - repeat split. repeat constructor; eexists; reflexivity.
  - vm_compute. reflexivity.
Defined.

(** X7. The transcript is inspected only after the [usage_stats] were found
    non-empty. On a record whose [messages] list holds an item that is no
    object, reconciliation fails with [AttributeError] when the usage_stats
    are non-empty, and otherwise returns the record itself, not modified,
    with the reason "No usage_stats found". *)
Theorem usage_stats_checked_before_transcript (d tr : dict)
    (msgs : list pyval) :
  field_or d "test_result" (PDict []) = PDict tr ->
  field_or d "messages" (PList []) = PList msgs ->
  forallb is_object msgs = false ->
  FixCost.fix_instance_cost (PDict d)
  = if truthy (field_or tr "usage_stats" (PDict []))
    then Raise AttributeError
    else Ok (PDict d, false, FixCost.no_usage_stats_reason).
Proof.
  intros Htr Hmsgs Hbad. unfold FixCost.fix_instance_cost.
  rewrite !py_get_dict, Hmsgs, Htr. cbn [bind].
  rewrite py_get_dict. cbn [bind].
  destruct (truthy (field_or tr "usage_stats" (PDict []))); cbn [negb].
  - rewrite detect_list, Hbad. reflexivity.
  - reflexivity.
Qed.

Lemma usage_stats_checked_before_transcript_witness :
  FixCost.fix_instance_cost (PDict Samples.fields_no_usage)
  = if truthy (field_or [("score", PBool false)] "usage_stats" (PDict []))
    then Raise AttributeError
    else Ok (PDict Samples.fields_no_usage, false,
             FixCost.no_usage_stats_reason).
Proof.
  apply (usage_stats_checked_before_transcript Samples.fields_no_usage
           [("score", PBool false)] [Samples.retry_request; PInt 7]).
  - reflexivity.
  - reflexivity.
  - reflexivity.
Defined.

(** ** The keys of the reconciled record *)

Lemma dict_set_keys (key : string) (v v0 : pyval) (d : dict) :
  dict_lookup key d = Some v0 ->
  map fst (dict_set key v d) = map fst d.
Proof.
  induction d as [| [k' v'] d IH]; simpl; [discriminate |].
  destruct (String.eqb key k') eqn:E; simpl.
  - apply String.eqb_eq in E. subst k'. reflexivity.
  - intros Hd. rewrite (IH Hd). reflexivity.
Qed.

(** A modified result comes from a record that has a [test_result] with a
    [usage_stats] in it. *)
Lemma fix_instance_cost_modified (instance fixed : pyval) (reason : string) :
  FixCost.fix_instance_cost instance = Ok (fixed, true, reason) ->
  exists d tr us0 us,
    instance = PDict d
    /\ dict_lookup "test_result" d = Some (PDict tr)
    /\ dict_lookup "usage_stats" tr = Some us0
    /\ fixed
       = PDict (dict_set "test_result" (PDict (dict_set "usage_stats" us tr)) d).
Proof.
  intros H.
  destruct (fix_instance_cost_shape _ _ _ _ H)
    as [[Hm _] | (_ & d & tr & us & -> & Htr & ->)]; [discriminate Hm |].
  unfold FixCost.fix_instance_cost in H.
  rewrite !py_get_dict, Htr in H. cbn [bind] in H.
  rewrite py_get_dict in H. cbn [bind] in H.
  unfold field_or in Htr, H.
  destruct (dict_lookup "usage_stats" tr) as [us0 |] eqn:Hus.
  - destruct (dict_lookup "test_result" d) as [v |] eqn:Hd.
    + subst v. exists d, tr, us0, us.
      split; [reflexivity |]. split; [exact Hd |].
      split; [exact Hus | reflexivity].
    + injection Htr as <-. discriminate Hus.
  - cbn in H. discriminate H.
Qed.

(** X8. Reconciliation keeps the keys of the record and of its
    [test_result], in their order: a modified record has the same fields in
    the same places, so its line in the output file lists them as the input
    line did. *)
Theorem reconciliation_keeps_keys (instance fixed : pyval) (modified : bool)
    (reason : string) :
  FixCost.fix_instance_cost instance = Ok (fixed, modified, reason) ->
  keys fixed = keys instance
  /\ (forall tr tr',
        field instance "test_result" = Some tr ->
        field fixed "test_result" = Some tr' ->
        keys tr' = keys tr).
Proof.
  intros H. destruct modified.
  - destruct (fix_instance_cost_modified _ _ _ H)
      as (d & tr & us0 & us & -> & Hd & Hus & ->).
    split.
    + cbn [keys]. rewrite (dict_set_keys _ _ _ _ Hd). reflexivity.
    + intros tr1 tr2 H1 H2. cbn [field] in H1, H2.
      rewrite dict_lookup_set_same in H2. rewrite Hd in H1.
      injection H1 as <-. injection H2 as <-.
      cbn [keys]. rewrite (dict_set_keys _ _ _ _ Hus). reflexivity.
  - destruct (fix_instance_cost_shape _ _ _ _ H)
      as [[_ ->] | (Hm & _)]; [| discriminate Hm].
    split; [reflexivity |].
    intros tr1 tr2 H1 H2. rewrite H1 in H2. injection H2 as <-. reflexivity.
Qed.

Lemma reconciliation_keeps_keys_witness :
  keys Samples.record_b_once = keys Samples.record_b
  /\ (forall tr tr',
        field Samples.record_b "test_result" = Some tr ->
        field Samples.record_b_once "test_result" = Some tr' ->
        keys tr' = keys tr).
Proof.
  apply (reconciliation_keeps_keys Samples.record_b Samples.record_b_once true
           "Multiplied by 3 (retry_count=2), cost: $0.0500 -> $0.1500").
  vm_compute. reflexivity.
Defined.

(** ** The output file and the summary of the fix *)

Section FixFile.
Context `{Json} {disk : Disk}.

(** What one non-blank line does to the state of the loop. *)
Lemma fix_line_nonblank (sm : FixCost.summary) (fixed_lines : list string)
    (line : string) (st' : FixCost.summary * list string) :
  is_blank line = false ->
  FixCost.fix_line (sm, fixed_lines) line = Ok st' ->
  exists instance fixed was_modified reason original_cost fixed_cost,
    loads line = Ok instance
    /\ FixCost.fix_instance_cost instance = Ok (fixed, was_modified, reason)
    /\ FixCost.recorded_cost instance = Ok original_cost
    /\ FixCost.recorded_cost fixed = Ok fixed_cost
    /\ float_add (FixCost.original_total_cost sm) original_cost
       = Ok (FixCost.original_total_cost (fst st'))
    /\ float_add (FixCost.fixed_total_cost sm) fixed_cost
       = Ok (FixCost.fixed_total_cost (fst st'))
    /\ FixCost.total_instances (fst st') = FixCost.total_instances sm + 1
    /\ FixCost.modified_instances (fst st')
       = FixCost.modified_instances sm + (if was_modified then 1 else 0)
    /\ Z.of_nat (List.length (FixCost.modifications (fst st')))
       = Z.of_nat (List.length (FixCost.modifications sm))
         + (if was_modified then 1 else 0)
    /\ snd st' = (fixed_lines ++ [json_dumps fixed])%list.
Proof.
  intros Hblank. unfold FixCost.fix_line. rewrite Hblank. intros E.
  apply bind_Ok in E. destruct E as (instance & Hload & E).
  apply bind_Ok in E. destruct E as (oc & Hoc & E).
  apply bind_Ok in E. destruct E as (ot & Hot & E).
  apply bind_Ok in E.
  destruct E as ([[fixed was_modified] reason] & Hfix & E).
  apply bind_Ok in E. destruct E as (fc & Hfc & E).
  apply bind_Ok in E. destruct E as (ft & Hft & E).
  apply bind_Ok in E. destruct E as (iid & _ & E).
  injection E as <-.
  exists instance, fixed, was_modified, reason, oc, fc.
  cbn [fst snd FixCost.original_total_cost FixCost.fixed_total_cost
       FixCost.total_instances FixCost.modified_instances
       FixCost.modifications].
  repeat (split; [assumption || reflexivity |]).
  split; [destruct was_modified; lia |].
  split; [| reflexivity].
  destruct was_modified; [rewrite length_app; cbn [List.length] |]; lia.
Qed.

Lemma nonblank_cons (line : string) (lines : list string) :
  nonblank (line :: lines)
  = if is_blank line then nonblank lines else line :: nonblank lines.
Proof.
  unfold nonblank. cbn [filter]. destruct (is_blank line); reflexivity.
Qed.

(** The lines the loop appends are the reconciled records of the non-blank
    input lines, in order. *)
Lemma fix_loop_output (lines : list string) :
  forall sm fixed_lines sm' fixed_lines',
    for_each FixCost.fix_line lines (sm, fixed_lines) = Ok (sm', fixed_lines') ->
    exists outs,
      fixed_lines' = (fixed_lines ++ outs)%list
      /\ Forall2 fixed_line (nonblank lines) outs.
Proof.
  induction lines as [| line lines IH]; intros sm fl sm' fl' E.
  - injection E as <- <-. exists []. rewrite app_nil_r.
    split; [reflexivity | constructor].
  - cbn [for_each] in E. apply bind_Ok in E.
    destruct E as ([sm1 fl1] & Hstep & E).
    rewrite nonblank_cons. destruct (is_blank line) eqn:Hblank.
    + rewrite (fix_line_blank _ _ Hblank) in Hstep. injection Hstep as <- <-.
      apply (IH _ _ _ _ E).
    + destruct (fix_line_nonblank _ _ _ _ Hblank Hstep)
        as (instance & fixed & wm & reason & oc & fc & Hload & Hfix & _ & _
            & _ & _ & _ & _ & _ & Hout).
      cbn [snd] in Hout. subst fl1.
      destruct (IH _ _ _ _ E) as (outs & -> & Houts).
      exists (json_dumps fixed :: outs). split.
      * rewrite <- app_assoc. reflexivity.
      * constructor; [| exact Houts].
        exists instance, fixed. split; [exact Hload |].
        split; [| reflexivity].
        unfold reconciled_record. rewrite Hfix. reflexivity.
Qed.

(** The counters of the summary along the loop. *)
Lemma fix_loop_summary (lines : list string) :
  forall sm fixed_lines sm' fixed_lines',
    for_each FixCost.fix_line lines (sm, fixed_lines) = Ok (sm', fixed_lines') ->
    FixCost.total_instances sm'
    = FixCost.total_instances sm + Z.of_nat (List.length (nonblank lines))
    /\ FixCost.modified_instances sm'
         - Z.of_nat (List.length (FixCost.modifications sm'))
       = FixCost.modified_instances sm
         - Z.of_nat (List.length (FixCost.modifications sm))
    /\ FixCost.modified_instances sm <= FixCost.modified_instances sm'
       <= FixCost.modified_instances sm
          + Z.of_nat (List.length (nonblank lines)).
Proof.
  induction lines as [| line lines IH]; intros sm fl sm' fl' E.
  - injection E as <- <-. cbn [nonblank filter List.length]. lia.
  - cbn [for_each] in E. apply bind_Ok in E.
    destruct E as ([sm1 fl1] & Hstep & E).
    rewrite nonblank_cons. destruct (is_blank line) eqn:Hblank.
    + rewrite (fix_line_blank _ _ Hblank) in Hstep. injection Hstep as <- <-.
      apply (IH _ _ _ _ E).
    + destruct (fix_line_nonblank _ _ _ _ Hblank Hstep)
        as (instance & fixed & wm & reason & oc & fc & _ & _ & _ & _
            & _ & _ & Htotal & Hmod & Hlen & _).
      cbn [fst] in Htotal, Hmod, Hlen.
      destruct (IH _ _ _ _ E) as (IH1 & IH2 & IH3).
      cbn [List.length]. destruct wm; lia.
Qed.

(** While no record is modified, the two cost totals stay equal. *)
Lemma fix_loop_unmodified (lines : list string) :
  forall sm fixed_lines sm' fixed_lines',
    for_each FixCost.fix_line lines (sm, fixed_lines) = Ok (sm', fixed_lines') ->
    FixCost.modified_instances sm' = FixCost.modified_instances sm ->
    FixCost.fixed_total_cost sm = FixCost.original_total_cost sm ->
    FixCost.fixed_total_cost sm' = FixCost.original_total_cost sm'.
Proof.
  induction lines as [| line lines IH]; intros sm fl sm' fl' E Hsame Heq.
  - injection E as <- <-. exact Heq.
  - cbn [for_each] in E. apply bind_Ok in E.
    destruct E as ([sm1 fl1] & Hstep & E).
    destruct (is_blank line) eqn:Hblank.
    + rewrite (fix_line_blank _ _ Hblank) in Hstep. injection Hstep as <- <-.
      apply (IH _ _ _ _ E Hsame Heq).
    + destruct (fix_line_nonblank _ _ _ _ Hblank Hstep)
        as (instance & fixed & wm & reason & oc & fc & _ & Hfix & Hoc & Hfc
            & Hot & Hft & _ & Hmod & _ & _).
      cbn [fst] in Hot, Hft, Hmod.
      destruct (fix_loop_summary _ _ _ _ _ E) as (_ & _ & Hmono).
      destruct wm; [lia |].
      destruct (fix_instance_cost_shape _ _ _ _ Hfix)
        as [[_ ->] | (Hm & _)]; [| discriminate Hm].
      rewrite Hoc in Hfc. injection Hfc as <-.
      rewrite Heq, Hot in Hft. injection Hft as Hft.
      apply (IH _ _ _ _ E); [lia | symmetry; exact Hft].
Qed.

(** X9. The summary of a successful fix counts the file: [total_instances]
    is the number of non-blank lines, [modified_instances] is the number of
    entries of [modifications], and it lies between 0 and
    [total_instances]. *)
Theorem fix_summary_counts (files files' : fs) (input_path : string)
    (output_path : option string) (lines : list string)
    (sm : FixCost.summary) :
  files input_path = Some lines ->
  FixCost.fix_output_file files input_path output_path = (Ok sm, files') ->
  FixCost.total_instances sm = Z.of_nat (List.length (nonblank lines))
  /\ FixCost.modified_instances sm
     = Z.of_nat (List.length (FixCost.modifications sm))
  /\ 0 <= FixCost.modified_instances sm <= FixCost.total_instances sm.
Proof.
  intros Hfile E.
  destruct (fix_output_file_Ok _ _ _ _ _ E)
    as (lines' & fixed_lines & Hfile' & Hloop & _).
  rewrite Hfile in Hfile'. injection Hfile' as <-.
  destruct (fix_loop_summary _ _ _ _ _ Hloop) as (H1 & H2 & H3).
  cbn [FixCost.total_instances FixCost.modified_instances
       FixCost.modifications FixCost.empty_summary List.length] in H1, H2, H3.
  lia.
Qed.

(** What a successful fix leaves at its output path. *)
Lemma fix_output_file_written (files files' : fs)
    (input_path output_path : string) (lines : list string)
    (sm : FixCost.summary) :
  files input_path = Some lines ->
  output_path <> dev_null ->
  FixCost.fix_output_file files input_path (Some output_path)
  = (Ok sm, files') ->
  exists outs,
    files' output_path = Some (map (fun l => l ++ nl) outs)
    /\ Forall2 fixed_line (nonblank lines) outs
    /\ forall p, p <> output_path -> files' p = files p.
Proof.
  intros Hfile Hdev E.
  destruct (fix_output_file_Ok _ _ _ _ _ E)
    as (lines' & fixed_lines & Hfile' & Hloop & ->).
  rewrite Hfile in Hfile'. injection Hfile' as <-.
  destruct (fix_loop_output _ _ _ _ _ Hloop) as (outs & Houts & Hall).
  cbn [app] in Houts. subst fixed_lines.
  exists outs. unfold fs_set. apply String.eqb_neq in Hdev. rewrite Hdev.
  split; [rewrite String.eqb_refl; reflexivity |].
  split; [exact Hall |].
  intros p Hp. apply String.eqb_neq in Hp. rewrite Hp. reflexivity.
Qed.

(** X10. A successful fix with an explicit output path writes there, in
    order, one line for each non-blank input line: the text of the
    reconciled copy of the record parsed from it, followed by a newline. No
    other file changes. *)
Theorem fix_output_file_writes_reconciled_records (files files' : fs)
    (input_path output_path : string) (lines : list string)
    (sm : FixCost.summary) :
  files input_path = Some lines ->
  output_path <> dev_null ->
  FixCost.fix_output_file files input_path (Some output_path)
  = (Ok sm, files') ->
  exists outs,
    files' output_path = Some (map (fun l => l ++ nl) outs)
    /\ Forall2 fixed_line (nonblank lines) outs
    /\ forall p, p <> output_path -> files' p = files p.
Proof.
  apply fix_output_file_written.
Qed.

(** X11. When a successful fix modified no record, the two totals of its
    summary are the same float and the list of modifications is empty. *)
Theorem fix_without_retries_keeps_total (files files' : fs)
    (input_path : string) (output_path : option string)
    (sm : FixCost.summary) :
  FixCost.fix_output_file files input_path output_path = (Ok sm, files') ->
  FixCost.modified_instances sm = 0 ->
  FixCost.fixed_total_cost sm = FixCost.original_total_cost sm
  /\ FixCost.modifications sm = [].
Proof.
  intros E Hzero.
  destruct (fix_output_file_Ok _ _ _ _ _ E)
    as (lines & fixed_lines & _ & Hloop & _).
  split.
  - apply (fix_loop_unmodified _ _ _ _ _ Hloop); [exact Hzero | reflexivity].
  - destruct (fix_loop_summary _ _ _ _ _ Hloop) as (_ & Hlen & _).
    cbn [FixCost.modified_instances FixCost.modifications
         FixCost.empty_summary List.length] in Hlen.
    destruct (FixCost.modifications sm); [reflexivity |].
    cbn [List.length] in Hlen. lia.
Qed.

Lemma str_replace_absent (s old new : string) :
  contains old s = false -> str_replace s old new = s.
Proof.
  destruct old as [| a old].
  - destruct s; discriminate.
  - unfold str_replace. induction s as [| c s IH]; intros Hfree.
    + reflexivity.
    + cbn [contains] in Hfree. apply orb_false_elim in Hfree.
      destruct Hfree as [Hhere Hlater].
      cbn [replace_from]. rewrite Hhere, (IH Hlater). reflexivity.
Qed.

(** X12. When the input path holds no ".jsonl" and no output path is given,
    the default output path is the input path itself: a successful fix
    replaces the input file by the reconciled lines. *)
Theorem fix_without_suffix_overwrites_input (files files' : fs)
    (input_path : string) (lines : list string) (sm : FixCost.summary) :
  contains ".jsonl" input_path = false ->
  input_path <> dev_null ->
  files input_path = Some lines ->
  FixCost.fix_output_file files input_path None = (Ok sm, files') ->
  FixCost.default_output_path input_path = input_path
  /\ exists outs,
       files' input_path = Some (map (fun l => l ++ nl) outs)
       /\ Forall2 fixed_line (nonblank lines) outs.
Proof.
  intros Hfree Hdev Hfile Hfix.
  assert (Hpath : FixCost.default_output_path input_path = input_path)
    by (apply str_replace_absent, Hfree).
  split; [exact Hpath |].
  change (FixCost.fix_output_file files input_path None)
    with (FixCost.fix_output_file files input_path
            (Some (FixCost.default_output_path input_path))) in Hfix.
  rewrite Hpath in Hfix.
  destruct (fix_output_file_written _ _ _ _ _ _ Hfile Hdev Hfix)
    as (outs & Hout & Hall & _).
  exists outs. split; assumption.
Qed.

(** X16. Blank lines do not matter to the fix and to the analysis: on a
    file and on the same file without its blank lines they return the same
    summary and the same report, or fail alike. *)
Theorem blank_lines_do_not_matter (files : fs) (path : string)
    (output_path : option string) (lines : list string) :
  files path = Some lines ->
  fst (FixCost.fix_output_file files path output_path)
  = fst (FixCost.fix_output_file (with_file files path (nonblank lines)) path
           output_path)
  /\ AnalyzeCost.analyze_cost files path
     = AnalyzeCost.analyze_cost (with_file files path (nonblank lines)) path.
Proof.
  intros Hfile.
  unfold FixCost.fix_output_file, AnalyzeCost.analyze_cost, with_file.
  rewrite Hfile, String.eqb_refl.
  destruct (blank_lines_are_skipped lines) as [Hfix Hana].
  unfold nonblank. rewrite <- Hfix, <- Hana. split; [| reflexivity].
  destruct (for_each FixCost.fix_line lines (FixCost.empty_summary, []))
    as [[sm fixed_lines] | e]; [| reflexivity].
  unfold fs_write.
  destruct (write_outcome_of _ _) as [| e | e reached]; reflexivity.
Qed.

End FixFile.

Lemma fix_summary_counts_witness :
  FixCost.total_instances (Samples.fix_summary "blank_tail.jsonl" None)
  = Z.of_nat
      (List.length
         (nonblank [Samples.doc Samples.record_a; Samples.doc Samples.record_b;
                    Samples.doc Samples.record_c; Samples.blank_line]))
  /\ FixCost.modified_instances (Samples.fix_summary "blank_tail.jsonl" None)
     = Z.of_nat
         (List.length
            (FixCost.modifications
               (Samples.fix_summary "blank_tail.jsonl" None)))
  /\ 0 <= FixCost.modified_instances
            (Samples.fix_summary "blank_tail.jsonl" None)
       <= FixCost.total_instances (Samples.fix_summary "blank_tail.jsonl" None).
Proof.
  apply (fix_summary_counts (H := Samples.sample_json)
           (disk := Samples.reliable_disk) Samples.sample_files
           (Samples.fix_files "blank_tail.jsonl" None) "blank_tail.jsonl" None).
  - reflexivity.
  - vm_compute. reflexivity.
Defined.

Lemma fix_output_file_writes_reconciled_records_witness :
  exists outs,
    Samples.fix_files "scenario_b.jsonl" (Some "out.jsonl") "out.jsonl"
    = Some (map (fun l => l ++ nl) outs)
    /\ Forall2 (fixed_line (H := Samples.sample_json))
         (nonblank [Samples.doc Samples.record_b]) outs
    /\ forall p, p <> "out.jsonl" ->
         Samples.fix_files "scenario_b.jsonl" (Some "out.jsonl") p
         = Samples.sample_files p.
Proof.
  apply (fix_output_file_writes_reconciled_records (H := Samples.sample_json)
           (disk := Samples.reliable_disk)
           Samples.sample_files
           (Samples.fix_files "scenario_b.jsonl" (Some "out.jsonl"))
           "scenario_b.jsonl" "out.jsonl" [Samples.doc Samples.record_b]
           (Samples.fix_summary "scenario_b.jsonl" (Some "out.jsonl"))).
  - reflexivity.
  - discriminate.
  - vm_compute. reflexivity.
Defined.

Lemma fix_without_retries_keeps_total_witness :
  FixCost.fixed_total_cost (Samples.fix_summary "scenario_a.jsonl" None)
  = FixCost.original_total_cost (Samples.fix_summary "scenario_a.jsonl" None)
  /\ FixCost.modifications (Samples.fix_summary "scenario_a.jsonl" None) = [].
Proof.
  apply (fix_without_retries_keeps_total (H := Samples.sample_json)
           (disk := Samples.reliable_disk)
           Samples.sample_files (Samples.fix_files "scenario_a.jsonl" None)
           "scenario_a.jsonl" None).
  - vm_compute. reflexivity.
  - vm_compute. reflexivity.
Defined.

Lemma fix_without_suffix_overwrites_input_witness :
  FixCost.default_output_path "results.txt" = "results.txt"
  /\ exists outs,
       snd (FixCost.fix_output_file (H := Samples.sample_json)
         (disk := Samples.reliable_disk)
              Samples.plain_files "results.txt" None) "results.txt"
       = Some (map (fun l => l ++ nl) outs)
       /\ Forall2 (fixed_line (H := Samples.sample_json))
            (nonblank [Samples.doc Samples.record_b]) outs.
Proof.
  apply (fix_without_suffix_overwrites_input (H := Samples.sample_json)
           (disk := Samples.reliable_disk)
           Samples.plain_files
           (snd (FixCost.fix_output_file (H := Samples.sample_json)
         (disk := Samples.reliable_disk)
                   Samples.plain_files "results.txt" None))
           "results.txt" [Samples.doc Samples.record_b]
           (match fst (FixCost.fix_output_file (H := Samples.sample_json)
         (disk := Samples.reliable_disk)
                         Samples.plain_files "results.txt" None) with
            | Ok sm => sm
            | Raise _ => FixCost.empty_summary
            end)).
  - reflexivity.
  - discriminate.
  - reflexivity.
  - vm_compute. reflexivity.
Defined.

Lemma blank_lines_do_not_matter_witness :
  fst (FixCost.fix_output_file (H := Samples.sample_json)
         (disk := Samples.reliable_disk) Samples.sample_files
         "blank_tail.jsonl" None)
  = fst (FixCost.fix_output_file (H := Samples.sample_json)
         (disk := Samples.reliable_disk)
           (with_file Samples.sample_files "blank_tail.jsonl"
              (nonblank [Samples.doc Samples.record_a;
                         Samples.doc Samples.record_b;
                         Samples.doc Samples.record_c; Samples.blank_line]))
           "blank_tail.jsonl" None)
  /\ AnalyzeCost.analyze_cost (H := Samples.sample_json) Samples.sample_files
       "blank_tail.jsonl"
     = AnalyzeCost.analyze_cost (H := Samples.sample_json)
         (with_file Samples.sample_files "blank_tail.jsonl"
            (nonblank [Samples.doc Samples.record_a;
                       Samples.doc Samples.record_b;
                       Samples.doc Samples.record_c; Samples.blank_line]))
         "blank_tail.jsonl".
Proof.
  apply (blank_lines_do_not_matter (H := Samples.sample_json)
           (disk := Samples.reliable_disk)
           Samples.sample_files "blank_tail.jsonl" None).
  reflexivity.
Defined.

Lemma default_output_path_of_suffix_witness :
  FixCost.default_output_path ("runs/output" ++ ".jsonl")
  = "runs/output" ++ "_fixed.jsonl".
Proof.
  apply (default_output_path_of_suffix "runs/output"). reflexivity.
Defined.

Lemma dry_run_writes_nothing_witness :
  snd (FixCost.main (H := Samples.sample_json)
         (disk := Samples.reliable_disk) Samples.sample_files
         {| FixCost.input_file := "scenario_b.jsonl";
            FixCost.output := Some "out.jsonl";
            FixCost.dry_run := true |})
  = Samples.sample_files.
Proof.
  apply (dry_run_writes_nothing (H := Samples.sample_json)
           (disk := Samples.reliable_disk)
           Samples.sample_files
           {| FixCost.input_file := "scenario_b.jsonl";
              FixCost.output := Some "out.jsonl";
              FixCost.dry_run := true |}).
  reflexivity.
Defined.

(** ** The counters of the score reporter *)

(** One turn of the tally counts the record once, whatever its Level, and
    keeps the counters consistent. *)
Lemma tally_step_consistent (t t' : GetScore.tally) (out : pyval) :
  GetScore.tally_step t out = Ok t' ->
  GetScore.total t' = GetScore.total t + 1
  /\ (tally_consistent t -> tally_consistent t').
Proof.
  unfold GetScore.tally_step, tally_consistent. intros E.
  apply bind_Ok in E. destruct E as (score & Hscore & E).
  apply bind_Ok in E. destruct E as (level & _ & E).
  destruct (py_eq_str level "1");
    [| destruct (py_eq_str level "2"); [| destruct (py_eq_str level "3")]].
  4: { injection E as <-.
       cbn [GetScore.total GetScore.success GetScore.l1_total
            GetScore.l1_success GetScore.l2_total GetScore.l2_success
            GetScore.l3_total GetScore.l3_success].
       destruct (truthy score); lia. }
  all: apply bind_Ok in E; destruct E as (score' & Hscore' & E);
    rewrite Hscore in Hscore'; injection Hscore' as <-;
    apply bind_Ok in E; destruct E as (cost & _ & E);
    apply bind_Ok in E; destruct E as (c & _ & E);
    injection E as <-;
    cbn [GetScore.total GetScore.success GetScore.l1_total
         GetScore.l1_success GetScore.l2_total GetScore.l2_success
         GetScore.l3_total GetScore.l3_success];
    destruct (truthy score); lia.
Qed.

Lemma tally_loop_consistent (outs : list pyval) :
  forall t t',
    for_each GetScore.tally_step outs t = Ok t' ->
    GetScore.total t' = GetScore.total t + Z.of_nat (List.length outs)
    /\ (tally_consistent t -> tally_consistent t').
Proof.
  induction outs as [| out outs IH]; intros t t' E.
  - injection E as <-. cbn [List.length]. split; [lia | auto].
  - cbn [for_each] in E. apply bind_Ok in E. destruct E as (t1 & Hstep & E).
    destruct (tally_step_consistent _ _ _ Hstep) as [H1 H2].
    destruct (IH _ _ E) as [H3 H4].
    split; [cbn [List.length]; lia | auto].
Qed.

(** X17. Whenever the tally of the score reporter completes, on records of
    any shape, its counters are consistent: [total] is the number of
    records, each success count lies between 0 and its total, the three tier
    totals together do not exceed [total], and the three tier success counts
    together do not exceed [success]. *)
Theorem tally_counters_consistent (outs : list pyval) (t : GetScore.tally) :
  for_each GetScore.tally_step outs GetScore.empty_tally = Ok t ->
  GetScore.total t = Z.of_nat (List.length outs) /\ tally_consistent t.
Proof.
  intros E. destruct (tally_loop_consistent _ _ _ E) as [H1 H2]. split.
  - exact H1.
  - apply H2. unfold tally_consistent. cbn. lia.
Qed.

Lemma tally_counters_consistent_witness :
  GetScore.total (tally_after GetScore.empty_tally Samples.documents)
  = Z.of_nat (List.length Samples.documents)
  /\ tally_consistent (tally_after GetScore.empty_tally Samples.documents).
Proof.
  apply (tally_counters_consistent Samples.documents).
  vm_compute. reflexivity.
Defined.

Section ScoreFile.
Context `{Json}.

Lemma read_loop_length (lines : list string) :
  forall outs outs',
    for_each GetScore.read_line lines outs = Ok outs' ->
    List.length outs' = (List.length outs + List.length lines)%nat.
Proof.
  induction lines as [| line lines IH]; intros outs outs' E.
  - injection E as <-. cbn [List.length]. lia.
  - cbn [for_each] in E. apply bind_Ok in E. destruct E as (outs1 & Hstep & E).
    unfold GetScore.read_line in Hstep.
    apply bind_Ok in Hstep. destruct Hstep as (o & _ & Hstep).
    injection Hstep as <-.
    rewrite (IH _ _ E), length_app. cbn [List.length]. lia.
Qed.

(** X18. The score reporter returns a report only for a file that holds a
    record of each of the three tiers, hence at least three lines; the report
    then counts every line of the file, and its total cost is the sum of the
    three tier costs. On an empty file it fails with [IndexError], before
    any rate is computed. *)
Theorem score_report_needs_all_tiers (files : fs) (this_log : string)
    (lines : list string) :
  files this_log = Some lines ->
  (lines = [] -> GetScore.main files this_log = Raise IndexError)
  /\ (forall r,
        GetScore.main files this_log = Ok r ->
        GetScore.total (GetScore.counts r) = Z.of_nat (List.length lines)
        /\ GetScore.l1_total (GetScore.counts r) <> 0
        /\ GetScore.l2_total (GetScore.counts r) <> 0
        /\ GetScore.l3_total (GetScore.counts r) <> 0
        /\ (3 <= List.length lines)%nat
        /\ tally_consistent (GetScore.counts r)
        /\ GetScore.total_cost r
           = fadd (fadd (GetScore.l1_cost (GetScore.counts r))
                     (GetScore.l2_cost (GetScore.counts r)))
               (GetScore.l3_cost (GetScore.counts r))).
Proof.
  intros Hfile. unfold GetScore.main. rewrite Hfile. split.
  - intros ->. reflexivity.
  - intros r E.
    apply bind_Ok in E. destruct E as (outs & Hread & E).
    apply bind_Ok in E. destruct E as (first & _ & E).
    apply bind_Ok in E. destruct E as (meta & _ & E).
    apply bind_Ok in E. destruct E as (t & Htally & E).
    destruct (report_needs_every_tier _ _ E) as (_ & N1 & N2 & N3).
    destruct (tally_loop_consistent _ _ _ Htally) as [Htotal Hcons].
    cbn [GetScore.total GetScore.empty_tally Z.add] in Htotal.
    assert (Hempty : tally_consistent GetScore.empty_tally)
      by (unfold tally_consistent; cbn; lia).
    specialize (Hcons Hempty).
    apply read_loop_length in Hread. cbn [List.length] in Hread.
    unfold GetScore.report in E.
    do 4 (apply bind_Ok in E; destruct E as (? & _ & E)).
    injection E as <-.
    cbn [GetScore.counts GetScore.total_cost].
    rewrite Hread in Htotal.
    assert (H3 : 3 <= GetScore.total t)
      by (unfold tally_consistent in Hcons; lia).
    repeat split; try assumption; try (apply Hcons); lia.
Qed.

End ScoreFile.

Lemma score_report_needs_all_tiers_witness :
  ([Samples.doc Samples.record_a; Samples.doc Samples.record_b;
    Samples.doc Samples.record_c; Samples.doc Samples.record_d] = [] ->
   GetScore.main (H := Samples.sample_json) Samples.sample_files "levels.jsonl"
   = Raise IndexError)
  /\ (forall r,
        GetScore.main (H := Samples.sample_json) Samples.sample_files
          "levels.jsonl" = Ok r ->
        GetScore.total (GetScore.counts r)
        = Z.of_nat
            (List.length
               [Samples.doc Samples.record_a; Samples.doc Samples.record_b;
                Samples.doc Samples.record_c; Samples.doc Samples.record_d])
        /\ GetScore.l1_total (GetScore.counts r) <> 0
        /\ GetScore.l2_total (GetScore.counts r) <> 0
        /\ GetScore.l3_total (GetScore.counts r) <> 0
        /\ (3 <= List.length
                   [Samples.doc Samples.record_a; Samples.doc Samples.record_b;
                    Samples.doc Samples.record_c;
                    Samples.doc Samples.record_d])%nat
        /\ tally_consistent (GetScore.counts r)
        /\ GetScore.total_cost r
           = fadd (fadd (GetScore.l1_cost (GetScore.counts r))
                     (GetScore.l2_cost (GetScore.counts r)))
               (GetScore.l3_cost (GetScore.counts r))).
Proof.
  apply (score_report_needs_all_tiers (H := Samples.sample_json)
           Samples.sample_files "levels.jsonl").
  reflexivity.
Defined.

Lemma score_reader_fails_on_blank_line_witness :
  exists e,
    GetScore.main (H := Samples.sample_json) Samples.sample_files
      "blank_tail.jsonl" = Raise e.
Proof.
  apply (score_reader_fails_on_blank_line (H := Samples.sample_json)
           Samples.sample_files "blank_tail.jsonl"
           [Samples.doc Samples.record_a; Samples.doc Samples.record_b;
            Samples.doc Samples.record_c; Samples.blank_line]
           Samples.blank_line).
  - intros doc Hblank. cbn [json_loads Samples.sample_json].
    unfold Samples.documents, Samples.find_document.
    repeat match goal with
      | |- context [String.eqb doc ?d] =>
          let E := fresh "E" in
          destruct (String.eqb doc d) eqn:E;
          [apply String.eqb_eq in E; subst doc; vm_compute in Hblank;
           discriminate Hblank |]
      end.
    reflexivity.
  - reflexivity.
  - right. right. right. left. reflexivity.
  - reflexivity.
Defined.

(** ** The counts of the cost analysis *)

Section AnalyzeFile.
Context `{Json}.

Lemma analyze_line_nonblank (ts ts' : AnalyzeCost.total_stats)
    (costs costs' : list AnalyzeCost.instance_cost) (line : string) :
  is_blank line = false ->
  AnalyzeCost.analyze_line (ts, costs) line = Ok (ts', costs') ->
  AnalyzeCost.num_instances ts' = AnalyzeCost.num_instances ts + 1
  /\ List.length costs'
     = (List.length costs + (if has_usage_stats line then 1 else 0))%nat
  /\ (has_usage_stats line = false ->
      AnalyzeCost.total_cost ts' = AnalyzeCost.total_cost ts
      /\ AnalyzeCost.total_tokens ts' = AnalyzeCost.total_tokens ts
      /\ AnalyzeCost.total_api_calls ts' = AnalyzeCost.total_api_calls ts).
Proof.
  intros Hblank. unfold AnalyzeCost.analyze_line, has_usage_stats.
  rewrite Hblank. intros E.
  apply bind_Ok in E. destruct E as (data & Hload & E). rewrite Hload.
  apply bind_Ok in E. destruct E as (tr & Htr & E). rewrite Htr. cbn [bind].
  apply bind_Ok in E. destruct E as (us & Hus & E). rewrite Hus.
  destruct (truthy us).
  - do 12 (apply bind_Ok in E; destruct E as (? & _ & E)).
    injection E as <- <-. cbn [AnalyzeCost.num_instances].
    split; [reflexivity |]. split; [| discriminate].
    rewrite length_app. reflexivity.
  - injection E as <- <-.
    cbn [AnalyzeCost.num_instances AnalyzeCost.total_cost
         AnalyzeCost.total_tokens AnalyzeCost.total_api_calls].
    split; [reflexivity |]. split; [lia |]. intros _. repeat split.
Qed.

Lemma analyze_loop_counts (lines : list string) :
  forall ts costs ts' costs',
    for_each AnalyzeCost.analyze_line lines (ts, costs) = Ok (ts', costs') ->
    AnalyzeCost.num_instances ts'
    = AnalyzeCost.num_instances ts + Z.of_nat (List.length (nonblank lines))
    /\ List.length costs'
       = (List.length costs
          + List.length (filter has_usage_stats (nonblank lines)))%nat.
Proof.
  induction lines as [| line lines IH]; intros ts costs ts' costs' E.
  - injection E as <- <-. cbn [nonblank filter List.length]. lia.
  - cbn [for_each] in E. apply bind_Ok in E.
    destruct E as ([ts1 costs1] & Hstep & E).
    rewrite nonblank_cons. destruct (is_blank line) eqn:Hblank.
    + rewrite (analyze_line_blank _ _ Hblank) in Hstep.
      injection Hstep as <- <-. apply (IH _ _ _ _ E).
    + destruct (analyze_line_nonblank _ _ _ _ _ Hblank Hstep) as (H1 & H2 & _).
      destruct (IH _ _ _ _ E) as (H3 & H4).
      cbn [filter List.length].
      destruct (has_usage_stats line); cbn [List.length]; lia.
Qed.

(** X19. A successful cost analysis counts every non-blank line as an
    instance, lists a cost entry for exactly the lines whose record has
    non-empty usage_stats (a record without them is counted and adds no
    entry), and prints the averages exactly when the file has a non-blank
    line. *)
Theorem analyze_cost_counts (files : fs) (output_file : string)
    (lines : list string) (r : AnalyzeCost.cost_report) :
  files output_file = Some lines ->
  AnalyzeCost.analyze_cost files output_file = Ok r ->
  AnalyzeCost.num_instances (AnalyzeCost.stats r)
  = Z.of_nat (List.length (nonblank lines))
  /\ List.length (AnalyzeCost.instance_costs r)
     = List.length (filter has_usage_stats (nonblank lines))
  /\ (AnalyzeCost.per_instance r = None <-> nonblank lines = []).
Proof.
  intros Hfile. unfold AnalyzeCost.analyze_cost. rewrite Hfile. intros E.
  apply bind_Ok in E. destruct E as ([ts costs] & Hloop & E).
  apply bind_Ok in E. destruct E as (avg & Havg & E).
  injection E as <-.
  cbn [AnalyzeCost.stats AnalyzeCost.instance_costs AnalyzeCost.per_instance].
  destruct (analyze_loop_counts _ _ _ _ _ Hloop) as (H1 & H2).
  cbn [AnalyzeCost.num_instances AnalyzeCost.empty_stats List.length Z.add
       Nat.add] in H1, H2.
  split; [exact H1 |]. split; [exact H2 |].
  unfold AnalyzeCost.average_block in Havg.
  destruct (0 <? AnalyzeCost.num_instances ts) eqn:Hpos.
  - apply Z.ltb_lt in Hpos.
    do 3 (apply bind_Ok in Havg; destruct Havg as (? & _ & Havg)).
    injection Havg as <-. split; [discriminate |].
    intros Hnil. rewrite Hnil in H1. cbn [List.length] in H1. lia.
  - apply Z.ltb_ge in Hpos. injection Havg as <-. split; [| reflexivity].
    intros _. destruct (nonblank lines); [reflexivity |].
    cbn [List.length] in H1. lia.
Qed.

End AnalyzeFile.

Lemma analyze_cost_counts_witness :
  AnalyzeCost.num_instances
    (AnalyzeCost.stats (Samples.analysis "blank_tail.jsonl"))
  = Z.of_nat
      (List.length
         (nonblank [Samples.doc Samples.record_a; Samples.doc Samples.record_b;
                    Samples.doc Samples.record_c; Samples.blank_line]))
  /\ List.length
       (AnalyzeCost.instance_costs (Samples.analysis "blank_tail.jsonl"))
     = List.length
         (filter (has_usage_stats (H := Samples.sample_json))
            (nonblank [Samples.doc Samples.record_a;
                       Samples.doc Samples.record_b;
                       Samples.doc Samples.record_c; Samples.blank_line]))
  /\ (AnalyzeCost.per_instance (Samples.analysis "blank_tail.jsonl") = None
      <-> nonblank [Samples.doc Samples.record_a; Samples.doc Samples.record_b;
                    Samples.doc Samples.record_c; Samples.blank_line] = []).
Proof.
  apply (analyze_cost_counts (H := Samples.sample_json) Samples.sample_files
           "blank_tail.jsonl").
  - reflexivity.
  - vm_compute. reflexivity.
Defined.

(** ** Reconciliation and the score reporter *)

Lemma reconciled_record_Ok (o o' : pyval) :
  reconciled_record o = Ok o' ->
  exists modified reason,
    FixCost.fix_instance_cost o = Ok (o', modified, reason).
Proof.
  unfold reconciled_record. intros E. apply bind_Ok in E.
  destruct E as ([[fixed modified] reason] & Hfix & E).
  injection E as <-. exists modified, reason. exact Hfix.
Qed.

(** Reconciliation changes neither what the score reporter reads as the
    score nor what it reads as the Level. *)
Lemma reconciled_score_and_level (o o' : pyval) :
  reconciled_record o = Ok o' ->
  GetScore.score_of o' = GetScore.score_of o
  /\ GetScore.level_of o' = GetScore.level_of o.
Proof.
  intros E. destruct (reconciled_record_Ok _ _ E) as (modified & reason & Hfix).
  destruct modified.
  - destruct (fix_instance_cost_modified _ _ _ Hfix)
      as (d & tr & us0 & us & -> & Hd & _ & ->).
    unfold GetScore.score_of, GetScore.level_of, py_getitem.
    rewrite dict_lookup_set_same, Hd. cbn [bind].
    rewrite (dict_lookup_set_other "usage_stats" "score") by discriminate.
    rewrite (dict_lookup_set_other "test_result" "instance") by discriminate.
    split; reflexivity.
  - destruct (fix_instance_cost_shape _ _ _ _ Hfix)
      as [[_ ->] | (Hm & _)]; [| discriminate Hm].
    split; reflexivity.
Qed.

Lemma tally_step_same_counts (t u t1 u1 : GetScore.tally) (o o' : pyval) :
  same_counts t u ->
  GetScore.score_of o' = GetScore.score_of o ->
  GetScore.level_of o' = GetScore.level_of o ->
  GetScore.tally_step t o = Ok t1 ->
  GetScore.tally_step u o' = Ok u1 ->
  same_counts t1 u1.
Proof.
  unfold same_counts, GetScore.tally_step.
  intros (E1 & E2 & E3 & E4 & E5 & E6 & E7 & E8) Hscore Hlevel Ht Hu.
  rewrite Hscore, Hlevel in Hu.
  apply bind_Ok in Ht. destruct Ht as (score & Hs & Ht).
  rewrite Hs in Hu. cbn [bind] in Hu.
  apply bind_Ok in Ht. destruct Ht as (level & Hl & Ht).
  rewrite Hl in Hu. cbn [bind] in Hu.
  rewrite ?Hs in Ht. cbn [bind] in Ht.
  destruct (py_eq_str level "1");
    [| destruct (py_eq_str level "2"); [| destruct (py_eq_str level "3")]].
  4: { injection Ht as <-. injection Hu as <-.
       cbn [GetScore.total GetScore.success GetScore.l1_total
            GetScore.l1_success GetScore.l2_total GetScore.l2_success
            GetScore.l3_total GetScore.l3_success].
       rewrite E1, E2, E3, E4, E5, E6, E7, E8. repeat split. }
  all: cbn [bind] in Ht;
    apply bind_Ok in Ht; destruct Ht as (ct & _ & Ht);
    apply bind_Ok in Ht; destruct Ht as (ft & _ & Ht);
    apply bind_Ok in Hu; destruct Hu as (cu & _ & Hu);
    apply bind_Ok in Hu; destruct Hu as (fu & _ & Hu);
    injection Ht as <-; injection Hu as <-;
    cbn [GetScore.total GetScore.success GetScore.l1_total
         GetScore.l1_success GetScore.l2_total GetScore.l2_success
         GetScore.l3_total GetScore.l3_success];
    rewrite E1, E2, E3, E4, E5, E6, E7, E8; repeat split.
Qed.

(** X20. Reconciliation does not change the success rates: when the score
    reporter's tally completes on a run of records and on their reconciled
    copies, the two tallies have the same instance and success counts,
    globally and in every tier; only the costs can differ. *)
Theorem reconciliation_keeps_score_counts (outs outs' : list pyval)
    (t t' : GetScore.tally) :
  Forall2 (fun o o' => reconciled_record o = Ok o') outs outs' ->
  for_each GetScore.tally_step outs GetScore.empty_tally = Ok t ->
  for_each GetScore.tally_step outs' GetScore.empty_tally = Ok t' ->
  same_counts t t'.
Proof.
  intros Hall.
  assert (Hstart : same_counts GetScore.empty_tally GetScore.empty_tally)
    by (unfold same_counts; repeat split).
  revert Hstart. generalize GetScore.empty_tally at 1 3.
  generalize GetScore.empty_tally.
  induction Hall as [| o o' outs outs' Hrec _ IH]; intros u0 t0 Hsame Ht Hu.
  - injection Ht as <-. injection Hu as <-. exact Hsame.
  - cbn [for_each] in Ht, Hu.
    apply bind_Ok in Ht. destruct Ht as (t1 & Hstep & Ht).
    apply bind_Ok in Hu. destruct Hu as (u1 & Hstep' & Hu).
    destruct (reconciled_score_and_level _ _ Hrec) as [Hscore Hlevel].
    apply (IH u1 t1); [| exact Ht | exact Hu].
    apply (tally_step_same_counts t0 u0 t1 u1 o o'); assumption.
Qed.

Lemma reconciliation_keeps_score_counts_witness :
  same_counts (tally_after GetScore.empty_tally Samples.documents)
    (tally_after GetScore.empty_tally Samples.documents_fixed).
Proof.
  apply (reconciliation_keeps_score_counts Samples.documents
           Samples.documents_fixed).
  - repeat constructor; vm_compute; reflexivity.
  - vm_compute. reflexivity.
  - vm_compute. reflexivity.
Defined.

(** ** Failure of the fix, and the totals of the analysis *)

Section Totals.
Context `{Json} {disk : Disk}.

(** X21. A fix that fails changes no file but, at most, its output file:
    every other path keeps its content; and unless every line of the input
    had been processed (the failure is then one of opening or writing the
    output), no file changes at all. *)
Theorem failed_fix_spares_other_files (files files' : fs)
    (input_path : string) (output_path : option string) (e : exn) :
  FixCost.fix_output_file files input_path output_path = (Raise e, files') ->
  (forall p,
     p <> match output_path with
          | None => FixCost.default_output_path input_path
          | Some out => out
          end ->
     files' p = files p)
  /\ ((forall lines st,
         files input_path = Some lines ->
         for_each FixCost.fix_line lines (FixCost.empty_summary, []) <> Ok st) ->
      files' = files).
Proof.
  unfold FixCost.fix_output_file.
  destruct (files input_path) as [lines |].
  - destruct (for_each FixCost.fix_line lines (FixCost.empty_summary, []))
      as [[sm fixed_lines] | e'] eqn:Hloop.
    + unfold fs_write.
      destruct (write_outcome_of _ _) as [| e' | e' reached];
        cbn [bind]; intros E; [discriminate | |]; injection E as _ <-.
      * split; [reflexivity |]. intros _. reflexivity.
      * split.
        -- intros p Hp. unfold fs_set.
           destruct (String.eqb _ dev_null); [reflexivity |].
           apply String.eqb_neq in Hp. rewrite Hp. reflexivity.
        -- intros Hnot. destruct (Hnot lines (sm, fixed_lines) eq_refl Hloop).
    + intros E. injection E as _ <-. split; reflexivity.
  - intros E. injection E as _ <-. split; reflexivity.
Qed.

(** What one line with usage_stats adds to the totals and to the entries. *)
Lemma analyze_line_sums (ts ts' : AnalyzeCost.total_stats)
    (costs costs' : list AnalyzeCost.instance_cost) (line : string) :
  AnalyzeCost.analyze_line (ts, costs) line = Ok (ts', costs') ->
  (costs' = costs
   /\ AnalyzeCost.total_cost ts' = AnalyzeCost.total_cost ts
   /\ AnalyzeCost.total_tokens ts' = AnalyzeCost.total_tokens ts
   /\ AnalyzeCost.total_api_calls ts' = AnalyzeCost.total_api_calls ts)
  \/ (exists entry,
        costs' = (costs ++ [entry])%list
        /\ float_add (AnalyzeCost.total_cost ts) (AnalyzeCost.ic_cost entry)
           = Ok (AnalyzeCost.total_cost ts')
        /\ num_add (AnalyzeCost.total_tokens ts) (AnalyzeCost.ic_tokens entry)
           = Ok (AnalyzeCost.total_tokens ts')
        /\ num_add (AnalyzeCost.total_api_calls ts)
             (AnalyzeCost.ic_api_calls entry)
           = Ok (AnalyzeCost.total_api_calls ts')).
Proof.
  unfold AnalyzeCost.analyze_line. destruct (is_blank line).
  { intros E. injection E as <- <-. left. repeat split. }
  intros E.
  apply bind_Ok in E. destruct E as (data & _ & E).
  apply bind_Ok in E. destruct E as (tr & _ & E).
  apply bind_Ok in E. destruct E as (us & _ & E).
  destruct (truthy us).
  - apply bind_Ok in E. destruct E as (v1 & _ & E).
    apply bind_Ok in E. destruct E as (prompt & _ & E).
    apply bind_Ok in E. destruct E as (v2 & _ & E).
    apply bind_Ok in E. destruct E as (completion & _ & E).
    apply bind_Ok in E. destruct E as (v3 & _ & E).
    apply bind_Ok in E. destruct E as (tokens & Htokens & E).
    apply bind_Ok in E. destruct E as (v4 & _ & E).
    apply bind_Ok in E. destruct E as (cost & Hcost & E).
    apply bind_Ok in E. destruct E as (v5 & _ & E).
    apply bind_Ok in E. destruct E as (calls & Hcalls & E).
    apply bind_Ok in E. destruct E as (iid & _ & E).
    apply bind_Ok in E. destruct E as (score & _ & E).
    injection E as <- <-. right. eexists. split; [reflexivity |].
    cbn [AnalyzeCost.ic_cost AnalyzeCost.ic_tokens AnalyzeCost.ic_api_calls
         AnalyzeCost.total_cost AnalyzeCost.total_tokens
         AnalyzeCost.total_api_calls].
    repeat split; assumption.
  - injection E as <- <-. left. repeat split.
Qed.

Lemma analyze_loop_sums (lines : list string) :
  forall ts costs ts' costs',
    for_each AnalyzeCost.analyze_line lines (ts, costs) = Ok (ts', costs') ->
    for_each float_add (map AnalyzeCost.ic_cost costs) fzero
    = Ok (AnalyzeCost.total_cost ts) ->
    for_each num_add (map AnalyzeCost.ic_tokens costs) (NInt 0)
    = Ok (AnalyzeCost.total_tokens ts) ->
    for_each num_add (map AnalyzeCost.ic_api_calls costs) (NInt 0)
    = Ok (AnalyzeCost.total_api_calls ts) ->
    for_each float_add (map AnalyzeCost.ic_cost costs') fzero
    = Ok (AnalyzeCost.total_cost ts')
    /\ for_each num_add (map AnalyzeCost.ic_tokens costs') (NInt 0)
       = Ok (AnalyzeCost.total_tokens ts')
    /\ for_each num_add (map AnalyzeCost.ic_api_calls costs') (NInt 0)
       = Ok (AnalyzeCost.total_api_calls ts').
Proof.
  induction lines as [| line lines IH]; intros ts costs ts' costs' E Hc Ht Ha.
  - injection E as <- <-. repeat split; assumption.
  - cbn [for_each] in E. apply bind_Ok in E.
    destruct E as ([ts1 costs1] & Hstep & E).
    apply (IH _ _ _ _ E);
      destruct (analyze_line_sums _ _ _ _ _ Hstep)
        as [(-> & E1 & E2 & E3) | (entry & -> & E1 & E2 & E3)];
      try (rewrite ?E1, ?E2, ?E3; assumption);
      rewrite map_app, for_each_app; cbn [map for_each];
      rewrite ?Hc, ?Ht, ?Ha; cbn [bind];
      rewrite ?E1, ?E2, ?E3; reflexivity.
Qed.

(** X22. In the report of a successful analysis the totals are the sums of
    the listed entries: adding the entries' costs in order to 0.0 gives the
    total cost, and adding their token counts and call counts in order to 0
    gives the total tokens and the total API calls. A record without
    usage_stats, which has no entry, adds nothing to these totals. *)
Theorem analyze_totals_are_sums_of_entries (files : fs) (output_file : string)
    (r : AnalyzeCost.cost_report) :
  AnalyzeCost.analyze_cost files output_file = Ok r ->
  for_each float_add (map AnalyzeCost.ic_cost (AnalyzeCost.instance_costs r))
    fzero
  = Ok (AnalyzeCost.total_cost (AnalyzeCost.stats r))
  /\ for_each num_add
       (map AnalyzeCost.ic_tokens (AnalyzeCost.instance_costs r)) (NInt 0)
     = Ok (AnalyzeCost.total_tokens (AnalyzeCost.stats r))
  /\ for_each num_add
       (map AnalyzeCost.ic_api_calls (AnalyzeCost.instance_costs r)) (NInt 0)
     = Ok (AnalyzeCost.total_api_calls (AnalyzeCost.stats r)).
Proof.
  unfold AnalyzeCost.analyze_cost.
  destruct (files output_file) as [lines |]; [| discriminate]. intros E.
  apply bind_Ok in E. destruct E as ([ts costs] & Hloop & E).
  apply bind_Ok in E. destruct E as (avg & _ & E). injection E as <-.
  cbn [AnalyzeCost.stats AnalyzeCost.instance_costs].
  apply (analyze_loop_sums _ _ _ _ _ Hloop); reflexivity.
Qed.

End Totals.

Lemma failed_fix_spares_other_files_witness :
  (forall p,
     p <> "small/out.jsonl" ->
     snd (FixCost.fix_output_file (H := Samples.sample_json)
            (disk := Samples.worn_disk) Samples.sample_files
            "blank_tail.jsonl" (Some "small/out.jsonl")) p
     = Samples.sample_files p)
  /\ ((forall lines st,
         Samples.sample_files "blank_tail.jsonl" = Some lines ->
         for_each (FixCost.fix_line (H := Samples.sample_json)) lines
           (FixCost.empty_summary, [])
         <> Ok st) ->
      snd (FixCost.fix_output_file (H := Samples.sample_json)
             (disk := Samples.worn_disk) Samples.sample_files
             "blank_tail.jsonl" (Some "small/out.jsonl"))
      = Samples.sample_files).
Proof.
  apply (failed_fix_spares_other_files (H := Samples.sample_json)
           (disk := Samples.worn_disk) Samples.sample_files
           (snd (FixCost.fix_output_file (H := Samples.sample_json)
                   (disk := Samples.worn_disk) Samples.sample_files
                   "blank_tail.jsonl" (Some "small/out.jsonl")))
           "blank_tail.jsonl" (Some "small/out.jsonl") OSError).
  vm_compute. reflexivity.
Defined.

(** The fix on a worn disk. Where the output cannot be opened the fix fails
    and the output does not come to exist; where the disk fills up after one
    line the fix fails and leaves an output file of that one line; and with
    [--dry-run] the same run changes nothing. *)
Example fix_on_a_worn_disk :
  fst (FixCost.fix_output_file (H := Samples.sample_json)
         (disk := Samples.worn_disk) Samples.sample_files "blank_tail.jsonl"
         (Some "locked/out.jsonl"))
  = Raise OSError
  /\ snd (FixCost.fix_output_file (H := Samples.sample_json)
            (disk := Samples.worn_disk) Samples.sample_files
            "blank_tail.jsonl" (Some "locked/out.jsonl")) "locked/out.jsonl"
     = None
  /\ fst (FixCost.fix_output_file (H := Samples.sample_json)
            (disk := Samples.worn_disk) Samples.sample_files
            "blank_tail.jsonl" (Some "small/out.jsonl"))
     = Raise OSError
  /\ Samples.sample_files "small/out.jsonl" = None
  /\ snd (FixCost.fix_output_file (H := Samples.sample_json)
            (disk := Samples.worn_disk) Samples.sample_files
            "blank_tail.jsonl" (Some "small/out.jsonl")) "small/out.jsonl"
     = Some [Samples.doc Samples.record_a]
  /\ snd (FixCost.main (H := Samples.sample_json) (disk := Samples.worn_disk)
            Samples.sample_files
            {| FixCost.input_file := "blank_tail.jsonl";
               FixCost.output := Some "small/out.jsonl";
               FixCost.dry_run := true |}) "small/out.jsonl"
     = None.
Proof.
  repeat split; vm_compute; reflexivity.
Qed.

Lemma analyze_totals_are_sums_of_entries_witness :
  for_each float_add
    (map AnalyzeCost.ic_cost
       (AnalyzeCost.instance_costs (Samples.analysis "levels.jsonl"))) fzero
  = Ok (AnalyzeCost.total_cost
          (AnalyzeCost.stats (Samples.analysis "levels.jsonl")))
  /\ for_each num_add
       (map AnalyzeCost.ic_tokens
          (AnalyzeCost.instance_costs (Samples.analysis "levels.jsonl")))
       (NInt 0)
     = Ok (AnalyzeCost.total_tokens
             (AnalyzeCost.stats (Samples.analysis "levels.jsonl")))
  /\ for_each num_add
       (map AnalyzeCost.ic_api_calls
          (AnalyzeCost.instance_costs (Samples.analysis "levels.jsonl")))
       (NInt 0)
     = Ok (AnalyzeCost.total_api_calls
             (AnalyzeCost.stats (Samples.analysis "levels.jsonl"))).
Proof.
  apply (analyze_totals_are_sums_of_entries (H := Samples.sample_json)
           Samples.sample_files "levels.jsonl").
  vm_compute. reflexivity.
Defined.
